(** * COMMIT: tractogram-to-dictionary front end ([trk2dictionary.pyx])

    A shallow embedding of the Python/Cython driver
    [commit/trk2dictionary/trk2dictionary.pyx]: the legacy dictionary
    migration [convert_old_dictionary] and the conversion driver [run].

    Conventions.
    - Fixed-width numpy integers are [Z] with the wrap-around written out.
    - Python floats and C doubles are Rocq's primitive binary64 floats.
    - Exceptions are values of [exn]; effectful code lives in the monad
      [M], which threads the file system and the console. *)

From Stdlib Require Import ZArith Lia Floats.
From Stdlib Require Strings.Byte.
From Stdlib Require Import Strings.Ascii.
From stdpp Require Import gmap strings list.

Local Open Scope Z_scope.
#[local] Set Warnings "-inexact-float".

(** ** Fixed-width unsigned arithmetic (numpy [uint8], [uint16], [uint32]) *)

Module Np.

Inductive dtype := uint8 | uint16 | uint32.

Definition bits (d : dtype) : Z :=
  match d with uint8 => 8 | uint16 => 16 | uint32 => 32 end.

Definition itemsize (d : dtype) : nat :=
  match d with uint8 => 1%nat | uint16 => 2%nat | uint32 => 4%nat end.

Definition modulus (d : dtype) : Z := 2 ^ bits d.

Definition wrap (d : dtype) (n : Z) : Z := n mod modulus d.

(** Element-wise [+] and [*] of two items of the same dtype. *)
Definition add (d : dtype) (a b : Z) : Z := wrap d (a + b).
Definition mul (d : dtype) (a b : Z) : Z := wrap d (a * b).

End Np.

(** ** The merged index encodings of [convert_old_dictionary]

    [v = x + Nx * ( y + Ny * z )] on [uint32] arrays (lines 429 and 438) and
    [v = y + 181 * x] on [uint16] arrays (lines 446 and 453).  [Nx] and [Ny]
    are Python integers; multiplied with a [uint32] array they are taken at
    the array's dtype, so every intermediate result wraps modulo 2^32. *)

Definition voxel_index (Nx Ny x y z : Z) : Z :=
  Np.add Np.uint32 x (Np.mul Np.uint32 Nx (Np.add Np.uint32 y (Np.mul Np.uint32 Ny z))).

Definition orientation_index (ox oy : Z) : Z :=
  Np.add Np.uint16 oy (Np.mul Np.uint16 181 ox).

(** ** Exceptions and results *)

Inductive exn :=
  | RuntimeError (msg : string)
  | IOError (msg : string)
  | FileNotFoundError (path : string)
  | ImageFileError (path : string)
  | TypeError
  | ValueError
  | KeyError (key : string)
  | IndexError
  | OverflowError
  | ZeroDivisionError
  | LinAlgError
  (** [nibabel.spatialimages.HeaderDataError]. *)
  | HeaderDataError
  (** Not an exception.  Line 2 compiles the module with
      [boundscheck=False]: an item of a list or tuple is fetched without
      comparing the index with the length, and a read past the end has no
      defined result (the process is usually killed).  The model ends the
      run at such a read; no handler of the program catches it. *)
  | OutOfBoundsRead.

Inductive result (A : Type) :=
  | Ok (a : A)
  | Raise (e : exn).
Arguments Ok {A} a.
Arguments Raise {A} e.

(** ** numpy arrays of unsigned integers and their on-disk layout *)

Module Arr.

Definition byte_to_Z (b : Byte.byte) : Z := Z.of_N (Byte.to_N b).

Definition byte_of_Z (z : Z) : Byte.byte :=
  match Byte.of_N (Z.to_N (z mod 256)) with
  | Some b => b
  | None => Byte.x00
  end.

(** Little-endian value of a group of bytes. *)
Fixpoint le_decode (bs : list Byte.byte) : Z :=
  match bs with
  | [] => 0
  | b :: r => byte_to_Z b + 256 * le_decode r
  end.

(** The [k] little-endian bytes of an item. *)
Fixpoint le_encode (k : nat) (v : Z) : list Byte.byte :=
  match k with
  | O => []
  | S k' => byte_of_Z (v mod 256) :: le_encode k' (v / 256)
  end.

Fixpoint items_from (k n : nat) (bs : list Byte.byte) : list Z :=
  match n with
  | O => []
  | S n' => le_decode (take k bs) :: items_from k n' (drop k bs)
  end.

(** [np.fromfile( f, dtype=d )] on the bytes of [f]: as many whole items as
    the file holds, a trailing partial item is dropped. *)
Definition of_bytes (d : Np.dtype) (bs : list Byte.byte) : list Z :=
  items_from (Np.itemsize d) (length bs / Np.itemsize d)%nat bs.

(** [v.tofile( f )] for an array of dtype [d]. *)
Definition to_bytes (d : Np.dtype) (v : list Z) : list Byte.byte :=
  flat_map (le_encode (Np.itemsize d)) v.

(** [a + b] on one-dimensional arrays of dtype [d], with numpy's
    broadcasting of a one-item operand. *)
Definition add (d : Np.dtype) (a b : list Z) : result (list Z) :=
  if decide (length a = length b) then Ok (zip_with (Np.add d) a b)
  else match a, b with
       | [x], _ => Ok (map (Np.add d x) b)
       | _, [y] => Ok (map (fun x => Np.add d x y) a)
       | _, _ => Raise ValueError
       end.

(** [k * a] for a Python integer [k] and an array of dtype [d].  For
    [0 <= k < 2^bits] the product keeps the array's dtype and wraps; a
    scalar that does not fit the dtype is refused ([OverflowError], the
    behaviour of numpy 2; older releases promote the result instead, a
    case no grid extent reaches). *)
Definition scale (d : Np.dtype) (k : Z) (a : list Z) : result (list Z) :=
  if decide (0 <= k < Np.modulus d) then Ok (map (Np.mul d k) a)
  else Raise OverflowError.

End Arr.

(** ** Files, the file system and the console *)

Definition point : Type := float * float * float.
Definition streamline : Type := list point.

(** Values found in a streamline-file header. *)
Inductive hval :=
  | HInt (n : Z)
  | HInts (l : list Z)
  | HFloats (l : list float)
  | HStr (s : string).

(** A streamline file as nibabel presents it: a header dictionary and the
    streamlines in file order. *)
Record tractogram := Tractogram {
  trk_header : gmap string hval;
  trk_streamlines : list streamline
}.

(** A volumetric image: its shape, the header's [pixdim], the 4x4 affine
    (row-major) and the voxel data (flattened). *)
Record nifti := Nifti {
  nii_shape : list Z;
  nii_pixdim : list float;
  nii_affine : list float;
  nii_data : list float
}.

(** The argument of [run]'s [fiber_shift]: a scalar or a sequence. *)
Inductive shift_arg :=
  | ShiftScalar (s : float)
  | ShiftSeq (l : list float).

(** The metadata record pickled next to the dictionary (lines 102-118). *)
Record dictionary_info := DictionaryInfo {
  di_filename_trk : option string;
  di_path_out : option string;
  di_filename_peaks : option string;
  di_filename_mask : option string;
  di_do_intersect : bool;
  di_fiber_shift : shift_arg;
  di_points_to_skip : Z;
  di_vf_THR : float;
  di_peaks_use_affine : bool;
  di_flip_peaks : list bool;
  di_min_seg_len : float;
  di_gen_trk : bool;
  di_blur_radii : list float;
  di_blur_samples : list Z;
  di_blur_sigma : float;
  di_ndirs : Z
}.

(** A file is modelled by what its loader yields. *)
Inductive file :=
  | FRaw (bytes : list Byte.byte)
  | FImage (img : nifti)
  | FTract (t : tractogram)
  | FPickle (info : dictionary_info).

(** What the program does to the outside world, in order. *)
Inductive event :=
  | EPrint (msg : string)
  | ERead (path : string)
  | EWrite (path : string)
  | ERemove (path : string)
  | EMakedirs (path : string)
  | EHashTable (ndirs : Z)
  | ENative (path_out : string).

Record world := World {
  files : gmap string file;
  dirs : gset string;
  log : list event
}.

Definition set_files (f : gmap string file → gmap string file) (w : world) : world :=
  World (f (files w)) (dirs w) (log w).

Definition add_dir (d : string) (w : world) : world :=
  World (files w) ({[d]} ∪ dirs w) (log w).

Definition emit (e : event) (w : world) : world :=
  World (files w) (dirs w) (log w ++ [e]).

(** ** The monad of effectful code: state passing with exceptions.  The
    world at the point of a [Raise] is kept: effects are not rolled back. *)

Definition M (A : Type) : Type := world → result A * world.

Definition ret {A} (a : A) : M A := fun w => (Ok a, w).

Definition bind {A B} (m : M A) (k : A → M B) : M B :=
  fun w => match m w with
           | (Ok a, w') => k a w'
           | (Raise e, w') => (Raise e, w')
           end.

Definition raise {A} (e : exn) : M A := fun w => (Raise e, w).

Definition lift {A} (r : result A) : M A := fun w => (r, w).

Definition tell (e : event) : M unit := fun w => (Ok tt, emit e w).

Declare Scope py_scope.
Delimit Scope py_scope with py.
Notation "x <- m ;; k" := (bind m (fun x => k))
  (at level 100, m at next level, right associativity) : py_scope.
Notation "m ;;; k" := (bind m (fun _ => k))
  (at level 100, right associativity) : py_scope.
Local Open Scope py_scope.

Definition print (msg : string) : M unit := tell (EPrint msg).

(** Sequencing of pure, fallible steps. *)
Definition rbind {A B} (r : result A) (k : A → result B) : result B :=
  match r with
  | Ok a => k a
  | Raise e => Raise e
  end.

(** ** Paths ([os.path]) *)

Module Path.

Definition starts_with_slash (s : string) : bool :=
  match s with
  | String c _ => Ascii.eqb c "/"%char
  | EmptyString => false
  end.

Fixpoint ends_with_slash (s : string) : bool :=
  match s with
  | EmptyString => false
  | String c EmptyString => Ascii.eqb c "/"%char
  | String _ r => ends_with_slash r
  end.

(** [os.path.join( a, b )] (POSIX). *)
Definition join (a b : string) : string :=
  if starts_with_slash b then b
  else if String.eqb a EmptyString || ends_with_slash a then a +:+ b
  else a +:+ "/" +:+ b.

(** Index of the last occurrence of [c] in [l], or -1. *)
Fixpoint rfind_from (c : ascii) (l : list ascii) (i acc : Z) : Z :=
  match l with
  | [] => acc
  | a :: l' => rfind_from c l' (i + 1) (if Ascii.eqb a c then i else acc)
  end.

Definition rfind (c : ascii) (l : list ascii) : Z := rfind_from c l 0 (-1).

(** [os.path.splitext( p )[1]]: the text from the last dot of the last
    path component, unless that component has only leading dots before
    it. *)
Definition extension (p : string) : string :=
  let l := String.list_ascii_of_string p in
  let sep := rfind "/"%char l in
  let dot := rfind "."%char l in
  if sep <? dot then
    let stem := take (Z.to_nat (dot - (sep + 1))) (drop (Z.to_nat (sep + 1)) l) in
    if forallb (fun a => Ascii.eqb a "."%char) stem then EmptyString
    else String.string_of_list_ascii (drop (Z.to_nat dot) l)
  else EmptyString.

End Path.

(** ** Library calls touching the file system *)

(** [os.path.exists( p )]. *)
Definition path_exists (p : string) : M bool :=
  fun w => (Ok (bool_decide (is_Some (files w !! p)) || bool_decide (p ∈ dirs w)), w).

(** [os.remove( p )]. *)
Definition os_remove (p : string) : M unit :=
  fun w => match files w !! p with
           | Some _ => (Ok tt, emit (ERemove p) (set_files (delete p) w))
           | None => (Raise (FileNotFoundError p), w)
           end.

(** [os.makedirs( p )]. *)
Definition os_makedirs (p : string) : M unit :=
  fun w => if String.eqb p EmptyString then (Raise (FileNotFoundError p), w)
           else (Ok tt, emit (EMakedirs p) (add_dir p w)).

(** Writing a whole file; the model does not track permissions or free
    space, so a write succeeds. *)
Definition write_file (p : string) (f : file) : M unit :=
  fun w => (Ok tt, emit (EWrite p) (set_files (insert p f) w)).

(** [np.fromfile( p, dtype=d )].  Only raw binary files have a byte-level
    model here. *)
Definition np_fromfile (d : Np.dtype) (p : string) : M (list Z) :=
  fun w => match files w !! p with
           | Some (FRaw bs) => (Ok (Arr.of_bytes d bs), emit (ERead p) w)
           | Some _ => (Raise (IOError "not a raw binary file"), w)
           | None => (Raise (FileNotFoundError p), w)
           end.

(** [v.tofile( p )] for [v] of dtype [d]. *)
Definition np_tofile (d : Np.dtype) (v : list Z) (p : string) : M unit :=
  write_file p (FRaw (Arr.to_bytes d v)).

(** [nibabel.load( p )].  A file that is not an image is opened and read
    before it is refused. *)
Definition nib_load (p : string) : M nifti :=
  fun w => match files w !! p with
           | Some (FImage img) => (Ok img, emit (ERead p) w)
           | Some _ => (Raise (ImageFileError p), emit (ERead p) w)
           | None => (Raise (FileNotFoundError p), w)
           end.

(** [nibabel.save( img, p )]. *)
Definition nib_save (img : nifti) (p : string) : M unit :=
  write_file p (FImage img).

(** [nibabel.streamlines.load( p )].  A file that is not a streamline
    file is opened and read before it is refused. *)
Definition streamlines_load (p : string) : M tractogram :=
  fun w => match files w !! p with
           | Some (FTract t) => (Ok t, emit (ERead p) w)
           | Some _ => (Raise (ValueError), emit (ERead p) w)
           | None => (Raise (FileNotFoundError p), w)
           end.

(** ** [convert_old_dictionary] (lines 411-456) *)

(** [x + Nx * ( y + Ny * z )] on [uint32] arrays. *)
Definition voxel_array (Nx Ny : Z) (x y z : list Z) : result (list Z) :=
  rbind (Arr.scale Np.uint32 Ny z) (fun t1 =>
  rbind (Arr.add Np.uint32 y t1) (fun t2 =>
  rbind (Arr.scale Np.uint32 Nx t2) (fun t3 =>
  Arr.add Np.uint32 x t3))).

(** [y + 181 * x] on [uint16] arrays. *)
Definition orientation_array (x y : list Z) : result (list Z) :=
  rbind (Arr.scale Np.uint16 181 x) (fun t => Arr.add Np.uint16 y t).

(** One voxel block: read the three split files at the legacy item width
    (widened to [uint32] by [astype]), write the merged file, remove the
    split ones. *)
Definition merge_voxel_files (path : string) (legacy : Np.dtype)
    (fx fy fz fv : string) (Nx Ny : Z) : M unit :=
  x <- np_fromfile legacy (Path.join path fx) ;;
  y <- np_fromfile legacy (Path.join path fy) ;;
  z <- np_fromfile legacy (Path.join path fz) ;;
  v <- lift (voxel_array Nx Ny x y z) ;;
  np_tofile Np.uint32 v (Path.join path fv) ;;;
  os_remove (Path.join path fx) ;;;
  os_remove (Path.join path fy) ;;;
  os_remove (Path.join path fz).

(** One orientation block: two [uint8] files widened to [uint16]. *)
Definition merge_orientation_files (path : string) (fx fy fo : string) : M unit :=
  x <- np_fromfile Np.uint8 (Path.join path fx) ;;
  y <- np_fromfile Np.uint8 (Path.join path fy) ;;
  v <- lift (orientation_array x y) ;;
  np_tofile Np.uint16 v (Path.join path fo) ;;;
  os_remove (Path.join path fx) ;;;
  os_remove (Path.join path fy).

Definition old_format_missing : exn :=
  RuntimeError "Folder does not contain dictionary files in the old format".

Definition convert_old_dictionary (path : string) : M unit :=
  found <- path_exists (Path.join path "dictionary_IC_vx.dict") ;;
  if negb found then raise old_format_missing else
  niiTDI <- nib_load (Path.join path "dictionary_tdi.nii.gz") ;;
  match take 3 (nii_shape niiTDI) with
  | [Nx; Ny; Nz] =>
      merge_voxel_files path Np.uint16
        "dictionary_IC_vx.dict" "dictionary_IC_vy.dict" "dictionary_IC_vz.dict"
        "dictionary_IC_v.dict" Nx Ny ;;;
      merge_voxel_files path Np.uint8
        "dictionary_EC_vx.dict" "dictionary_EC_vy.dict" "dictionary_EC_vz.dict"
        "dictionary_EC_v.dict" Nx Ny ;;;
      merge_orientation_files path
        "dictionary_IC_ox.dict" "dictionary_IC_oy.dict" "dictionary_IC_o.dict" ;;;
      merge_orientation_files path
        "dictionary_EC_ox.dict" "dictionary_EC_oy.dict" "dictionary_EC_o.dict"
  | _ => raise ValueError
  end.

(** ** Python values and operators used by [run] *)

Module Py.

(** [a[i]] on a numpy array (a header field): numpy checks the index. *)
Definition index {A} (l : list A) (i : nat) : result A :=
  match l !! i with
  | Some x => Ok x
  | None => Raise IndexError
  end.

(** [l[i]] on a list, a tuple or a typed memoryview, as compiled under
    [boundscheck=False] (line 2): the index is not checked. *)
Definition unchecked {A} (l : list A) (i : nat) : result A :=
  match l !! i with
  | Some x => Ok x
  | None => Raise OutOfBoundsRead
  end.

(** [a / b] on Python floats. *)
Definition truediv (a b : float) : result float :=
  if (b =? 0)%float then Raise ZeroDivisionError else Ok (a / b)%float.

(** [hdr[key]] on a header dictionary. *)
Definition getitem (hdr : gmap string hval) (key : string) : result hval :=
  match hdr !! key with
  | Some v => Ok v
  | None => Raise (KeyError key)
  end.

(** [v[i]] for a header entry holding integers, or floats. *)
Definition int_at (v : hval) (i : nat) : result Z :=
  match v with
  | HInts l => index l i
  | _ => Raise TypeError
  end.

Definition float_at (v : hval) (i : nat) : result float :=
  match v with
  | HFloats l => index l i
  | _ => Raise TypeError
  end.

(** A header entry passed where a C [int] is expected. *)
Definition as_int (v : hval) : result Z :=
  match v with
  | HInt n => Ok n
  | _ => Raise TypeError
  end.

(** Boolean-mask selection [seq[ mask ]]: the items whose flag is set, in
    order; the mask must be as long as the sequence. *)
Fixpoint compress {A} (mask : list bool) (l : list A) : list A :=
  match mask, l with
  | b :: mask', x :: l' => if b then x :: compress mask' l' else compress mask' l'
  | _, _ => []
  end.

Definition mask_select {A} (l : list A) (mask : list bool) : result (list A) :=
  if decide (length mask = length l) then Ok (compress mask l)
  else Raise IndexError.

(** [np.count_nonzero] on a boolean array. *)
Definition count_nonzero (mask : list bool) : Z :=
  Z.of_nat (length (filter (fun b => b = true) mask)).

End Py.

(** ** The external collaborators of [run]

    The native kernel [trk2dictionary_c.cpp], the [amico] look-up tables and
    the C library are not part of this file; they enter as the fields of an
    environment. *)

(** The arguments of the native [trk2dictionary] call (lines 17-23), pointers
    taken as the arrays they point to, [None] for a missing array. *)
Record native_args := NativeArgs {
  na_filename_tractogram : string;
  na_data_offset : Z;
  na_dims : Z * Z * Z;
  na_voxel_sizes : float * float * float;
  na_n_count : Z;
  na_n_scalars : Z;
  na_n_properties : Z;
  na_fiber_shift : float * float * float;
  na_points_to_skip : Z;
  na_min_seg_len : float;
  na_peaks : option (list float);
  na_Np : Z;
  na_vf_THR : float;
  na_EC_flips : Z * Z * Z;
  na_mask : option (list float);
  na_path_out : string;
  na_c : Z;
  na_affine : option (list float);
  na_nBlurRadii : Z;
  na_blurSigma : float;
  na_blurRadii : list float;
  na_blurSamples : list Z;
  na_blurWeights : list float;
  na_ArrayInvM : option (list float);
  na_ndirs : Z;
  na_hash_table : list Z
}.

Record env := Env {
  (** C [pow( x, 2.0 )] and numpy's [exp] on doubles. *)
  c_pow2 : float → float;
  np_exp : float → float;
  (** [int( s )] on a header string. *)
  parse_int : string → option Z;
  (** [amico.lut.load_precomputed_hash_table( ndirs )]. *)
  load_precomputed_hash_table : Z → result (list Z);
  (** Lines 284-295: the flattened inverse of the reference image's best
      affine with the voxel scaling divided out ([LinAlgError] when it is
      singular). *)
  inverse_unscaled_affine : nifti → float * float * float → result (list float);
  (** The zooms nibabel derives from an affine for a new image header. *)
  zooms_of_affine : list float → list float;
  (** The native conversion pass: its return code and the track-density
      data it fills in, and what it does to the output directory. *)
  trk2dictionary : native_args → world → Z * list float * world
}.

(** The supported numbers of directions: the set of section 4.1 of the
    specification, which is also the list quoted by the error message of
    line 122. *)
Definition supported_ndirs : list Z :=
  [500; 1000; 1500; 2000; 2500; 3000; 3500; 4000; 4500; 5000; 5500; 6000;
   6500; 7000; 7500; 8000; 8500; 9000; 9500; 10000; 32761].

(** Modelled from the spec: [amico.lut.is_valid], which lives in the [amico]
    package and not with this source; section 4.1 has it accept exactly the
    supported values. *)
Definition lut_is_valid (ndirs : Z) : bool :=
  bool_decide (ndirs ∈ supported_ndirs).

(** ** The parameters of [run] (line 26) *)

Record run_args := RunArgs {
  filename_tractogram : option string;
  path_out : option string;
  filename_peaks : option string;
  filename_mask : option string;
  do_intersect : bool;
  fiber_shift : shift_arg;
  points_to_skip : Z;
  vf_THR : float;
  peaks_use_affine : bool;
  flip_peaks : list bool;
  min_seg_len : float;
  gen_trk : bool;
  blur_radii : list float;
  blur_samples : list Z;
  blur_sigma : float;
  filename_trk : option string;
  TCK_ref_image : option string;
  ndirs : Z
}.

(** The defaults of the signature. *)
Definition default_args : run_args := {|
  filename_tractogram := None;
  path_out := None;
  filename_peaks := None;
  filename_mask := None;
  do_intersect := true;
  fiber_shift := ShiftScalar 0%float;
  points_to_skip := 0;
  vf_THR := 0.1%float;
  peaks_use_affine := false;
  flip_peaks := [false; false; false];
  min_seg_len := 1e-3%float;
  gen_trk := true;
  blur_radii := [];
  blur_samples := [];
  blur_sigma := 1%float;
  filename_trk := None;
  TCK_ref_image := None;
  ndirs := 32761
|}.

(** ** [run], block by block (lines 101-408) *)

(** Lines 102-118: every parameter but [filename_tractogram] and
    [TCK_ref_image] is recorded. *)
Definition info_of_args (a : run_args) : dictionary_info := {|
  di_filename_trk := filename_trk a;
  di_path_out := path_out a;
  di_filename_peaks := filename_peaks a;
  di_filename_mask := filename_mask a;
  di_do_intersect := do_intersect a;
  di_fiber_shift := fiber_shift a;
  di_points_to_skip := points_to_skip a;
  di_vf_THR := vf_THR a;
  di_peaks_use_affine := peaks_use_affine a;
  di_flip_peaks := flip_peaks a;
  di_min_seg_len := min_seg_len a;
  di_gen_trk := gen_trk a;
  di_blur_radii := blur_radii a;
  di_blur_samples := blur_samples a;
  di_blur_sigma := blur_sigma a;
  di_ndirs := ndirs a
|}.

(** The message of line 122 goes on to list the supported values. *)
Definition unsupported_ndirs : exn :=
  RuntimeError "Unsupported value for ndirs.".

(** Lines 120-122. *)
Definition check_ndirs (a : run_args) : M unit :=
  if negb (lut_is_valid (ndirs a)) then raise unsupported_ndirs else ret tt.

(** Lines 124-134. *)
Definition resolve_fiber_shift (s : shift_arg) : result (float * float * float) :=
  match s with
  | ShiftScalar f => Ok (f, f, f)
  | ShiftSeq [x; y; z] => Ok (x, y, z)
  | ShiftSeq _ => Raise (RuntimeError "fiber_shift must be a scalar or a vector with 3 elements")
  end.

(** *** Blur parameters (lines 145-190) *)

Record blur := Blur {
  nBlurRadii : Z;
  blurRadii : list float;
  blurSamples : list Z;
  blurWeights : list float
}.

(** The cast of a C [long] to a C [int]: the low 32 bits, signed. *)
Definition int32_of_long (n : Z) : Z := (n + 2 ^ 31) mod 2 ^ 32 - 2 ^ 31.

(** A Python integer stored into an [np.int32] array by
    [np.array( ..., np.int32 )], as numpy 1.x does it: the value goes
    through a C [long] ([OverflowError] beyond it) and is cast to 32 bits,
    wrapping.  (numpy 2 refuses a value outside [int32] instead; a value
    that fits is stored unchanged by both.) *)
Definition c_int32 (n : Z) : result Z :=
  if decide (- 2 ^ 63 <= n < 2 ^ 63) then Ok (int32_of_long n) else Raise OverflowError.

Fixpoint rmap {A B} (f : A → result B) (l : list A) : result (list B) :=
  match l with
  | [] => Ok []
  | x :: l' => rbind (f x) (fun y => rbind (rmap f l') (fun ys => Ok (y :: ys)))
  end.

Section Blur.
Variable E : env.

(** [blur_sigma**2] on a Python float: the special cases of CPython's
    [float_pow] (NaN, infinities, zeros, a base of magnitude 1), then C
    [pow] on the magnitude, an infinite result being an [OverflowError]. *)
Definition py_square (s : float) : result float :=
  if is_nan s then Ok s
  else if is_infinity s then Ok infinity
  else if is_zero s then Ok 0%float
  else let v := abs s in
       if (v =? 1)%float then Ok 1%float
       else let p := c_pow2 E v in
            if is_infinity p then Raise OverflowError else Ok p.

(** Line 168: [np.exp( -blurRadii[i]**2 / (2.0*blur_sigma**2) )].  The
    radius is a C double, the quotient is a Python division. *)
Definition gaussian_damping (r sigma : float) : result float :=
  let num := (- c_pow2 E r)%float in
  rbind (py_square sigma) (fun s2 =>
  rbind (Py.truediv num (2 * s2)%float) (fun q =>
  Ok (np_exp E q))).

(** Lines 167-168: the loop storing one weight per index. *)
Fixpoint fill_weights (sigma : float) (radii : list float) (idx : list nat)
    (weights : list float) : result (list float) :=
  match idx with
  | [] => Ok weights
  | i :: idx' =>
      rbind (Py.unchecked radii i) (fun r =>
      rbind (gaussian_damping r sigma) (fun w =>
      fill_weights sigma radii idx' (<[i := w]> weights)))
  end.

(** Lines 157-168.  [np.empty_like] leaves the weights uninitialised; the
    model starts from the radii, every item is overwritten by the loop. *)
Definition blur_params (radii : list float) (samples : list Z) (sigma : float)
    : result blur :=
  if decide (length radii = length samples) then
    let n := (length radii + 1)%nat in
    let radii0 := 0%float :: radii in
    rbind (rmap c_int32 (1 :: samples)) (fun samples0 =>
    rbind (fill_weights sigma radii0 (seq 0 n) radii0) (fun weights =>
    Ok (Blur (Z.of_nat n) radii0 samples0 weights)))
  else Raise (RuntimeError "number of radii and samples must match").

(** Lines 170-186. *)
Definition print_blur (b : blur) : M unit :=
  if (nBlurRadii b =? 1)%Z then print "* Do not blur fibers"
  else
    print "* Blur fibers :" ;;;
    print "- sigma = %.3f" ;;;
    print "- radii = [...]" ;;;
    print "- samples = [...]" ;;;
    print "- weights = [...]".

End Blur.

(** *** Tractogram and geometry (lines 202-280) *)

(** [try: ... except: raise e]. *)
Definition replacing_errors {A} (m : M A) (e : exn) : M A :=
  fun w => match m w with
           | (Ok x, w') => (Ok x, w')
           | (Raise _, w') => (Raise e, w')
           end.

(** Lines 205-216: which path is the tractogram.  The test of line 205 is
    kept although line 101 has already rejected a missing [path_out]. *)
Definition choose_tractogram (a : run_args) : M string :=
  match path_out a with
  | None => raise (RuntimeError "Path out not defined")
  | Some _ =>
      match filename_trk a, filename_tractogram a with
      | None, None => raise (RuntimeError "Tractogram file not defined")
      | Some _, Some f =>
          print "[WARNING] filename_tractogram will be used, filename_trk will not be considered" ;;;
          ret f
      | Some t, None =>
          print "[WARNING] filename_trk parameter is deprecated, in the future use filename_tractogram" ;;;
          ret t
      | None, Some f => ret f
      end
  end.

(** Lines 218-225: the extension is checked, then the header is read. *)
Definition open_tractogram (f : string) : M (string * gmap string hval) :=
  let extension := Path.extension f in
  if negb (String.eqb extension ".trk") && negb (String.eqb extension ".tck") then
    raise (IOError "Invalid input file. Please enter tractogram file .trk or .tck")
  else
    t <- replacing_errors (streamlines_load f) (IOError "Tractogram file not found") ;;
    ret (extension, trk_header t).

Record geometry := Geometry {
  g_dims : Z * Z * Z;
  g_voxel_sizes : float * float * float;
  g_data_offset : Z;
  g_n_count : Z;
  g_n_scalars : Z;
  g_n_properties : Z
}.

(** Lines 227-238: a [.trk] header carries the geometry. *)
Definition trk_geometry (hdr : gmap string hval) : result geometry :=
  rbind (Py.getitem hdr "dimensions") (fun d =>
  rbind (Py.int_at d 0) (fun Nx =>
  rbind (Py.int_at d 1) (fun Ny =>
  rbind (Py.int_at d 2) (fun Nz =>
  rbind (Py.getitem hdr "voxel_sizes") (fun v =>
  rbind (Py.float_at v 0) (fun Px =>
  rbind (Py.float_at v 1) (fun Py =>
  rbind (Py.float_at v 2) (fun Pz =>
  rbind (rbind (Py.getitem hdr "nb_streamlines") Py.as_int) (fun n_count =>
  rbind (rbind (Py.getitem hdr "nb_scalars_per_point") Py.as_int) (fun n_scalars =>
  rbind (rbind (Py.getitem hdr "nb_properties_per_streamline") Py.as_int) (fun n_properties =>
  Ok (Geometry (Nx, Ny, Nz) (Px, Py, Pz) 1000 n_count n_scalars n_properties)))))))))))).

Section Geometry.
Variable E : env.

(** [int( v )] on a header entry. *)
Definition py_int (v : hval) : result Z :=
  match v with
  | HInt n => Ok n
  | HStr s => match parse_int E s with Some n => Ok n | None => Raise ValueError end
  | _ => Raise TypeError
  end.

(** Lines 243-249: the image a [.tck] file takes its geometry from. *)
Definition reference_image (a : run_args) : result string :=
  match TCK_ref_image a with
  | Some r => Ok r
  | None =>
      match filename_peaks a with
      | Some p => Ok p
      | None =>
          match filename_mask a with
          | Some m => Ok m
          | None => Raise (RuntimeError
              "TCK files do not contain information about the geometry. Use TCK_ref_image for that.")
          end
      end
  end.

(** Lines 240-274. *)
Definition tck_geometry (a : run_args) (hdr : gmap string hval) : M (geometry * nifti) :=
  ref <- lift (reference_image a) ;;
  print "- geometry taken from TCK_ref_image" ;;;
  nii_image <- nib_load ref ;;
  Nx <- lift (Py.unchecked (nii_shape nii_image) 0) ;;
  Ny <- lift (Py.unchecked (nii_shape nii_image) 1) ;;
  Nz <- lift (Py.unchecked (nii_shape nii_image) 2) ;;
  Px <- lift (Py.index (nii_pixdim nii_image) 1) ;;
  Py <- lift (Py.index (nii_pixdim nii_image) 2) ;;
  Pz <- lift (Py.index (nii_pixdim nii_image) 3) ;;
  data_offset <- lift (rbind (Py.getitem hdr "_offset_data") py_int) ;;
  n_count <- lift (rbind (Py.getitem hdr "count") py_int) ;;
  ret (Geometry (Nx, Ny, Nz) (Px, Py, Pz) data_offset n_count 0 0, nii_image).

(** Lines 227-278: the geometry, and for [.tck] the reference image. *)
Definition read_geometry (a : run_args) (extension : string) (hdr : gmap string hval)
    : M (geometry * option nifti) :=
  r <- (if String.eqb extension ".trk"
        then (g <- lift (trk_geometry hdr) ;; ret (g, None))
        else (p <- tck_geometry a hdr ;; ret (p.1, Some p.2))) ;;
  print "- %d x %d x %d" ;;;
  print "- %.4f x %.4f x %.4f" ;;;
  print "- %d fibers" ;;;
  ret r.

End Geometry.

(** Line 279, as written:
    [if Nx >= 2**16 or Nz >= 2**16 or Nz >= 2**16]. *)
Definition dims_overflow (Nx Ny Nz : Z) : bool :=
  (2 ^ 16 <=? Nx) || (2 ^ 16 <=? Nz) || (2 ^ 16 <=? Nz).

Definition max_dim_error : exn := RuntimeError "The max dim size is 2^16 voxels".

(** Lines 279-280. *)
Definition check_dims (g : geometry) : M unit :=
  let '(Nx, Ny, Nz) := g_dims g in
  if dims_overflow Nx Ny Nz then raise max_dim_error else ret tt.

(** *** Mask and peaks (lines 298-354) *)

(** Lines 307-308 and 333-334: the test behind the geometry warning.
    Header values are single-precision in nibabel; the model takes them at
    double precision. *)
Definition geometry_differs (g : geometry) (s0 s1 s2 : Z) (p1 p2 p3 : float) : bool :=
  let '(Nx, Ny, Nz) := g_dims g in
  let '(Px, Py, Pz) := g_voxel_sizes g in
  negb (Nx =? s0) || negb (Ny =? s1) || negb (Nz =? s2)
  || (1e-3 <? abs (Px - p1))%float || (1e-3 <? abs (Py - p2))%float
  || (1e-3 <? abs (Pz - p3))%float.

Definition geometry_warning : string :=
  "[WARNING] dataset does not have the same geometry as the tractogram".

(** A typed memoryview of [n] dimensions refuses an array of another rank. *)
Definition check_ndim (img : nifti) (n : nat) : result unit :=
  if decide (length (nii_shape img) = n) then Ok tt else Raise ValueError.

(** Lines 301-314: the mask image and its data, when a mask is given. *)
Definition load_mask (a : run_args) (g : geometry) : M (option nifti) :=
  match filename_mask a with
  | Some fm =>
      print "* filtering mask" ;;;
      niiMASK <- nib_load fm ;;
      s0 <- lift (Py.unchecked (nii_shape niiMASK) 0) ;;
      s1 <- lift (Py.unchecked (nii_shape niiMASK) 1) ;;
      s2 <- lift (Py.unchecked (nii_shape niiMASK) 2) ;;
      print "- %d x %d x %d" ;;;
      p1 <- lift (Py.index (nii_pixdim niiMASK) 1) ;;
      p2 <- lift (Py.index (nii_pixdim niiMASK) 2) ;;
      p3 <- lift (Py.index (nii_pixdim niiMASK) 3) ;;
      print "- %.4f x %.4f x %.4f" ;;;
      (if geometry_differs g s0 s1 s2 p1 p2 p3 then print geometry_warning else ret tt) ;;;
      lift (check_ndim niiMASK 3) ;;;
      ret (Some niiMASK)
  | None =>
      print "* no mask specified to filter IC compartments" ;;;
      ret None
  end.

(** What the peaks block hands to the rest of [run]. *)
Record peaks := Peaks {
  pk_image : nifti;
  pk_Np : Z;
  pk_affine : list float
}.

(** [niiPEAKS.affine[:3,:3].T], row-major, and [np.eye(3)]. *)
Definition rotation_transposed (affine : list float) : list float :=
  map (fun i => nth i affine 0%float) [0; 4; 8; 1; 5; 9; 2; 6; 10]%nat.

Definition eye3 : list float := [1; 0; 0; 0; 1; 0; 0; 0; 1]%float.

Definition peaks_volumes_error : exn := RuntimeError "PEAKS dataset must have 3*k volumes".
Definition vf_THR_error : exn := RuntimeError "vf_THR must be between 0 and 1".

(** Lines 324-354. *)
Definition load_peaks (a : run_args) (g : geometry) : M (option peaks) :=
  match filename_peaks a with
  | Some fp =>
      print "* EC orientations" ;;;
      niiPEAKS <- nib_load fp ;;
      s0 <- lift (Py.unchecked (nii_shape niiPEAKS) 0) ;;
      s1 <- lift (Py.unchecked (nii_shape niiPEAKS) 1) ;;
      s2 <- lift (Py.unchecked (nii_shape niiPEAKS) 2) ;;
      s3 <- lift (Py.unchecked (nii_shape niiPEAKS) 3) ;;
      print "- %d x %d x %d x %d" ;;;
      p1 <- lift (Py.index (nii_pixdim niiPEAKS) 1) ;;
      p2 <- lift (Py.index (nii_pixdim niiPEAKS) 2) ;;
      p3 <- lift (Py.index (nii_pixdim niiPEAKS) 3) ;;
      print "- %.4f x %.4f x %.4f" ;;;
      print "- ignoring peaks < %.2f * MaxPeak" ;;;
      print "- using affine matrix, or not" ;;;
      lift (Py.unchecked (flip_peaks a) 0) ;;;
      lift (Py.unchecked (flip_peaks a) 1) ;;;
      lift (Py.unchecked (flip_peaks a) 2) ;;;
      print "- flipping axes : [ x=%s, y=%s, z=%s ]" ;;;
      (if geometry_differs g s0 s1 s2 p1 p2 p3 then print geometry_warning else ret tt) ;;;
      if negb (s3 mod 3 =? 0) then raise peaks_volumes_error
      else if (vf_THR a <? 0)%float || (1 <? vf_THR a)%float then raise vf_THR_error
      else
        lift (check_ndim niiPEAKS 4) ;;;
        ret (Some (Peaks niiPEAKS (s3 / 3)
                     (if peaks_use_affine a then rotation_transposed (nii_affine niiPEAKS)
                      else eye3)))
  | None =>
      print "* no dataset specified for EC compartments" ;;;
      ret None
  end.

(** *** Output directory and metadata (lines 356-363) *)

Definition prepare_output (a : run_args) (p filename : string) : M unit :=
  print "* output written to path_out" ;;;
  found <- path_exists p ;;
  (if negb found then os_makedirs p else ret tt) ;;;
  write_file filename (FPickle (info_of_args a)).

(** *** The native pass and what follows it (lines 365-408) *)

(** Line 320: [np.zeros( (Nx,Ny,Nz) )] refuses a negative extent. *)
Definition allocate_tdi (g : geometry) : result unit :=
  let '(Nx, Ny, Nz) := g_dims g in
  if (Nx <? 0) || (Ny <? 0) || (Nz <? 0) then Raise ValueError else Ok tt.

Definition flip_sign (b : bool) : Z := if b then -1 else 1.

(** [np.fromfile( p, dtype=np.bool_ )]: one flag per byte. *)
Definition np_fromfile_bool (p : string) : M (list bool) :=
  v <- np_fromfile Np.uint8 p ;;
  ret (map (fun z => negb (z =? 0)) v).

(** Lines 380-390: the streamlines kept by the dictionary, saved with a
    header whose counts are those of the selection. *)
Definition generate_tractogram (f p extension : string) : M unit :=
  print "* Generate tractogram matching the dictionary: " ;;;
  fib <- streamlines_load f ;;
  file_kept <- np_fromfile_bool (Path.join p "dictionary_TRK_kept.dict") ;;
  tractogram_out <- lift (Py.mask_select (trk_streamlines fib) file_kept) ;;
  let n := Z.of_nat (length tractogram_out) in
  let hdr := <["nb_streamlines" := HInt n]> (<["count" := HInt n]> (trk_header fib)) in
  write_file (Path.join p ("dictionary_TRK_fibers" +:+ extension))
             (FTract (Tractogram hdr tractogram_out)) ;;;
  print "[ %d fibers kept ]".

(** [np.diag( [Px, Py, Pz, 1] )], row-major. *)
Definition diag4 (v : float * float * float) : list float :=
  let '(Px, Py, Pz) := v in
  [Px; 0; 0; 0; 0; Py; 0; 0; 0; 0; Pz; 0; 0; 0; 0; 1]%float.

(** [x.astype( np.float32 )] on one item: the nearest single-precision
    number (ties to even, overflow to infinity), kept as the double of the
    same value. *)
Definition float32 (x : float) : float :=
  match Prim2SF x with
  | S754_finite s m e => SF2Prim (binary_round 24 128 s m e)
  | _ => x
  end.

(** [(np.asarray( niiTDI_img ) > 0).astype( np.float32 )]. *)
Definition positive_mask (tdi : list float) : list float :=
  map (fun x => if (0 <? x)%float then 1%float else 0%float) tdi.

Section Run.
Variable E : env.

(** [nibabel.Nifti1Image( data, affine )]: the NIfTI-1 header keeps the
    extents of the data in 16-bit fields and refuses an extent above 32767
    with [HeaderDataError]. *)
Definition new_image (shape : list Z) (affine data : list float) : result nifti :=
  if forallb (fun n => n <=? 32767) shape
  then Ok (Nifti shape (zooms_of_affine E affine) affine data)
  else Raise HeaderDataError.

(** Lines 393-408.  The mask saved is [niiMASK_img], the single-precision
    copy of the input mask made at line 310. *)
Definition save_maps (p : string) (g : geometry) (mask : option nifti)
    (pk : option peaks) (tdi : list float) : M unit :=
  let '(Nx, Ny, Nz) := g_dims g in
  let affine := match mask, pk with
                | Some niiMASK, _ => nii_affine niiMASK
                | None, Some k => nii_affine (pk_image k)
                | None, None => diag4 (g_voxel_sizes g)
                end in
  niiTDI <- lift (new_image [Nx; Ny; Nz] affine tdi) ;;
  nib_save niiTDI (Path.join p "dictionary_tdi.nii.gz") ;;;
  niiMASK_out <- lift (match mask with
                       | Some niiMASK =>
                           new_image (nii_shape niiMASK) affine
                                     (map float32 (nii_data niiMASK))
                       | None => new_image [Nx; Ny; Nz] affine (positive_mask tdi)
                       end) ;;
  nib_save niiMASK_out (Path.join p "dictionary_mask.nii.gz").

(** Lines 366-371: the arguments handed to the native pass.  The peaks and
    the mask are the single-precision copies of lines 340 and 310. *)
Definition native_arguments (a : run_args) (f p : string) (g : geometry)
    (shift : float * float * float) (b : blur) (htable : list Z)
    (invM : option (list float)) (mask : option nifti) (pk : option peaks)
    : result native_args :=
  rbind (Py.unchecked (flip_peaks a) 0) (fun f0 =>
  rbind (Py.unchecked (flip_peaks a) 1) (fun f1 =>
  rbind (Py.unchecked (flip_peaks a) 2) (fun f2 =>
  Ok {| na_filename_tractogram := f;
        na_data_offset := g_data_offset g;
        na_dims := g_dims g;
        na_voxel_sizes := g_voxel_sizes g;
        na_n_count := g_n_count g;
        na_n_scalars := g_n_scalars g;
        na_n_properties := g_n_properties g;
        na_fiber_shift := shift;
        na_points_to_skip := points_to_skip a;
        na_min_seg_len := min_seg_len a;
        na_peaks := (fun k => map float32 (nii_data (pk_image k))) <$> pk;
        na_Np := match pk with Some k => pk_Np k | None => 0 end;
        na_vf_THR := vf_THR a;
        na_EC_flips := (flip_sign f0, flip_sign f1, flip_sign f2);
        na_mask := (fun m => map float32 (nii_data m)) <$> mask;
        na_path_out := p;
        na_c := if do_intersect a then 1 else 0;
        na_affine := pk_affine <$> pk;
        na_nBlurRadii := nBlurRadii b;
        na_blurSigma := blur_sigma a;
        na_blurRadii := blurRadii b;
        na_blurSamples := blurSamples b;
        na_blurWeights := blurWeights b;
        na_ArrayInvM := invM;
        na_ndirs := ndirs a;
        na_hash_table := htable |}))).

(** Lines 366-371: the call itself. *)
Definition call_native (args : native_args) : M (Z * list float) :=
  fun w =>
    let '(ret, tdi, w') := trk2dictionary E args (emit (ENative (na_path_out args)) w) in
    (Ok (ret, tdi), w').

(** Lines 283-296: only a [.tck] run computes the inverse affine. *)
Definition tck_inverse_affine (g : geometry) (ref : option nifti)
    : result (option (list float)) :=
  match ref with
  | Some img => rbind (inverse_unscaled_affine E img (g_voxel_sizes g)) (fun m => Ok (Some m))
  | None => Ok None
  end.

(** [amico.lut.load_precomputed_hash_table( ndirs )] (line 199). *)
Definition load_hash_table (n : Z) : M (list Z) :=
  tell (EHashTable n) ;;;
  lift (load_precomputed_hash_table E n).

(** Lines 136-143. *)
Definition print_settings : M unit :=
  print "-> Creating the dictionary from tractogram:" ;;;
  print "* Segment position = %s" ;;;
  print "* Fiber shift X    = %.3f (voxel-size units)" ;;;
  print "* Fiber shift Y    = %.3f (voxel-size units)" ;;;
  print "* Fiber shift Z    = %.3f (voxel-size units)" ;;;
  print "* Points to skip   = %d" ;;;
  print "* Min segment len  = %.2e".

(** What lines 101-320 establish before the peaks are read. *)
Record front := Front {
  fr_path : string;
  fr_filename : string;
  fr_shift : float * float * float;
  fr_blur : blur;
  fr_htable : list Z;
  fr_tractogram : string;
  fr_extension : string;
  fr_geometry : geometry;
  fr_invM : option (list float);
  fr_mask : option nifti
}.

(** Lines 124-320. *)
Definition settings_and_inputs (a : run_args) (p filename : string) : M front :=
  shift <- lift (resolve_fiber_shift (fiber_shift a)) ;;
  print_settings ;;;
  b <- lift (blur_params E (blur_radii a) (blur_samples a) (blur_sigma a)) ;;
  print_blur b ;;;
  (if (min_seg_len a <? 0)%float then raise (RuntimeError "min_seg_len must be >= 0")
   else ret tt) ;;;
  print "* Loading data:" ;;;
  htable <- load_hash_table (ndirs a) ;;
  print "* tractogram" ;;;
  f <- choose_tractogram a ;;
  opened <- open_tractogram f ;;
  geo <- read_geometry E a opened.1 opened.2 ;;
  check_dims geo.1 ;;;
  invM <- lift (tck_inverse_affine geo.1 geo.2) ;;
  mask <- load_mask a geo.1 ;;
  lift (allocate_tdi geo.1) ;;;
  ret (Front p filename shift b htable f opened.1 geo.1 invM mask).

(** Lines 101-320.  Line 101, [filename = path_out + '/dictionary_info.pickle'],
    is evaluated on entry: a [path_out] of [None] raises [TypeError] there. *)
Definition run_front (a : run_args) : M front :=
  match path_out a with
  | None => raise TypeError
  | Some p =>
      let filename := p +:+ "/dictionary_info.pickle" in
      check_ndirs a ;;;
      settings_and_inputs a p filename
  end.

(** Lines 356-408. *)
Definition run_back (a : run_args) (fr : front) (pk : option peaks) : M unit :=
  prepare_output a (fr_path fr) (fr_filename fr) ;;;
  args <- lift (native_arguments a (fr_tractogram fr) (fr_path fr) (fr_geometry fr)
                  (fr_shift fr) (fr_blur fr) (fr_htable fr) (fr_invM fr) (fr_mask fr) pk) ;;
  r <- call_native args ;;
  if (r.1 =? 0)%Z then print "[ DICTIONARY not generated ]"
  else
    (if gen_trk a
     then generate_tractogram (fr_tractogram fr) (fr_path fr) (fr_extension fr)
     else ret tt) ;;;
    print "[ %.1f seconds ]" ;;;
    save_maps (fr_path fr) (fr_geometry fr) (fr_mask fr) pk r.2.

Definition run (a : run_args) : M unit :=
  fr <- run_front a ;;
  pk <- load_peaks a (fr_geometry fr) ;;
  run_back a fr pk.

End Run.

(** * Vocabulary of the statements *)

(** A voxel of a grid of [Nx] x [Ny] x [Nz] voxels. *)
Definition in_grid (Nx Ny Nz x y z : Z) : Prop :=
  0 <= x < Nx /\ 0 <= y < Ny /\ 0 <= z < Nz.

Fixpoint map3 {A B C D} (f : A -> B -> C -> D)
    (la : list A) (lb : list B) (lc : list C) : list D :=
  match la, lb, lc with
  | a :: la', b :: lb', c :: lc' => f a b c :: map3 f la' lb' lc'
  | _, _, _ => []
  end.

(** ** Folders in the old dictionary format *)

Section LegacyFolder.
Variable path : string.

Abbreviation name := (Path.join path).

(** The content of a folder in the old format: the track-density image
    and the ten split files. *)
Record legacy_folder := LegacyFolder {
  lf_tdi : nifti;
  lf_IC_vx : list Byte.byte; lf_IC_vy : list Byte.byte; lf_IC_vz : list Byte.byte;
  lf_EC_vx : list Byte.byte; lf_EC_vy : list Byte.byte; lf_EC_vz : list Byte.byte;
  lf_IC_ox : list Byte.byte; lf_IC_oy : list Byte.byte;
  lf_EC_ox : list Byte.byte; lf_EC_oy : list Byte.byte
}.

Definition holds_legacy (w : world) (l : legacy_folder) : Prop :=
  files w !! name "dictionary_tdi.nii.gz" = Some (FImage (lf_tdi l)) /\
  files w !! name "dictionary_IC_vx.dict" = Some (FRaw (lf_IC_vx l)) /\
  files w !! name "dictionary_IC_vy.dict" = Some (FRaw (lf_IC_vy l)) /\
  files w !! name "dictionary_IC_vz.dict" = Some (FRaw (lf_IC_vz l)) /\
  files w !! name "dictionary_EC_vx.dict" = Some (FRaw (lf_EC_vx l)) /\
  files w !! name "dictionary_EC_vy.dict" = Some (FRaw (lf_EC_vy l)) /\
  files w !! name "dictionary_EC_vz.dict" = Some (FRaw (lf_EC_vz l)) /\
  files w !! name "dictionary_IC_ox.dict" = Some (FRaw (lf_IC_ox l)) /\
  files w !! name "dictionary_IC_oy.dict" = Some (FRaw (lf_IC_oy l)) /\
  files w !! name "dictionary_EC_ox.dict" = Some (FRaw (lf_EC_ox l)) /\
  files w !! name "dictionary_EC_oy.dict" = Some (FRaw (lf_EC_oy l)).

(** Arrays that are merged item by item have one length. *)
Definition same_items (d : Np.dtype) (a b : list Byte.byte) : Prop :=
  length (Arr.of_bytes d a) = length (Arr.of_bytes d b).

Definition well_formed (l : legacy_folder) (Nx Ny Nz : Z) : Prop :=
  take 3 (nii_shape (lf_tdi l)) = [Nx; Ny; Nz] /\
  0 <= Nx < 2 ^ 32 /\ 0 <= Ny < 2 ^ 32 /\
  same_items Np.uint16 (lf_IC_vx l) (lf_IC_vy l) /\
  same_items Np.uint16 (lf_IC_vy l) (lf_IC_vz l) /\
  same_items Np.uint8 (lf_EC_vx l) (lf_EC_vy l) /\
  same_items Np.uint8 (lf_EC_vy l) (lf_EC_vz l) /\
  same_items Np.uint8 (lf_IC_ox l) (lf_IC_oy l) /\
  same_items Np.uint8 (lf_EC_ox l) (lf_EC_oy l).

(** The merged files, item by item from the split ones. *)
Definition merged_voxels (d : Np.dtype) (Nx Ny : Z) (bx by_ bz : list Byte.byte) : file :=
  FRaw (Arr.to_bytes Np.uint32
    (map3 (voxel_index Nx Ny) (Arr.of_bytes d bx) (Arr.of_bytes d by_)
      (Arr.of_bytes d bz))).

Definition merged_orientations (bx by_ : list Byte.byte) : file :=
  FRaw (Arr.to_bytes Np.uint16
    (zip_with orientation_index (Arr.of_bytes Np.uint8 bx) (Arr.of_bytes Np.uint8 by_))).

Definition legacy_names : list string :=
  [name "dictionary_IC_vx.dict"; name "dictionary_IC_vy.dict"; name "dictionary_IC_vz.dict";
   name "dictionary_EC_vx.dict"; name "dictionary_EC_vy.dict"; name "dictionary_EC_vz.dict";
   name "dictionary_IC_ox.dict"; name "dictionary_IC_oy.dict";
   name "dictionary_EC_ox.dict"; name "dictionary_EC_oy.dict"].

Definition merged_names : list string :=
  [name "dictionary_IC_v.dict"; name "dictionary_EC_v.dict";
   name "dictionary_IC_o.dict"; name "dictionary_EC_o.dict"].

(** The file system after the four blocks. *)
Definition migrated_files (l : legacy_folder) (Nx Ny : Z) (fs : gmap string file)
    : gmap string file :=
  delete (name "dictionary_EC_oy.dict") (delete (name "dictionary_EC_ox.dict")
  (<[name "dictionary_EC_o.dict" := merged_orientations (lf_EC_ox l) (lf_EC_oy l)]>
  (delete (name "dictionary_IC_oy.dict") (delete (name "dictionary_IC_ox.dict")
  (<[name "dictionary_IC_o.dict" := merged_orientations (lf_IC_ox l) (lf_IC_oy l)]>
  (delete (name "dictionary_EC_vz.dict") (delete (name "dictionary_EC_vy.dict")
  (delete (name "dictionary_EC_vx.dict")
  (<[name "dictionary_EC_v.dict" :=
       merged_voxels Np.uint8 Nx Ny (lf_EC_vx l) (lf_EC_vy l) (lf_EC_vz l)]>
  (delete (name "dictionary_IC_vz.dict") (delete (name "dictionary_IC_vy.dict")
  (delete (name "dictionary_IC_vx.dict")
  (<[name "dictionary_IC_v.dict" :=
       merged_voxels Np.uint16 Nx Ny (lf_IC_vx l) (lf_IC_vy l) (lf_IC_vz l)]>
  fs))))))))))))).

(** What a migration of the folder [l], found in the world [w], comes to:
    the call returns, the four merged files hold the merged arrays, the
    ten split files are gone, nothing else has changed, and a second call
    finds no old format and leaves the world as it is. *)
Definition migration_outcome (w : world) (l : legacy_folder) (Nx Ny : Z) : Prop :=
  exists w',
    convert_old_dictionary path w = (Ok tt, w') /\
    files w' !! name "dictionary_IC_v.dict"
      = Some (merged_voxels Np.uint16 Nx Ny (lf_IC_vx l) (lf_IC_vy l) (lf_IC_vz l)) /\
    files w' !! name "dictionary_EC_v.dict"
      = Some (merged_voxels Np.uint8 Nx Ny (lf_EC_vx l) (lf_EC_vy l) (lf_EC_vz l)) /\
    files w' !! name "dictionary_IC_o.dict"
      = Some (merged_orientations (lf_IC_ox l) (lf_IC_oy l)) /\
    files w' !! name "dictionary_EC_o.dict"
      = Some (merged_orientations (lf_EC_ox l) (lf_EC_oy l)) /\
    (forall p, p ∈ legacy_names -> files w' !! p = None) /\
    (forall p, p ∉ legacy_names -> p ∉ merged_names -> files w' !! p = files w !! p) /\
    dirs w' = dirs w /\
    convert_old_dictionary path w' = (Raise old_format_missing, w').

(** A folder without the first split file is refused, untouched. *)
Definition refuses_missing : Prop :=
  forall w0,
    files w0 !! name "dictionary_IC_vx.dict" = None ->
    name "dictionary_IC_vx.dict" ∉ dirs w0 ->
    convert_old_dictionary path w0 = (Raise old_format_missing, w0).

End LegacyFolder.

(** ** Code that only reads *)

(** Events that leave the file system as it is. *)
Definition quiet (e : event) : bool :=
  match e with
  | EPrint _ | ERead _ | EHashTable _ => true
  | _ => false
  end.

(** [w'] is [w] with more of such events in its log: no file written or
    removed, no directory made, no native pass started. *)
Definition only_read (w w' : world) : Prop :=
  exists evs, w' = World (files w) (dirs w) (log w ++ evs) /\ forallb quiet evs = true.

(** The native pass was started. *)
Definition started_native (w : world) : bool :=
  existsb (fun e => match e with ENative _ => true | _ => false end) (log w).

(** Whatever its outcome, [m] only reads. *)
Definition read_only {A} (m : M A) : Prop :=
  forall w, only_read w (m w).2.

(** A peaks volume that [load_peaks] can read: four extents, the header's
    [pixdim] up to index 3, and three flip flags to print. *)
Definition readable_peaks (a : run_args) (img : nifti) (s3 : Z) : Prop :=
  (exists s0 s1 s2 rest, nii_shape img = s0 :: s1 :: s2 :: s3 :: rest) /\
  (3 < length (nii_pixdim img))%nat /\
  (2 < length (flip_peaks a))%nat.

(** The test of line 338. *)
Definition vf_THR_out_of_range (a : run_args) : bool :=
  (vf_THR a <? 0)%float || (1 <? vf_THR a)%float.

(** ** The streamlines a kept-file selects *)

(** The flags of [dictionary_TRK_kept.dict], one per byte. *)
Definition kept_flags (kept : list Byte.byte) : list bool :=
  map (fun b => negb (Arr.byte_to_Z b =? 0)) kept.

(** The items of [l] whose flag is set, in the order of [l]. *)
Definition flagged {A} (flags : list bool) (l : list A) : list A :=
  (filter (fun x => x.1 = true) (zip flags l)).*2.

(** The file [generate_tractogram] is to write for the tractogram [fib]. *)
Definition filtered_tractogram (fib : tractogram) (kept : list Byte.byte) : file :=
  let selected := flagged (kept_flags kept) (trk_streamlines fib) in
  let n := Z.of_nat (length selected) in
  FTract (Tractogram (<["nb_streamlines" := HInt n]> (<["count" := HInt n]> (trk_header fib)))
                     selected).

(** The arguments the native pass receives from the checked inputs. *)
Definition native_arguments_of (a : run_args) (fr : front) (pk : option peaks)
    : result native_args :=
  native_arguments a (fr_tractogram fr) (fr_path fr) (fr_geometry fr) (fr_shift fr)
                   (fr_blur fr) (fr_htable fr) (fr_invM fr) (fr_mask fr) pk.

(** ** Blur weights *)

(** What C99 (Annex F) fixes of the two library functions at zero. *)
Definition libm_at_zero (E : env) : Prop :=
  c_pow2 E 0 = 0%float /\ np_exp E 0 = 1%float /\ np_exp E neg_zero = 1%float.

(** The weight of line 168 once [2.0*blur_sigma**2] is known to be [d]. *)
Definition damping (E : env) (d r : float) : float := np_exp E (- c_pow2 E r / d)%float.

(** ** What a piece of code may touch *)

(** [w'] is [w] with more lines printed, and nothing else. *)
Definition only_printed (w w' : world) : Prop :=
  exists msgs, w' = World (files w) (dirs w) (log w ++ map EPrint msgs).

(** Events that read no file of the file system: printing and the loading
    of the hash table. *)
Definition reads_no_file (e : event) : bool :=
  match e with
  | EPrint _ | EHashTable _ => true
  | _ => false
  end.

(** [w'] is [w] with such events only. *)
Definition nothing_read (w w' : world) : Prop :=
  exists evs, w' = World (files w) (dirs w) (log w ++ evs) /\ forallb reads_no_file evs = true.

(** Whatever its outcome, [m] leaves the directories and every file outside
    [names] as they are. *)
Definition touches_only {A} (names : list string) (m : M A) : Prop :=
  forall w, dirs (m w).2 = dirs w /\ forall p, p ∉ names -> files (m w).2 !! p = files w !! p.

(** The settings of lines 120-199 are accepted: [ndirs], [fiber_shift], the
    blur lists, [min_seg_len], and the hash table loads. *)
Definition settings_pass (E : env) (a : run_args) : Prop :=
  ndirs a ∈ supported_ndirs /\
  (exists s, resolve_fiber_shift (fiber_shift a) = Ok s) /\
  (exists b, blur_params E (blur_radii a) (blur_samples a) (blur_sigma a) = Ok b) /\
  (min_seg_len a <? 0)%float = false /\
  (exists ht, load_precomputed_hash_table E (ndirs a) = Ok ht).

(** The tractogram of lines 208-216, when a name is given. *)
Definition chosen_tractogram (a : run_args) : option string :=
  match filename_tractogram a with
  | Some f => Some f
  | None => filename_trk a
  end.

(** The checks of [run]: everything before the output directory is
    prepared (lines 101-354). *)
Definition run_checks (E : env) (a : run_args) : M (front * option peaks) :=
  bind (run_front E a) (fun fr =>
  bind (load_peaks a (fr_geometry fr)) (fun pk => ret (fr, pk))).

(** Whatever its outcome, [m] leaves every file outside [names] as it
    is. *)
Definition writes_only {A} (names : list string) (m : M A) : Prop :=
  forall w p, p ∉ names -> files (m w).2 !! p = files w !! p.

(** The files [run] itself writes under the output directory [p]: the
    metadata record, the two maps and the filtered tractogram. *)
Definition run_outputs (a : run_args) (p : string) : list string :=
  [p +:+ "/dictionary_info.pickle";
   Path.join p "dictionary_tdi.nii.gz";
   Path.join p "dictionary_mask.nii.gz"]
  ++ match chosen_tractogram a with
     | Some f => [Path.join p ("dictionary_TRK_fibers" +:+ Path.extension f)]
     | None => []
     end.

(** ** Grids and pass outcomes that let [run] finish *)

(** Extents that a NIfTI-1 header can hold. *)
Definition fits_header (shape : list Z) : Prop := Forall (fun n => n <= 32767) shape.

(** The two maps of lines 393-408 can be given a header: the grid of the
    tractogram and the input mask, if any, have no extent above 32767. *)
Definition maps_fit (g : geometry) (mask : option nifti) : Prop :=
  fits_header [(g_dims g).1.1; (g_dims g).1.2; (g_dims g).2] /\
  forall m, mask = Some m -> fits_header (nii_shape m).

(** A grid that passes line 279, can be allocated and can be saved. *)
Definition usable_grid (g : geometry) : Prop :=
  0 <= (g_dims g).1.1 <= 32767 /\ 0 <= (g_dims g).1.2 <= 32767 /\
  0 <= (g_dims g).2 <= 32767.

(** What the native pass must leave for lines 378-391 to go through when
    they are reached: a return code of 0 or [gen_trk] off skips them;
    otherwise the tractogram [f] is still there and the kept-file under
    [p] holds one flag per streamline. *)
Definition pass_lets_finish (a : run_args) (f p : string) (code : Z) (wn : world) : Prop :=
  code = 0 \/ gen_trk a = false \/
  exists fib kept,
    files wn !! f = Some (FTract fib) /\
    files wn !! Path.join p "dictionary_TRK_kept.dict" = Some (FRaw kept) /\
    length kept = length (trk_streamlines fib).

(** Values that fit a C [int]. *)
Definition in_int32 (n : Z) : Prop := - 2 ^ 31 <= n < 2 ^ 31.

(** * A test bench: concrete collaborators, arguments and worlds *)

Module Demo.

(** [exp] tabulated at the points the examples evaluate it. *)
Definition exp_table (x : float) : float :=
  if is_zero x then 1%float
  else if (x =? -0.5)%float then 0.6065306597126334%float
  else nan.

Fixpoint digits_value (s : string) (acc : Z) : option Z :=
  match s with
  | EmptyString => Some acc
  | String c r =>
      match Ascii.is_nat c with
      | Some d => digits_value r (10 * acc + Z.of_nat d)
      | None => None
      end
  end.

Definition decimal (s : string) : option Z :=
  match s with
  | EmptyString => None
  | _ => digits_value s 0
  end.

(** A native pass that keeps streamlines 0 and 2 of three and reports
    success, and one that gives up at once. *)
Definition native_keeps_two (args : native_args) (w : world) : Z * list float * world :=
  (1, [1; 0; 0; 0; 0; 0; 0; 2]%float,
   set_files (insert (Path.join (na_path_out args) "dictionary_TRK_kept.dict")
                     (FRaw [Byte.x01; Byte.x00; Byte.x01])) w).

Definition native_fails (args : native_args) (w : world) : Z * list float * world :=
  (0, [], w).

Definition environment (native : native_args → world → Z * list float * world) : env := {|
  c_pow2 := fun x => (x * x)%float;
  np_exp := exp_table;
  parse_int := decimal;
  load_precomputed_hash_table := fun _ => Ok [];
  inverse_unscaled_affine := fun img _ => Ok (nii_affine img);
  zooms_of_affine := fun _ => [1; 1; 1]%float;
  trk2dictionary := native
|}.

Definition s0 : streamline := [(0, 0, 0); (1, 0, 0)]%float.
Definition s1 : streamline := [(0, 1, 0); (1, 1, 0)]%float.
Definition s2 : streamline := [(0, 1, 1); (1, 1, 1)]%float.

(** A [.trk] file of three streamlines on a grid of 2 x 2 x 2 voxels, and
    the same streamlines as a [.tck] file. *)
Definition fibers : tractogram :=
  Tractogram
    (list_to_map [("dimensions", HInts [2; 2; 2]);
                  ("voxel_sizes", HFloats [1; 1; 1]%float);
                  ("nb_streamlines", HInt 3);
                  ("nb_scalars_per_point", HInt 0);
                  ("nb_properties_per_streamline", HInt 0)])
    [s0; s1; s2].

Definition tck_fibers : tractogram :=
  Tractogram (list_to_map [("_offset_data", HInt 100); ("count", HStr "3")])
             [s0; s1; s2].

Definition identity_affine : list float :=
  [1; 0; 0; 0; 0; 1; 0; 0; 0; 0; 1; 0; 0; 0; 0; 1]%float.

(** A reference volume of 1 x 65536 x 1 voxels, and a peaks volume of
    2 x 2 x 2 voxels with [n] components. *)
Definition wide_image : nifti :=
  Nifti [1; 65536; 1] [1; 1; 1; 1]%float identity_affine [].

Definition peaks_image (n : Z) : nifti :=
  Nifti [2; 2; 2; n] [1; 1; 1; 1]%float identity_affine [].

Definition world0 : world :=
  World (list_to_map [("in/fibers.trk", FTract fibers);
                      ("in/fibers.tck", FTract tck_fibers);
                      ("in/wide.nii", FImage wide_image)])
        ∅ [].

Definition world_with_peaks (n : Z) : world :=
  World (<["in/peaks.nii" := FImage (peaks_image n)]> (files world0)) ∅ [].

(** Arguments of [run]: the parameters the examples vary, the others at
    their defaults. *)
Definition args (tractogram out peaks : option string) (vf sigma : float)
    (trk ref : option string) (n : Z) : run_args :=
  RunArgs tractogram out peaks None true (ShiftScalar 0%float) 0 vf false
          [false; false; false] 1e-3%float true [] [] sigma trk ref n.

Definition trk_args : run_args :=
  args (Some "in/fibers.trk") (Some "out") None 0.1%float 1%float None None 32761.

Definition with_ndirs (n : Z) : run_args :=
  args (Some "in/fibers.trk") (Some "out") None 0.1%float 1%float None None n.

Definition without_path_out : run_args :=
  args (Some "in/fibers.trk") None None 0.1%float 1%float None None 32761.

(** Only the deprecated [filename_trk] is given; both names are given, the
    deprecated one naming no file. *)
Definition deprecated_only : run_args :=
  args None (Some "out") None 0.1%float 1%float (Some "in/fibers.trk") None 32761.

Definition both_names : run_args :=
  args (Some "in/fibers.trk") (Some "out") None 0.1%float 1%float (Some "in/old.trk")
       None 32761.

(** No blurring and a [blur_sigma] of zero. *)
Definition no_sigma : run_args :=
  args (Some "in/fibers.trk") (Some "out") None 0.1%float 0%float None None 32761.

(** A [.tck] run taking its geometry from the wide reference volume. *)
Definition wide : run_args :=
  args (Some "in/fibers.tck") (Some "out") None 0.1%float 1%float None
       (Some "in/wide.nii") 32761.

(** A [vf_THR] of 2 and no peaks; a peaks volume and a threshold [vf]. *)
Definition vf_two : run_args :=
  args (Some "in/fibers.trk") (Some "out") None 2%float 1%float None None 32761.

Definition with_peaks (vf : float) : run_args :=
  args (Some "in/fibers.trk") (Some "out") (Some "in/peaks.nii") vf 1%float None None 32761.

(** A folder in the old format on a grid of 2 x 2 x 2 voxels, and a world
    holding it, with a weight file next to it, under the folder [d]. *)
Definition legacy : legacy_folder := {|
  lf_tdi := Nifti [2; 2; 2] [1; 1; 1; 1]%float identity_affine [];
  lf_IC_vx := [Byte.x01; Byte.x00; Byte.x00; Byte.x00];
  lf_IC_vy := [Byte.x00; Byte.x00; Byte.x01; Byte.x00];
  lf_IC_vz := [Byte.x01; Byte.x00; Byte.x01; Byte.x00];
  lf_EC_vx := [Byte.x01];
  lf_EC_vy := [Byte.x01];
  lf_EC_vz := [Byte.x00];
  lf_IC_ox := [Byte.x02; Byte.x05];
  lf_IC_oy := [Byte.x03; Byte.x07];
  lf_EC_ox := [Byte.x0a];
  lf_EC_oy := [Byte.x14]
|}.

Definition legacy_world : world :=
  World (list_to_map
           [("d/dictionary_tdi.nii.gz", FImage (lf_tdi legacy));
            ("d/dictionary_IC_vx.dict", FRaw (lf_IC_vx legacy));
            ("d/dictionary_IC_vy.dict", FRaw (lf_IC_vy legacy));
            ("d/dictionary_IC_vz.dict", FRaw (lf_IC_vz legacy));
            ("d/dictionary_EC_vx.dict", FRaw (lf_EC_vx legacy));
            ("d/dictionary_EC_vy.dict", FRaw (lf_EC_vy legacy));
            ("d/dictionary_EC_vz.dict", FRaw (lf_EC_vz legacy));
            ("d/dictionary_IC_ox.dict", FRaw (lf_IC_ox legacy));
            ("d/dictionary_IC_oy.dict", FRaw (lf_IC_oy legacy));
            ("d/dictionary_EC_ox.dict", FRaw (lf_EC_ox legacy));
            ("d/dictionary_EC_oy.dict", FRaw (lf_EC_oy legacy));
            ("d/dictionary_IC_len.dict", FRaw [Byte.x00; Byte.x00; Byte.x80; Byte.x3f])])
        ∅ [].

(** A folder in the old format on a grid of 32767 x 32767 x 6 voxels whose
    intracellular arrays hold the voxels (0,0,5) and (32763,32758,0). *)
Definition large_legacy_world : world :=
  World (list_to_map
           [("d/dictionary_tdi.nii.gz",
             FImage (Nifti [32767; 32767; 6] [1; 1; 1; 1]%float identity_affine []));
            ("d/dictionary_IC_vx.dict", FRaw [Byte.x00; Byte.x00; Byte.xfb; Byte.x7f]);
            ("d/dictionary_IC_vy.dict", FRaw [Byte.x00; Byte.x00; Byte.xf6; Byte.x7f]);
            ("d/dictionary_IC_vz.dict", FRaw [Byte.x05; Byte.x00; Byte.x00; Byte.x00]);
            ("d/dictionary_EC_vx.dict", FRaw (lf_EC_vx legacy));
            ("d/dictionary_EC_vy.dict", FRaw (lf_EC_vy legacy));
            ("d/dictionary_EC_vz.dict", FRaw (lf_EC_vz legacy));
            ("d/dictionary_IC_ox.dict", FRaw (lf_IC_ox legacy));
            ("d/dictionary_IC_oy.dict", FRaw (lf_IC_oy legacy));
            ("d/dictionary_EC_ox.dict", FRaw (lf_EC_ox legacy));
            ("d/dictionary_EC_oy.dict", FRaw (lf_EC_oy legacy))])
        ∅ [].

(** Arguments of [run] on the [out] folder with the settings the checks
    look at, the others at their defaults. *)
Definition custom (tractogram mask : option string) (shift : shift_arg)
    (flips : list bool) (seg : float) (gen : bool) (radii : list float)
    (samples : list Z) : run_args :=
  RunArgs tractogram (Some "out") None mask true shift 0 0.1%float false
          flips seg gen radii samples 1%float None None 32761.

(** A mask of [n] x 2 x 2 voxels. *)
Definition mask_image (n : Z) : nifti :=
  Nifti [n; 2; 2] [1; 1; 1; 1]%float identity_affine [].


(** A world with one file less, or one file more. *)
Definition without_file (p : string) (w : world) : world := set_files (delete p) w.

Definition with_file (p : string) (f : file) (w : world) : world :=
  set_files (insert p f) w.

End Demo.

(** * Properties *)

(** ** Wrap-around arithmetic *)

Lemma modulus_pos d : 0 < Np.modulus d.
Proof. destruct d; reflexivity. Qed.

Lemma wrap_range d n : 0 <= Np.wrap d n < Np.modulus d.
Proof. apply Z.mod_pos_bound, modulus_pos. Qed.

Lemma wrap_small d n : 0 <= n < Np.modulus d -> Np.wrap d n = n.
Proof. apply Z.mod_small. Qed.


(** The wrapped computation agrees with the exact one modulo 2^32. *)
Lemma voxel_index_mod Nx Ny x y z :
  voxel_index Nx Ny x y z = (x + Nx * (y + Ny * z)) mod 2 ^ 32.
Proof.
  unfold voxel_index, Np.add, Np.mul, Np.wrap.
  change (Np.modulus Np.uint32) with (2 ^ 32).
  assert (HM : 2 ^ 32 <> 0) by lia.
  rewrite (Z.add_mod_idemp_r y (Ny * z)) by exact HM.
  rewrite (Z.mul_mod_idemp_r Nx (y + Ny * z)) by exact HM.
  rewrite (Z.add_mod_idemp_r x (Nx * (y + Ny * z))) by exact HM.
  reflexivity.
Qed.

(** ** The merged voxel and orientation indices *)

Lemma in_grid_bound Nx Ny Nz x y z :
  in_grid Nx Ny Nz x y z -> 0 <= x + Nx * (y + Ny * z) < Nx * Ny * Nz.
Proof.
  intros (Hx & Hy & Hz).
  assert (0 <= Ny * z) by (apply Z.mul_nonneg_nonneg; lia).
  assert (0 <= Nx * (y + Ny * z)) by (apply Z.mul_nonneg_nonneg; lia).
  assert (Ny * z <= Ny * (Nz - 1)) by (apply Z.mul_le_mono_nonneg_l; lia).
  assert (Nx * (y + Ny * z) <= Nx * (Ny * Nz - 1)) by (apply Z.mul_le_mono_nonneg_l; lia).
  lia.
Qed.

(** Without wrap-around, a voxel of the grid is fixed by its index. *)
Lemma linear_index_inj Nx Ny Nz x y z x' y' z' :
  in_grid Nx Ny Nz x y z -> in_grid Nx Ny Nz x' y' z' ->
  x + Nx * (y + Ny * z) = x' + Nx * (y' + Ny * z') ->
  x = x' /\ y = y' /\ z = z'.
Proof.
  intros (Hx & Hy & Hz) (Hx' & Hy' & Hz') Heq.
  assert (Hq : y + Ny * z = y' + Ny * z' /\ x = x').
  { apply (Z.div_mod_unique Nx); lia. }
  destruct Hq as [Hq ->].
  assert (Hr : z = z' /\ y = y').
  { apply (Z.div_mod_unique Ny); lia. }
  destruct Hr as [-> ->]. auto.
Qed.

Lemma orientation_index_exact ox oy :
  0 <= ox < 256 -> 0 <= oy < 256 -> orientation_index ox oy = oy + 181 * ox.
Proof.
  intros Hx Hy. unfold orientation_index, Np.add, Np.mul.
  rewrite (wrap_small Np.uint16 (181 * ox)) by (change (Np.modulus Np.uint16) with 65536; lia).
  apply wrap_small. change (Np.modulus Np.uint16) with 65536. lia.
Qed.

(** C1, as stated, fails on a grid of 32767 x 32767 x 6 voxels: the voxels
    (0,0,5) and (32763,32758,0) both lie in the grid and receive the same
    merged index, because the [uint32] product wraps; a migrated folder
    holding the two voxels ends with twice that index in its merged file. *)
Lemma voxel_index_wraps :
  in_grid 32767 32767 6 0 0 5 /\
  in_grid 32767 32767 6 32763 32758 0 /\
  voxel_index 32767 32767 0 0 5 = 1073414149 /\
  voxel_index 32767 32767 32763 32758 0 = 1073414149 /\
  (0, 0, 5) <> (32763, 32758, 0) /\
  0 + 32767 * (0 + 32767 * 5) = 5368381445 /\
  exists bytes,
    files (convert_old_dictionary "d" Demo.large_legacy_world).2 !! "d/dictionary_IC_v.dict"
    = Some (FRaw bytes) /\
    Arr.of_bytes Np.uint32 bytes = [1073414149; 1073414149].
Proof.
  unfold in_grid. repeat split; try lia; try reflexivity; try discriminate.
  eexists. split; vm_compute; reflexivity.
Qed.

(** C1, amended: when the grid has at most 2^32 voxels, the merged voxel
    index computed by the migration is exactly [x + Nx*(y + Ny*z)] of the
    legacy fields, two voxels of the grid with the same index are the same
    voxel, and the merged orientation index of two legacy bytes is exactly
    [oy + 181*ox]. *)
Theorem voxel_index_injective Nx Ny Nz x y z x' y' z' ox oy :
  Nx * Ny * Nz <= 2 ^ 32 ->
  in_grid Nx Ny Nz x y z -> in_grid Nx Ny Nz x' y' z' ->
  0 <= ox < 256 -> 0 <= oy < 256 ->
  voxel_index Nx Ny x y z = x + Nx * (y + Ny * z) /\
  (voxel_index Nx Ny x y z = voxel_index Nx Ny x' y' z' -> x = x' /\ y = y' /\ z = z') /\
  orientation_index ox oy = oy + 181 * ox.
Proof.
  intros Hfit Hv Hv' Hox Hoy.
  pose proof (in_grid_bound _ _ _ _ _ _ Hv) as Hb.
  pose proof (in_grid_bound _ _ _ _ _ _ Hv') as Hb'.
  assert (He : forall a b c, in_grid Nx Ny Nz a b c ->
             voxel_index Nx Ny a b c = a + Nx * (b + Ny * c)).
  { intros a b c H. pose proof (in_grid_bound _ _ _ _ _ _ H).
    rewrite voxel_index_mod. apply Z.mod_small. lia. }
  split; [auto|]. split.
  - rewrite !He by assumption. apply linear_index_inj with (Nz := Nz); assumption.
  - apply orientation_index_exact; assumption.
Qed.

Lemma voxel_index_injective_witness :
  voxel_index 2 3 1 2 3 = 1 + 2 * (2 + 3 * 3) /\
  (voxel_index 2 3 1 2 3 = voxel_index 2 3 0 1 2 -> 1 = 0 /\ 2 = 1 /\ 3 = 2) /\
  orientation_index 7 9 = 9 + 181 * 7.
Proof.
  apply (voxel_index_injective 2 3 4 1 2 3 0 1 2 7 9); unfold in_grid; lia.
Defined.

(** ** Arrays: the merged arrays item by item, and the byte layout *)

Lemma map3_lookup {A B C D} (f : A -> B -> C -> D) la lb lc (i : nat) a b c :
  la !! i = Some a -> lb !! i = Some b -> lc !! i = Some c ->
  map3 f la lb lc !! i = Some (f a b c).
Proof.
  revert lb lc i. induction la as [|a0 la IH]; intros [|b0 lb] [|c0 lc] [|i]; simpl;
    try discriminate; intros; simplify_eq; eauto.
Qed.

Lemma map3_length {A B C D} (f : A -> B -> C -> D) la lb lc :
  length la = length lb -> length lb = length lc -> length (map3 f la lb lc) = length la.
Proof.
  revert lb lc. induction la as [|a la IH]; intros [|b lb] [|c lc]; simpl;
    try discriminate; auto.
Qed.

Lemma zip_with_map_r {A B C D} (f : A -> D -> C) (g : B -> D) (la : list A) (lb : list B) :
  zip_with f la (map g lb) = zip_with (fun a b => f a (g b)) la lb.
Proof. revert lb. induction la; intros [|b lb]; simpl; f_equal; auto. Qed.

Lemma zip_with_zip_with_r {A B C D E} (f : A -> D -> E) (g : B -> C -> D) la lb lc :
  zip_with f la (zip_with g lb lc) = map3 (fun a b c => f a (g b c)) la lb lc.
Proof.
  revert lb lc. induction la as [|a la IH]; intros [|b lb] [|c lc]; simpl;
    try reflexivity.
  f_equal. apply IH.
Qed.

(** On arrays of one length the merged voxel array is [voxel_index] item by
    item. *)
Lemma voxel_array_items Nx Ny (x y z : list Z) :
  length x = length y -> length y = length z ->
  0 <= Nx < 2 ^ 32 -> 0 <= Ny < 2 ^ 32 ->
  voxel_array Nx Ny x y z = Ok (map3 (voxel_index Nx Ny) x y z).
Proof.
  intros Hxy Hyz HNx HNy. unfold voxel_array, Arr.scale, Arr.add.
  change (Np.modulus Np.uint32) with (2 ^ 32).
  rewrite (decide_True (P := 0 <= Ny < 2 ^ 32)) by assumption. simpl rbind.
  rewrite (decide_True (P := length y = length (map _ z))) by (rewrite length_map; exact Hyz).
  simpl rbind.
  rewrite (decide_True (P := 0 <= Nx < 2 ^ 32)) by assumption. simpl rbind.
  rewrite decide_True.
  2:{ rewrite length_map, length_zip_with, length_map. lia. }
  f_equal. rewrite zip_with_map_r, zip_with_map_r.
  rewrite zip_with_zip_with_r. reflexivity.
Qed.

Lemma orientation_array_items (x y : list Z) :
  length x = length y ->
  orientation_array x y = Ok (zip_with orientation_index x y).
Proof.
  intros Hxy. unfold orientation_array, Arr.scale, Arr.add.
  rewrite (decide_True (P := 0 <= 181 < Np.modulus Np.uint16)) by (split; reflexivity || discriminate).
  simpl rbind. rewrite decide_True by (rewrite length_map; auto).
  f_equal. rewrite zip_with_map_r. clear Hxy. revert x.
  induction y as [|b y IH]; intros [|a x]; simpl; try reflexivity. f_equal. apply IH.
Qed.

Lemma byte_to_of_Z z : Arr.byte_to_Z (Arr.byte_of_Z z) = z mod 256.
Proof.
  unfold Arr.byte_to_Z, Arr.byte_of_Z.
  assert (Hr : 0 <= z mod 256 < 256) by (apply Z.mod_pos_bound; lia).
  destruct (Byte.of_N (Z.to_N (z mod 256))) as [b|] eqn:Hb.
  - apply Byte.to_of_N in Hb. rewrite Hb. lia.
  - apply Byte.of_N_None_iff in Hb. lia.
Qed.

Lemma le_decode_encode k v : Arr.le_decode (Arr.le_encode k v) = v mod 256 ^ Z.of_nat k.
Proof.
  revert v. induction k as [|k IH]; intros v.
  - simpl. symmetry. apply Z.mod_1_r.
  - cbn [Arr.le_encode Arr.le_decode]. rewrite byte_to_of_Z, IH.
    rewrite Z.mod_mod by lia.
    rewrite Nat2Z.inj_succ, Z.pow_succ_r by lia.
    rewrite Z.rem_mul_r by lia. reflexivity.
Qed.

Lemma le_encode_length k v : length (Arr.le_encode k v) = k.
Proof. revert v. induction k; intros; simpl; auto. Qed.

Lemma items_from_encoded k (v : list Z) :
  Arr.items_from k (length v) (flat_map (Arr.le_encode k) v)
  = map (fun x => x mod 256 ^ Z.of_nat k) v.
Proof.
  induction v as [|x v IH]; [reflexivity|].
  cbn [length Arr.items_from flat_map map].
  rewrite take_app_length' by (symmetry; apply le_encode_length).
  rewrite drop_app_length' by (symmetry; apply le_encode_length).
  rewrite le_decode_encode, IH. reflexivity.
Qed.

Lemma to_bytes_length d v :
  length (Arr.to_bytes d v) = (Np.itemsize d * length v)%nat.
Proof.
  unfold Arr.to_bytes. induction v as [|x v IH]; simpl; [lia|].
  rewrite length_app, le_encode_length, IH. lia.
Qed.

(** What [tofile] writes, [fromfile] reads back at the same dtype, up to the
    dtype's wrap-around. *)
Lemma of_bytes_to_bytes d v : Arr.of_bytes d (Arr.to_bytes d v) = map (Np.wrap d) v.
Proof.
  unfold Arr.of_bytes. rewrite to_bytes_length.
  replace ((Np.itemsize d * length v) `div` Np.itemsize d)%nat with (length v).
  2:{ symmetry. rewrite Nat.mul_comm. apply Nat.div_mul. destruct d; discriminate. }
  unfold Arr.to_bytes. rewrite items_from_encoded.
  apply map_ext. intros x. destruct d; reflexivity.
Qed.

(** ** Stepping through effectful code *)

Lemma bind_ok {A B} (m : M A) (k : A -> M B) w a w' :
  m w = (Ok a, w') -> bind m k w = k a w'.
Proof. unfold bind. intros ->. reflexivity. Qed.

Lemma bind_raise {A B} (m : M A) (k : A -> M B) w e w' :
  m w = (Raise e, w') -> bind m k w = (Raise e, w').
Proof. unfold bind. intros ->. reflexivity. Qed.

Lemma np_fromfile_raw d p bs w :
  files w !! p = Some (FRaw bs) ->
  np_fromfile d p w = (Ok (Arr.of_bytes d bs), emit (ERead p) w).
Proof. unfold np_fromfile. intros ->. reflexivity. Qed.

Lemma os_remove_present p f w :
  files w !! p = Some f ->
  os_remove p w = (Ok tt, emit (ERemove p) (set_files (delete p) w)).
Proof. unfold os_remove. intros ->. reflexivity. Qed.

Lemma nib_load_image p img w :
  files w !! p = Some (FImage img) -> nib_load p w = (Ok img, emit (ERead p) w).
Proof. unfold nib_load. intros ->. reflexivity. Qed.

(** ** Names in the dictionary folder *)

Lemma join_inj path a b :
  Path.starts_with_slash a = false -> Path.starts_with_slash b = false ->
  Path.join path a = Path.join path b -> a = b.
Proof.
  unfold Path.join. intros -> ->.
  destruct (String.eqb path EmptyString || Path.ends_with_slash path); intros H.
  - by apply String.app_inj in H.
  - apply String.app_inj in H. by apply String.app_inj in H.
Qed.

Ltac names_differ :=
  let H := fresh in
  intros H; apply join_inj in H; [discriminate H | reflexivity | reflexivity].

Ltac find_file :=
  repeat progress (cbn [files emit set_files add_dir];
                   rewrite ?lookup_delete_ne, ?lookup_insert_ne by names_differ);
  first [eassumption | apply lookup_insert_eq].

(** ** [convert_old_dictionary] *)

Section Migration.
Variable path : string.

Abbreviation name := (Path.join path).

(** One voxel block on a folder holding the three split files. *)
Lemma merge_voxel_files_ok d fx fy fz fv Nx Ny w bx by_ bz v :
  name fx <> name fy -> name fx <> name fz -> name fy <> name fz ->
  name fv <> name fx -> name fv <> name fy -> name fv <> name fz ->
  files w !! name fx = Some (FRaw bx) ->
  files w !! name fy = Some (FRaw by_) ->
  files w !! name fz = Some (FRaw bz) ->
  voxel_array Nx Ny (Arr.of_bytes d bx) (Arr.of_bytes d by_) (Arr.of_bytes d bz) = Ok v ->
  merge_voxel_files path d fx fy fz fv Nx Ny w =
  (Ok tt,
    World (delete (name fz) (delete (name fy) (delete (name fx)
          (<[name fv := FRaw (Arr.to_bytes Np.uint32 v)]> (files w)))))
    (dirs w)
    (log w ++ [ERead (name fx); ERead (name fy); ERead (name fz);
        EWrite (name fv);
        ERemove (name fx); ERemove (name fy); ERemove (name fz)])).
Proof.
  intros Hxy Hxz Hyz Hvx Hvy Hvz Hx Hy Hz Hv. unfold merge_voxel_files.
  erewrite bind_ok by (apply np_fromfile_raw; exact Hx).
  erewrite bind_ok by (apply np_fromfile_raw; cbn [files emit]; exact Hy).
  erewrite bind_ok by (apply np_fromfile_raw; cbn [files emit]; exact Hz).
  erewrite bind_ok by (unfold lift; rewrite Hv; reflexivity).
  erewrite bind_ok by reflexivity.
  erewrite bind_ok.
  2:{ eapply os_remove_present. cbn [files emit set_files].
      rewrite lookup_insert_ne by auto. exact Hx. }
  erewrite bind_ok.
  2:{ eapply os_remove_present. cbn [files emit set_files].
      rewrite lookup_delete_ne, lookup_insert_ne by auto. exact Hy. }
  erewrite os_remove_present.
  2:{ cbn [files emit set_files].
      rewrite !lookup_delete_ne, lookup_insert_ne by auto. exact Hz. }
  unfold emit, set_files; cbn [files dirs log]. rewrite <- !app_assoc. reflexivity.
Qed.

(** One orientation block on a folder holding the two split files. *)
Lemma merge_orientation_files_ok fx fy fo w bx by_ v :
  name fx <> name fy -> name fo <> name fx -> name fo <> name fy ->
  files w !! name fx = Some (FRaw bx) ->
  files w !! name fy = Some (FRaw by_) ->
  orientation_array (Arr.of_bytes Np.uint8 bx) (Arr.of_bytes Np.uint8 by_) = Ok v ->
  merge_orientation_files path fx fy fo w =
  (Ok tt,
    World (delete (name fy) (delete (name fx)
        (<[name fo := FRaw (Arr.to_bytes Np.uint16 v)]> (files w))))
    (dirs w)
    (log w ++ [ERead (name fx); ERead (name fy); EWrite (name fo);
        ERemove (name fx); ERemove (name fy)])).
Proof.
  intros Hxy Hox Hoy Hx Hy Hv. unfold merge_orientation_files.
  erewrite bind_ok by (apply np_fromfile_raw; exact Hx).
  erewrite bind_ok by (apply np_fromfile_raw; cbn [files emit]; exact Hy).
  erewrite bind_ok by (unfold lift; rewrite Hv; reflexivity).
  erewrite bind_ok by reflexivity.
  erewrite bind_ok.
  2:{ eapply os_remove_present. cbn [files emit set_files].
      rewrite lookup_insert_ne by auto. exact Hx. }
  erewrite os_remove_present.
  2:{ cbn [files emit set_files].
      rewrite lookup_delete_ne, lookup_insert_ne by auto. exact Hy. }
  unfold emit, set_files; cbn [files dirs log]. rewrite <- !app_assoc. reflexivity.
Qed.

Lemma convert_old_dictionary_run w l Nx Ny Nz :
  holds_legacy path w l -> well_formed l Nx Ny Nz ->
  exists evs,
  convert_old_dictionary path w =
  (Ok tt, World (migrated_files path l Nx Ny (files w)) (dirs w) (log w ++ evs)).
Proof.
  intros (Ht & Hicx & Hicy & Hicz & Hecx & Hecy & Hecz & Hiox & Hioy & Heox & Heoy)
    (Hshape & HNx & HNy & S1 & S2 & S3 & S4 & S5 & S6).
  unfold convert_old_dictionary.
  erewrite bind_ok.
  2:{ unfold path_exists. rewrite Hicx. reflexivity. }
  cbn [negb bool_decide orb]. rewrite bool_decide_eq_true_2 by eauto. cbn [negb orb].
  erewrite bind_ok by (apply nib_load_image; exact Ht).
  rewrite Hshape.
  erewrite bind_ok.
  2:{ eapply merge_voxel_files_ok; try names_differ; try find_file.
      apply voxel_array_items; assumption. }
  erewrite bind_ok.
  2:{ eapply merge_voxel_files_ok; try names_differ; try find_file.
      apply voxel_array_items; assumption. }
  erewrite bind_ok.
  2:{ eapply merge_orientation_files_ok; try names_differ; try find_file.
      apply orientation_array_items; assumption. }
  erewrite merge_orientation_files_ok; try names_differ; try find_file.
  2:{ apply orientation_array_items; assumption. }
  cbn [files dirs log emit]. rewrite <- !app_assoc. eexists. reflexivity.
Qed.

End Migration.

Ltac clear_lookup :=
  repeat first
    [ rewrite lookup_delete_eq; reflexivity
    | rewrite lookup_delete_ne by names_differ
    | rewrite lookup_insert_ne by names_differ ].

Lemma migrated_files_legacy path l Nx Ny fs p :
  p ∈ legacy_names path -> migrated_files path l Nx Ny fs !! p = None.
Proof.
  unfold legacy_names, migrated_files. intros Hp.
  repeat (apply elem_of_cons in Hp as [-> | Hp]; [clear_lookup |]).
  by apply elem_of_nil in Hp.
Qed.

Lemma migrated_files_other path l Nx Ny fs p :
  p ∉ legacy_names path -> p ∉ merged_names path ->
  migrated_files path l Nx Ny fs !! p = fs !! p.
Proof.
  unfold legacy_names, merged_names, migrated_files. intros Hl Hm.
  repeat first
    [ rewrite lookup_delete_ne by (intros <-; apply Hl; set_solver)
    | rewrite lookup_insert_ne by (intros <-; apply Hm; set_solver) ].
  reflexivity.
Qed.

Lemma convert_old_dictionary_missing path : refuses_missing path.
Proof.
  intros w0 Hf Hd. unfold convert_old_dictionary.
  erewrite bind_ok.
  2:{ unfold path_exists. rewrite Hf. reflexivity. }
  rewrite bool_decide_eq_false_2 by (intros [? ?]; discriminate).
  rewrite bool_decide_eq_false_2 by assumption.
  reflexivity.
Qed.

(** C7: [convert_old_dictionary] refuses a folder without the old files with
    the not-found error and leaves it untouched; on a folder holding the old
    files (with the track-density image that gives the grid) it writes the
    four merged files, removes the ten split ones and changes nothing else;
    and it is idempotent on the folder: a second call changes nothing more
    (it reports that the old files are absent). *)
Theorem convert_old_dictionary_migrates path w l Nx Ny Nz :
  holds_legacy path w l -> well_formed l Nx Ny Nz ->
  Path.join path "dictionary_IC_vx.dict" ∉ dirs w ->
  refuses_missing path /\ migration_outcome path w l Nx Ny.
Proof.
  intros Hh Hw Hd. split; [apply convert_old_dictionary_missing|].
  destruct (convert_old_dictionary_run path w l Nx Ny Nz Hh Hw) as [evs Hrun].
  eexists. split; [exact Hrun|]. cbn [files dirs].
  split; [unfold migrated_files; find_file|].
  split; [unfold migrated_files; find_file|].
  split; [unfold migrated_files; find_file|].
  split; [unfold migrated_files; find_file|].
  split; [intros p Hp; by apply migrated_files_legacy|].
  split; [intros p Hl Hm; by apply migrated_files_other|].
  split; [reflexivity|].
  apply convert_old_dictionary_missing; cbn [files dirs]; [|assumption].
  apply migrated_files_legacy. unfold legacy_names. set_solver.
Qed.

Lemma convert_old_dictionary_migrates_witness :
  refuses_missing "d" /\ migration_outcome "d" Demo.legacy_world Demo.legacy 2 2.
Proof.
  apply (convert_old_dictionary_migrates "d" Demo.legacy_world Demo.legacy 2 2 2).
  - repeat split; vm_compute; reflexivity.
  - repeat split; vm_compute; congruence.
  - apply not_elem_of_empty.
Defined.

(** ** The checks of [run] only read *)

Lemma only_read_refl w : only_read w w.
Proof. exists []. destruct w; simpl. rewrite app_nil_r. auto. Qed.

Lemma only_read_trans w1 w2 w3 : only_read w1 w2 -> only_read w2 w3 -> only_read w1 w3.
Proof.
  intros (e1 & -> & H1) (e2 & -> & H2). exists (e1 ++ e2). simpl.
  rewrite app_assoc, forallb_app, H1, H2. auto.
Qed.

Lemma only_read_emit e w : quiet e = true -> only_read w (emit e w).
Proof. intros He. exists [e]. unfold emit. simpl. rewrite He. auto. Qed.

Lemma read_only_ret {A} (x : A) : read_only (ret x).
Proof. intros w. apply only_read_refl. Qed.

Lemma read_only_raise {A} e : read_only (@raise A e).
Proof. intros w. apply only_read_refl. Qed.

Lemma read_only_lift {A} (r : result A) : read_only (lift r).
Proof. intros w. apply only_read_refl. Qed.

Lemma read_only_bind {A B} (m : M A) (k : A -> M B) :
  read_only m -> (forall x, read_only (k x)) -> read_only (bind m k).
Proof.
  intros Hm Hk w. unfold bind. specialize (Hm w).
  destruct (m w) as [[x|e] w1]; simpl in *; [|assumption].
  eapply only_read_trans; [eassumption|]. apply Hk.
Qed.

Lemma read_only_print msg : read_only (print msg).
Proof. intros w. apply only_read_emit. reflexivity. Qed.

Lemma read_only_if {A} (b : bool) (m1 m2 : M A) :
  read_only m1 -> read_only m2 -> read_only (if b then m1 else m2).
Proof. destruct b; auto. Qed.

Lemma read_only_path_exists p : read_only (path_exists p).
Proof. intros w. apply only_read_refl. Qed.

Lemma read_only_nib_load p : read_only (nib_load p).
Proof.
  intros w. unfold nib_load. destruct (files w !! p) as [[]|]; simpl;
    first [apply only_read_refl | by apply only_read_emit].
Qed.

Lemma read_only_streamlines_load p : read_only (streamlines_load p).
Proof.
  intros w. unfold streamlines_load. destruct (files w !! p) as [[]|]; simpl;
    first [apply only_read_refl | by apply only_read_emit].
Qed.

Lemma read_only_replacing_errors {A} (m : M A) e :
  read_only m -> read_only (replacing_errors m e).
Proof.
  intros Hm w. unfold replacing_errors. specialize (Hm w).
  destruct (m w) as [[x|e'] w1]; exact Hm.
Qed.

Create HintDb read_only.
#[local] Hint Resolve read_only_ret read_only_raise read_only_lift read_only_print
  read_only_path_exists read_only_nib_load read_only_streamlines_load
  read_only_replacing_errors : read_only.

Ltac read_only_step :=
  first
    [ solve [auto with read_only]
    | apply read_only_bind; [|intros ?]
    | apply read_only_if
    | match goal with
      | |- read_only (match ?x with _ => _ end) => destruct x
      end ].

Ltac solve_read_only := repeat read_only_step.

Lemma read_only_check_ndirs a : read_only (check_ndirs a).
Proof. unfold check_ndirs. solve_read_only. Qed.

Lemma read_only_choose_tractogram a : read_only (choose_tractogram a).
Proof. unfold choose_tractogram. solve_read_only. Qed.

Lemma read_only_open_tractogram f : read_only (open_tractogram f).
Proof. unfold open_tractogram. solve_read_only. Qed.

Lemma read_only_read_geometry E a ext hdr : read_only (read_geometry E a ext hdr).
Proof. unfold read_geometry, tck_geometry. solve_read_only. Qed.

Lemma read_only_check_dims g : read_only (check_dims g).
Proof. unfold check_dims. destruct (g_dims g) as [[? ?] ?]. solve_read_only. Qed.

Lemma read_only_load_mask a g : read_only (load_mask a g).
Proof. unfold load_mask. solve_read_only. Qed.

Lemma read_only_load_peaks a g : read_only (load_peaks a g).
Proof. unfold load_peaks. solve_read_only. Qed.

Lemma read_only_load_hash_table E n : read_only (load_hash_table E n).
Proof.
  unfold load_hash_table, tell. apply read_only_bind; [|auto with read_only].
  intros w. by apply only_read_emit.
Qed.

Lemma read_only_print_blur b : read_only (print_blur b).
Proof. unfold print_blur. solve_read_only. Qed.

#[local] Hint Resolve read_only_check_ndirs read_only_choose_tractogram
  read_only_open_tractogram read_only_read_geometry read_only_check_dims
  read_only_load_mask read_only_load_peaks read_only_load_hash_table
  read_only_print_blur : read_only.

Lemma read_only_settings_and_inputs E a p filename :
  read_only (settings_and_inputs E a p filename).
Proof. unfold settings_and_inputs, print_settings. solve_read_only. Qed.

Lemma read_only_run_front E a : read_only (run_front E a).
Proof.
  unfold run_front. destruct (path_out a); [|auto with read_only].
  apply read_only_bind; [auto with read_only|]. intros _.
  apply read_only_settings_and_inputs.
Qed.

(** ** The first checks of [run] *)

Lemma bind_ok_inv {A B} (m : M A) (k : A -> M B) w b w' :
  bind m k w = (Ok b, w') -> exists a w1, m w = (Ok a, w1) /\ k a w1 = (Ok b, w').
Proof.
  unfold bind. destruct (m w) as [[a|e] w1]; [eauto | discriminate].
Qed.

Lemma check_ndirs_rejects a w :
  check_ndirs a w = (Raise unsupported_ndirs, w) <-> ndirs a ∉ supported_ndirs.
Proof.
  unfold check_ndirs, lut_is_valid. case_bool_decide; simpl; split; intros H';
    first [discriminate | reflexivity | contradiction | assumption].
Qed.

Lemma check_ndirs_accepts a w :
  ndirs a ∈ supported_ndirs -> check_ndirs a w = (Ok tt, w).
Proof.
  intros H. unfold check_ndirs, lut_is_valid. by rewrite bool_decide_eq_true_2.
Qed.

(** C3: with an output path given, [run] raises the unsupported-[ndirs]
    error exactly when [ndirs] is outside the supported set: outside, the
    error is raised on a world left exactly as it was (nothing read, written
    or printed); inside, the check passes and [run] goes on with line 124.
    500 is accepted and 501 is rejected. *)
Theorem run_checks_ndirs_first E a p w :
  path_out a = Some p ->
  (ndirs a ∉ supported_ndirs -> run E a w = (Raise unsupported_ndirs, w)) /\
  (ndirs a ∈ supported_ndirs ->
   run E a w = bind (settings_and_inputs E a p (p +:+ "/dictionary_info.pickle"))
                    (fun fr => bind (load_peaks a (fr_geometry fr)) (run_back E a fr)) w) /\
  (check_ndirs a w = (Raise unsupported_ndirs, w) <-> ndirs a ∉ supported_ndirs) /\
  lut_is_valid 500 = true /\ lut_is_valid 501 = false.
Proof.
  intros Hp. unfold run, run_front. rewrite Hp. repeat split.
  - intros Hn. apply check_ndirs_rejects with (w := w) in Hn.
    erewrite bind_raise; [reflexivity|]. erewrite bind_raise; [reflexivity|]. exact Hn.
  - intros Hn. unfold bind at 1 2. rewrite check_ndirs_accepts by assumption. reflexivity.
  - apply check_ndirs_rejects.
  - apply check_ndirs_rejects.
Qed.

Lemma run_checks_ndirs_first_witness :
  run (Demo.environment Demo.native_keeps_two) (Demo.with_ndirs 501) Demo.world0
  = (Raise unsupported_ndirs, Demo.world0).
Proof.
  apply (run_checks_ndirs_first (Demo.environment Demo.native_keeps_two)
           (Demo.with_ndirs 501) "out" Demo.world0 eq_refl).
  apply (bool_decide_eq_false_1 _). reflexivity.
Defined.

(** C6, the failing input: without [path_out], line 101 raises [TypeError]
    on entry; the test of line 205 and its "Path out not defined" are never
    reached. *)
Theorem run_without_path_out E a w :
  path_out a = None -> run E a w = (Raise TypeError, w).
Proof. intros Hp. unfold run, run_front. rewrite Hp. reflexivity. Qed.

Lemma run_without_path_out_witness :
  run (Demo.environment Demo.native_keeps_two) Demo.without_path_out Demo.world0
  = (Raise TypeError, Demo.world0).
Proof.
  apply (run_without_path_out (Demo.environment Demo.native_keeps_two)
           Demo.without_path_out Demo.world0 eq_refl).
Defined.

Lemma run_front_raises E a w e w' :
  run_front E a w = (Raise e, w') -> run E a w = (Raise e, w') /\ only_read w w'.
Proof.
  intros H. split.
  - unfold run. by apply bind_raise.
  - pose proof (read_only_run_front E a w) as Hr. by rewrite H in Hr.
Qed.

(** The second half of C6 holds: with an output path but no tractogram name,
    once the earlier checks have passed, [run] raises "Tractogram file not
    defined" having only printed and read. *)
Lemma run_without_tractogram E a p w shift b ht :
  path_out a = Some p -> filename_trk a = None -> filename_tractogram a = None ->
  ndirs a ∈ supported_ndirs ->
  resolve_fiber_shift (fiber_shift a) = Ok shift ->
  blur_params E (blur_radii a) (blur_samples a) (blur_sigma a) = Ok b ->
  (min_seg_len a <? 0)%float = false ->
  load_precomputed_hash_table E (ndirs a) = Ok ht ->
  exists w',
    run E a w = (Raise (RuntimeError "Tractogram file not defined"), w') /\ only_read w w'.
Proof.
  intros Hp Ht Hf Hn Hs Hb Hm Hh.
  assert (exists w', run_front E a w = (Raise (RuntimeError "Tractogram file not defined"), w'))
    as [w' Hw'].
  { unfold run_front. rewrite Hp.
    erewrite bind_ok by (by apply check_ndirs_accepts).
    unfold settings_and_inputs, load_hash_table, choose_tractogram.
    rewrite Hs, Hb, Hm, Hh, Hp, Ht, Hf.
    unfold bind, lift, print_settings, print, tell, bind, raise; simpl.
    destruct (print_blur b _) as [[[]|?] ?] eqn:Hpb.
    - eexists. reflexivity.
    - exfalso. revert Hpb. unfold print_blur, print, tell, bind.
      destruct (nBlurRadii b =? 1); discriminate. }
  exists w'. by apply run_front_raises.
Qed.

(** ** Which file is the tractogram *)

Lemma choose_tractogram_deprecated a p t w :
  path_out a = Some p -> filename_trk a = Some t ->
  exists msg,
    choose_tractogram a w = (Ok (default t (filename_tractogram a)), emit (EPrint msg) w).
Proof.
  intros Hp Ht. unfold choose_tractogram. rewrite Hp, Ht.
  destruct (filename_tractogram a); eexists; reflexivity.
Qed.

(** The deprecated parameter alone carries a whole run, and with both names
    given the new one is converted. *)
Example run_with_deprecated_only :
  (run (Demo.environment Demo.native_keeps_two) Demo.deprecated_only Demo.world0).1 = Ok tt
  /\ is_Some (files (run (Demo.environment Demo.native_keeps_two)
                         Demo.deprecated_only Demo.world0).2
              !! "out/dictionary_TRK_fibers.trk").
Proof. split; [vm_compute; reflexivity|]. vm_compute. eauto. Qed.

Example run_with_both_names :
  (run (Demo.environment Demo.native_keeps_two) Demo.both_names Demo.world0).1 = Ok tt.
Proof. vm_compute. reflexivity. Qed.

(** ** Blur weights *)

(** IEEE division of a negative zero by a number that is neither zero nor
    NaN is a zero. *)
Lemma neg_zero_div d :
  (d =? 0)%float = false -> is_nan d = false ->
  (neg_zero / d)%float = 0%float \/ (neg_zero / d)%float = neg_zero.
Proof.
  intros Hz Hn. unfold is_nan in Hn. rewrite FloatAxioms.eqb_spec in Hz, Hn.
  pose proof (div_spec neg_zero d) as Hd.
  change (Prim2SF neg_zero) with (S754_zero true) in Hd.
  change (Prim2SF 0) with (S754_zero false) in Hz.
  assert (Hq : exists s, Prim2SF (neg_zero / d) = S754_zero s).
  { rewrite Hd. unfold SF64div, SFdiv. destruct (Prim2SF d) as [s|s| |s m e];
      simpl in Hz, Hn; try discriminate; eauto. }
  destruct Hq as [s Hq]. apply (f_equal SF2Prim) in Hq.
  rewrite SF2Prim_Prim2SF in Hq. rewrite Hq. destruct s; auto.
Qed.

Section BlurFacts.
Variable E : env.

Lemma gaussian_damping_ok sigma s2 r :
  py_square E sigma = Ok s2 -> (2 * s2 =? 0)%float = false ->
  gaussian_damping E r sigma = Ok (damping E (2 * s2) r).
Proof.
  intros Hs Hd. unfold gaussian_damping, Py.truediv. rewrite Hs. simpl.
  rewrite Hd. reflexivity.
Qed.

(** The loop fills the weights from index [k] on and keeps those before. *)
Lemma fill_weights_from sigma s2 radii :
  py_square E sigma = Ok s2 -> (2 * s2 =? 0)%float = false ->
  forall m k weights,
  (k + m)%nat = length radii -> length weights = length radii ->
  fill_weights E sigma radii (seq k m) weights
  = Ok (take k weights ++ map (damping E (2 * s2)) (drop k radii)).
Proof.
  intros Hs Hd. induction m as [|m IH]; intros k weights Hk Hlen.
  - simpl. rewrite Nat.add_0_r in Hk. rewrite drop_ge, take_ge by lia.
    by rewrite app_nil_r.
  - cbn [seq fill_weights].
    destruct (lookup_lt_is_Some_2 radii k) as [r Hr]; [lia|].
    unfold Py.unchecked at 1. rewrite Hr. cbn [rbind].
    rewrite (gaussian_damping_ok sigma s2 r Hs Hd). cbn [rbind].
    rewrite IH by (rewrite ?length_insert; lia). f_equal.
    rewrite (drop_S radii r k Hr). cbn [map].
    rewrite (take_S_r (<[k:=damping E (2 * s2) r]> weights) k (damping E (2 * s2) r)).
    2:{ apply list_lookup_insert_eq. lia. }
    rewrite take_insert_ge by lia. by rewrite <- app_assoc.
Qed.

Lemma rmap_c_int32 samples :
  Forall (fun n => - 2 ^ 31 <= n < 2 ^ 31) samples -> rmap c_int32 samples = Ok samples.
Proof.
  induction 1 as [|n l Hn _ IH]; [reflexivity|].
  cbn [rmap]. unfold c_int32 at 1. rewrite decide_True by lia.
  cbn [rbind]. rewrite IH. cbn [rbind]. do 2 f_equal.
  unfold int32_of_long. rewrite Z.mod_small by lia. lia.
Qed.

Lemma damping_at_zero d :
  libm_at_zero E -> (d =? 0)%float = false -> is_nan d = false -> damping E d 0 = 1%float.
Proof.
  intros (Hp & He0 & He1) Hz Hn. unfold damping. rewrite Hp.
  change (- 0)%float with neg_zero.
  destruct (neg_zero_div d Hz Hn) as [-> | ->]; assumption.
Qed.

End BlurFacts.

Lemma blur_sigma_zero E radii samples :
  length radii = length samples ->
  Forall (fun n => - 2 ^ 31 <= n < 2 ^ 31) samples ->
  blur_params E radii samples 0 = Raise ZeroDivisionError.
Proof.
  intros Hl Hs. unfold blur_params. rewrite decide_True by assumption.
  rewrite (rmap_c_int32 (1 :: samples)) by (constructor; [lia | assumption]).
  cbn [rbind]. replace (length radii + 1)%nat with (S (length radii)) by lia.
  reflexivity.
Qed.

(** C4, as stated, fails for [blur_sigma = 0]: the division of line 168
    raises [ZeroDivisionError], with blurring switched off too, and [run]
    stops there. *)
Lemma blur_sigma_zero_raises :
  blur_sigma Demo.no_sigma = 0%float /\
  blur_radii Demo.no_sigma = [] /\
  blur_params (Demo.environment Demo.native_keeps_two) [] [] 0 = Raise ZeroDivisionError /\
  (run (Demo.environment Demo.native_keeps_two) Demo.no_sigma Demo.world0).1
  = Raise ZeroDivisionError.
Proof.
  split; [reflexivity|]. split; [reflexivity|]. split; vm_compute; reflexivity.
Qed.

(** C4, amended: for radii and sample counts of one length (the counts
    fitting [int32]) and a [blur_sigma] whose [2.0*blur_sigma**2] is a
    number other than zero, the blur arrays are the radii behind an implicit
    radius 0, the sample counts behind an implicit count 1, and one weight
    per radius, [exp( -r**2 / (2.0*blur_sigma**2) )] in double precision;
    the weight of the radius-0 copy is 1, so that without radii the arrays
    hold the single copy of radius 0, count 1 and weight 1. *)
Theorem blur_weights_gaussian E radii samples sigma s2 :
  length radii = length samples ->
  Forall (fun n => - 2 ^ 31 <= n < 2 ^ 31) samples ->
  py_square E sigma = Ok s2 ->
  (2 * s2 =? 0)%float = false -> is_nan (2 * s2)%float = false ->
  libm_at_zero E ->
  blur_params E radii samples sigma
  = Ok (Blur (Z.of_nat (length radii + 1)) (0%float :: radii) (1 :: samples)
             (1%float :: map (damping E (2 * s2)) radii))
  /\ (radii = [] ->
      blur_params E radii samples sigma = Ok (Blur 1 [0%float] [1] [1%float])).
Proof.
  intros Hl Hs Hsq Hz Hn Hm.
  assert (Hb : blur_params E radii samples sigma
               = Ok (Blur (Z.of_nat (length radii + 1)) (0%float :: radii) (1 :: samples)
                          (1%float :: map (damping E (2 * s2)) radii))).
  { unfold blur_params. rewrite decide_True by assumption.
    rewrite (rmap_c_int32 (1 :: samples)) by (constructor; [lia | assumption]).
    cbn [rbind].
    rewrite (fill_weights_from E sigma s2 (0%float :: radii) Hsq Hz)
      by (cbn [length]; lia).
    cbn [rbind take drop app map]. rewrite (damping_at_zero E _ Hm Hz Hn). reflexivity. }
  split; [exact Hb|]. intros ->. rewrite Hb.
  destruct samples; [reflexivity | discriminate Hl].
Qed.

Lemma blur_weights_gaussian_witness :
  blur_params (Demo.environment Demo.native_keeps_two) [1%float] [4] 1
  = Ok (Blur 2 [0; 1]%float [1; 4] [1; 0.6065306597126334]%float)
  /\ ([1%float] = [] ->
      blur_params (Demo.environment Demo.native_keeps_two) [1%float] [4] 1
      = Ok (Blur 1 [0%float] [1] [1%float])).
Proof.
  apply (blur_weights_gaussian (Demo.environment Demo.native_keeps_two)
           [1%float] [4] 1%float 1%float).
  - reflexivity.
  - constructor; [lia | constructor].
  - reflexivity.
  - reflexivity.
  - reflexivity.
  - repeat split.
Defined.

(** ** The guard on the grid extent *)

(** The test of line 279 looks at [Nx] and [Nz] only. *)
Lemma dims_overflow_spec Nx Ny Nz :
  dims_overflow Nx Ny Nz = true <-> 2 ^ 16 <= Nx \/ 2 ^ 16 <= Nz.
Proof.
  unfold dims_overflow. rewrite !orb_true_iff, !Z.leb_le. tauto.
Qed.

(** C2, the failing input: a [.tck] tractogram whose reference volume has
    1 x 65536 x 1 voxels.  The guard of line 279 tests [Nz] twice and [Ny]
    never, so the geometry error is not raised and the native pass is
    started on the grid.  With a pass that gives up, [run] returns
    normally; with a pass that succeeds, [run] goes on to line 401, where
    the library refuses the extent with [HeaderDataError]: in neither case
    is the error of line 280 raised. *)
Theorem dims_overflow_misses_Ny :
  dims_overflow 1 65536 1 = false /\
  started_native
    (run (Demo.environment Demo.native_fails) Demo.wide Demo.world0).2 = true /\
  (run (Demo.environment Demo.native_fails) Demo.wide Demo.world0).1 = Ok tt /\
  started_native
    (run (Demo.environment Demo.native_keeps_two) Demo.wide Demo.world0).2 = true /\
  (run (Demo.environment Demo.native_keeps_two) Demo.wide Demo.world0).1
  = Raise HeaderDataError /\
  HeaderDataError <> max_dim_error.
Proof.
  split; [reflexivity|]. split; [vm_compute; reflexivity|].
  split; [vm_compute; reflexivity|]. split; [vm_compute; reflexivity|].
  split; [vm_compute; reflexivity | discriminate].
Qed.

(** ** The checks on the peaks *)

Lemma load_peaks_checks a g w fp img s3 :
  filename_peaks a = Some fp -> files w !! fp = Some (FImage img) ->
  readable_peaks a img s3 ->
  (s3 mod 3 <> 0 -> (load_peaks a g w).1 = Raise peaks_volumes_error) /\
  (s3 mod 3 = 0 -> vf_THR_out_of_range a = true ->
   (load_peaks a g w).1 = Raise vf_THR_error).
Proof.
  intros Hfp Himg ((s0 & s1 & s2 & rest & Hshape) & Hpix & Hflip).
  destruct (nii_pixdim img) as [|p0 [|p1 [|p2 [|p3 prest]]]] eqn:Hp;
    try (simpl in Hpix; lia).
  destruct (flip_peaks a) as [|f0 [|f1 [|f2 frest]]] eqn:Hf; try (simpl in Hflip; lia).
  assert (Hgo : (load_peaks a g w).1
                = if negb (s3 mod 3 =? 0) then Raise peaks_volumes_error
                  else if vf_THR_out_of_range a then Raise vf_THR_error
                  else (if decide (length (nii_shape img) = 4%nat)
                        then Ok (Some (Peaks img (s3 / 3)
                                   (if peaks_use_affine a
                                    then rotation_transposed (nii_affine img) else eye3)))
                        else Raise ValueError)).
  { unfold load_peaks, vf_THR_out_of_range. rewrite Hfp.
    unfold bind, print, tell, lift, nib_load. cbn [files emit]. rewrite Himg.
    rewrite Hshape, Hp, Hf. cbn [Py.index Py.unchecked lookup list_lookup].
    destruct (geometry_differs g s0 s1 s2 p1 p2 p3); cbn [fst snd];
      (destruct (negb (s3 mod 3 =? 0)); [reflexivity|]);
      (destruct ((vf_THR a <? 0)%float || (1 <? vf_THR a)%float); [reflexivity|]);
      unfold check_ndim; rewrite Hshape; destruct (decide _); reflexivity. }
  rewrite Hgo. split.
  - intros Hm. apply Z.eqb_neq in Hm. by rewrite Hm.
  - intros Hm Hv. apply Z.eqb_eq in Hm. by rewrite Hm, Hv.
Qed.

(** C5, as stated, fails without a peaks volume: a [vf_THR] of 2 is not
    looked at and the run succeeds. *)
Lemma vf_THR_unchecked_without_peaks :
  vf_THR Demo.vf_two = 2%float /\
  filename_peaks Demo.vf_two = None /\
  (run (Demo.environment Demo.native_keeps_two) Demo.vf_two Demo.world0).1 = Ok tt.
Proof. split; [reflexivity|]. split; [reflexivity|]. vm_compute. reflexivity. Qed.

(** C5, amended: when a peaks volume is given and the earlier steps of
    [run] have passed, [run] raises a [RuntimeError] if the volume's last
    extent is not a multiple of 3, and otherwise if [vf_THR < 0] or
    [vf_THR > 1]; either error comes before the output directory is
    touched and before the native pass: up to it [run] has only printed and
    read. *)
Theorem peaks_checks_precede_conversion E a w fr w1 fp img s3 :
  run_front E a w = (Ok fr, w1) ->
  filename_peaks a = Some fp -> files w !! fp = Some (FImage img) ->
  readable_peaks a img s3 ->
  (s3 mod 3 <> 0 ->
   exists w', run E a w = (Raise peaks_volumes_error, w') /\ only_read w w') /\
  (s3 mod 3 = 0 -> vf_THR_out_of_range a = true ->
   exists w', run E a w = (Raise vf_THR_error, w') /\ only_read w w').
Proof.
  intros Hfr Hfp Himg Hread.
  pose proof (read_only_run_front E a w) as Hr1. rewrite Hfr in Hr1. cbn [snd] in Hr1.
  assert (Himg1 : files w1 !! fp = Some (FImage img)).
  { destruct Hr1 as (evs & -> & _). exact Himg. }
  pose proof (read_only_load_peaks a (fr_geometry fr) w1) as Hr2.
  destruct (load_peaks_checks a (fr_geometry fr) w1 fp img s3 Hfp Himg1 Hread) as [H3 Hv].
  assert (Hraise : forall e, (load_peaks a (fr_geometry fr) w1).1 = Raise e ->
            exists w', run E a w = (Raise e, w') /\ only_read w w').
  { intros e He. exists (load_peaks a (fr_geometry fr) w1).2. split.
    - unfold run. erewrite bind_ok by exact Hfr. apply bind_raise.
      destruct (load_peaks a (fr_geometry fr) w1) as [r w2]. cbn [fst snd] in *.
      by rewrite He.
    - eapply only_read_trans; eassumption. }
  split; [intros Hm | intros Hm Hvf]; apply Hraise; auto.
Qed.

Lemma peaks_checks_precede_conversion_witness :
  (exists w', run (Demo.environment Demo.native_keeps_two)
                  (Demo.with_peaks 0.1%float) (Demo.world_with_peaks 4)
              = (Raise peaks_volumes_error, w') /\ only_read (Demo.world_with_peaks 4) w')
  /\ (exists w', run (Demo.environment Demo.native_keeps_two)
                     (Demo.with_peaks 2%float) (Demo.world_with_peaks 6)
                 = (Raise vf_THR_error, w') /\ only_read (Demo.world_with_peaks 6) w').
Proof.
  split.
  - destruct (run_front (Demo.environment Demo.native_keeps_two)
                (Demo.with_peaks 0.1%float) (Demo.world_with_peaks 4)) as [[fr|e] w1] eqn:Hfr;
      [|vm_compute in Hfr; discriminate Hfr].
    refine (proj1 (peaks_checks_precede_conversion _ _ _ fr w1 "in/peaks.nii"
                     (Demo.peaks_image 4) 4
                     Hfr eq_refl eq_refl _) _).
    + split; [by exists 2, 2, 2, []|]. split; vm_compute; lia.
    + discriminate.
  - destruct (run_front (Demo.environment Demo.native_keeps_two)
                (Demo.with_peaks 2%float) (Demo.world_with_peaks 6)) as [[fr|e] w1] eqn:Hfr;
      [|vm_compute in Hfr; discriminate Hfr].
    refine (proj2 (peaks_checks_precede_conversion _ _ _ fr w1 "in/peaks.nii"
                     (Demo.peaks_image 6) 6
                     Hfr eq_refl eq_refl _) _ _).
    + split; [by exists 2, 2, 2, []|]. split; vm_compute; lia.
    + reflexivity.
    + reflexivity.
Defined.

(** ** The tractogram matching the dictionary *)

Lemma items_from_bytes (bs : list Byte.byte) :
  Arr.items_from 1 (length bs) bs = map Arr.byte_to_Z bs.
Proof.
  induction bs as [|b bs IH]; [reflexivity|].
  cbn [length Arr.items_from map].
  change (take 1 (b :: bs)) with [b]. change (drop 1 (b :: bs)) with bs.
  f_equal; [|exact IH]. cbn [Arr.le_decode]. lia.
Qed.

Lemma of_bytes_uint8 bs : Arr.of_bytes Np.uint8 bs = map Arr.byte_to_Z bs.
Proof.
  unfold Arr.of_bytes. cbn [Np.itemsize]. rewrite Nat.div_1_r. apply items_from_bytes.
Qed.

Lemma compress_flagged {A} (flags : list bool) (l : list A) :
  Py.compress flags l = flagged flags l.
Proof.
  unfold flagged. revert l. induction flags as [|b flags IH]; intros [|x l];
    try reflexivity.
  cbn [Py.compress zip zip_with]. rewrite filter_cons. destruct b; cbn [fst].
  - rewrite decide_True by reflexivity. cbn [fmap list_fmap snd]. f_equal. apply IH.
  - rewrite decide_False by discriminate. apply IH.
Qed.

Lemma flagged_sublist {A} (flags : list bool) (l : list A) : sublist (flagged flags l) l.
Proof.
  rewrite <- compress_flagged. revert l.
  induction flags as [|b flags IH]; intros [|x l]; cbn [Py.compress];
    try apply sublist_nil_l.
  destruct b; [apply sublist_skip | apply sublist_cons]; apply IH.
Qed.

Lemma flagged_length {A} (flags : list bool) (l : list A) :
  length flags = length l ->
  Z.of_nat (length (flagged flags l)) = Py.count_nonzero flags.
Proof.
  rewrite <- compress_flagged. unfold Py.count_nonzero. intros H. f_equal.
  revert l H. induction flags as [|b flags IH]; intros [|x l] H; try discriminate;
    [reflexivity|].
  cbn [Py.compress]. rewrite filter_cons. injection H as H. destruct b.
  - rewrite decide_True by reflexivity. cbn [length]. f_equal. by apply IH.
  - rewrite decide_False by discriminate. by apply IH.
Qed.

(** A streamline is selected exactly when its flag is set. *)
Lemma flagged_lookup {A} (flags : list bool) (l : list A) (i : nat) x :
  flags !! i = Some true -> l !! i = Some x -> x ∈ flagged flags l.
Proof.
  intros Hf Hl. unfold flagged. apply list_elem_of_fmap. exists (true, x). split; [done|].
  apply list_elem_of_filter. split; [done|].
  apply list_elem_of_lookup. exists i. apply lookup_zip_with_Some. eauto.
Qed.

(** Where the tractogram and a kept-file with one flag per streamline are in
    place, generating the matching tractogram writes, under the output
    directory, a streamline file holding exactly the streamlines whose flag
    is set, in their original order, with header counts equal to their
    number; nothing else changes. *)
Lemma generate_tractogram_writes f p ext w fib kept :
  files w !! f = Some (FTract fib) ->
  files w !! Path.join p "dictionary_TRK_kept.dict" = Some (FRaw kept) ->
  length kept = length (trk_streamlines fib) ->
  exists w',
    generate_tractogram f p ext w = (Ok tt, w') /\
    files w' = <[Path.join p ("dictionary_TRK_fibers" +:+ ext)
                 := filtered_tractogram fib kept]> (files w) /\
    dirs w' = dirs w /\
    sublist (flagged (kept_flags kept) (trk_streamlines fib)) (trk_streamlines fib) /\
    (forall i x, kept_flags kept !! i = Some true -> trk_streamlines fib !! i = Some x ->
                 x ∈ flagged (kept_flags kept) (trk_streamlines fib)) /\
    Z.of_nat (length (flagged (kept_flags kept) (trk_streamlines fib)))
    = Py.count_nonzero (kept_flags kept).
Proof.
  intros Hf Hk Hlen. eexists. split; [|split; [|split; [|split; [|split]]]].
  - unfold generate_tractogram, np_fromfile_bool.
    unfold bind at 1. unfold print at 1, tell at 1.
    erewrite bind_ok.
    2:{ unfold streamlines_load. cbn [files emit]. rewrite Hf. reflexivity. }
    erewrite bind_ok.
    2:{ erewrite bind_ok by (apply np_fromfile_raw; cbn [files emit]; exact Hk).
        reflexivity. }
    rewrite of_bytes_uint8, map_map. fold (kept_flags kept).
    erewrite bind_ok.
    2:{ unfold lift, Py.mask_select. rewrite decide_True.
        - reflexivity.
        - unfold kept_flags. rewrite length_map. exact Hlen. }
    rewrite compress_flagged.
    erewrite bind_ok by reflexivity. reflexivity.
  - reflexivity.
  - reflexivity.
  - apply flagged_sublist.
  - apply flagged_lookup.
  - apply flagged_length. unfold kept_flags. rewrite length_map. exact Hlen.
Qed.

(** ** After the checks: output directory, native pass, saved maps *)

Lemma prepare_output_writes a p filename w :
  p <> EmptyString ->
  exists w1,
    prepare_output a p filename w = (Ok tt, w1) /\
    files w1 = <[filename := FPickle (info_of_args a)]> (files w) /\
    (p ∈ dirs w1 \/ is_Some (files w !! p)).
Proof.
  intros Hp. unfold prepare_output, bind, print, tell, path_exists, os_makedirs, write_file.
  cbn [files dirs emit].
  destruct (bool_decide (is_Some (files w !! p))) eqn:Hf;
    [|destruct (bool_decide (p ∈ dirs w)) eqn:Hd]; cbn [orb negb].
  - eexists. split; [reflexivity|]. split; [reflexivity|]. right.
    by apply bool_decide_eq_true_1 in Hf.
  - eexists. split; [reflexivity|]. split; [reflexivity|]. left.
    by apply bool_decide_eq_true_1 in Hd.
  - apply String.eqb_neq in Hp. rewrite Hp.
    eexists. split; [reflexivity|]. split; [reflexivity|]. left.
    cbn [dirs add_dir emit set_files]. set_solver.
Qed.

(** [run_back], once the output is prepared and the pass has returned. *)
Lemma run_back_after_pass E a fr pk w w1 args code tdi w2 :
  prepare_output a (fr_path fr) (fr_filename fr) w = (Ok tt, w1) ->
  native_arguments_of a fr pk = Ok args ->
  trk2dictionary E args (emit (ENative (na_path_out args)) w1) = (code, tdi, w2) ->
  run_back E a fr pk w
  = if (code =? 0)%Z then (Ok tt, emit (EPrint "[ DICTIONARY not generated ]") w2)
    else bind (if gen_trk a
               then generate_tractogram (fr_tractogram fr) (fr_path fr) (fr_extension fr)
               else ret tt)
              (fun _ => bind (print "[ %.1f seconds ]")
                 (fun _ => save_maps E (fr_path fr) (fr_geometry fr) (fr_mask fr) pk tdi))
              w2.
Proof.
  intros Hprep Hargs Hnat. unfold run_back, native_arguments_of in *.
  erewrite bind_ok by exact Hprep.
  erewrite bind_ok by (unfold lift; rewrite Hargs; reflexivity).
  erewrite bind_ok by (unfold call_native; rewrite Hnat; reflexivity).
  cbn [fst snd]. destruct (code =? 0)%Z; reflexivity.
Qed.

(** C9, as stated, fails: when the native pass gives up, [run] prints a
    line and returns normally, and the metadata record and the output
    directory made before the pass are still there. *)
Lemma failed_pass_leaves_metadata :
  (run (Demo.environment Demo.native_fails) Demo.trk_args Demo.world0).1 = Ok tt /\
  files (run (Demo.environment Demo.native_fails) Demo.trk_args Demo.world0).2
    !! "out/dictionary_info.pickle" = Some (FPickle (info_of_args Demo.trk_args)) /\
  dirs (run (Demo.environment Demo.native_fails) Demo.trk_args Demo.world0).2 = {["out"]} /\
  files Demo.world0 !! "out/dictionary_info.pickle" = None.
Proof.
  split; [vm_compute; reflexivity|]. split; [vm_compute; reflexivity|].
  split; vm_compute; reflexivity.
Qed.

(** C9, amended: when the checks have passed and the native pass returns 0,
    [run] returns normally with the world the pass left and one more printed
    line: it writes no tractogram, track-density image or mask, and removes
    nothing; the metadata record was written, under an existing output
    directory, before the pass started. *)
Theorem failed_pass_returns_quietly E a w fr wa pk wb args tdi w2 :
  run_front E a w = (Ok fr, wa) ->
  load_peaks a (fr_geometry fr) wa = (Ok pk, wb) ->
  fr_path fr <> EmptyString ->
  native_arguments_of a fr pk = Ok args ->
  trk2dictionary E args
    (emit (ENative (na_path_out args)) (prepare_output a (fr_path fr) (fr_filename fr) wb).2)
  = (0, tdi, w2) ->
  run E a w = (Ok tt, emit (EPrint "[ DICTIONARY not generated ]") w2) /\
  files (prepare_output a (fr_path fr) (fr_filename fr) wb).2 !! fr_filename fr
  = Some (FPickle (info_of_args a)) /\
  (fr_path fr ∈ dirs (prepare_output a (fr_path fr) (fr_filename fr) wb).2
   \/ is_Some (files w !! fr_path fr)).
Proof.
  intros Hfr Hpk Hp Hargs Hnat.
  destruct (prepare_output_writes a (fr_path fr) (fr_filename fr) wb Hp)
    as (w1 & Hprep & Hfiles & Hdir).
  rewrite Hprep in *. cbn [snd] in *. split; [|split].
  - unfold run. erewrite bind_ok by exact Hfr. erewrite bind_ok by exact Hpk.
    erewrite run_back_after_pass by eassumption. reflexivity.
  - rewrite Hfiles. apply lookup_insert_eq.
  - destruct Hdir as [Hd|Hf]; [by left|right].
    pose proof (read_only_run_front E a w) as H1. rewrite Hfr in H1. cbn [snd] in H1.
    pose proof (read_only_load_peaks a (fr_geometry fr) wa) as H2. rewrite Hpk in H2.
    cbn [snd] in H2. clear Hfr Hpk Hprep Hnat Hfiles.
    destruct H1 as (e1 & -> & _). destruct H2 as (e2 & -> & _). exact Hf.
Qed.

Lemma failed_pass_returns_quietly_witness :
  exists w2,
    run (Demo.environment Demo.native_fails) Demo.trk_args Demo.world0
    = (Ok tt, emit (EPrint "[ DICTIONARY not generated ]") w2) /\
    files w2 !! "out/dictionary_info.pickle" = Some (FPickle (info_of_args Demo.trk_args)).
Proof.
  set (E := Demo.environment Demo.native_fails).
  let r := eval vm_compute in (run_front E Demo.trk_args Demo.world0) in
  lazymatch r with
  | (Ok ?fr, ?wa) =>
      assert (Hfr : run_front E Demo.trk_args Demo.world0 = (Ok fr, wa))
        by (vm_compute; reflexivity);
      let r2 := eval vm_compute in (load_peaks Demo.trk_args (fr_geometry fr) wa) in
      lazymatch r2 with
      | (Ok ?pk, ?wb) =>
          assert (Hpk : load_peaks Demo.trk_args (fr_geometry fr) wa = (Ok pk, wb))
            by (vm_compute; reflexivity);
          let r3 := eval vm_compute in (native_arguments_of Demo.trk_args fr pk) in
          lazymatch r3 with
          | Ok ?args =>
              assert (Hargs : native_arguments_of Demo.trk_args fr pk = Ok args)
                by (vm_compute; reflexivity);
              destruct (failed_pass_returns_quietly E Demo.trk_args Demo.world0
                          fr wa pk wb args [] _ Hfr Hpk ltac:(discriminate) Hargs eq_refl)
                as (Hrun & Hfile & _)
          end
      end
  end.
  eexists. split; [exact Hrun|]. exact Hfile.
Defined.

(** ** The filtered tractogram of a successful run *)

Lemma forallb_fits shape :
  fits_header shape -> forallb (fun n => n <=? 32767) shape = true.
Proof.
  induction 1 as [|n l Hn _ IH]; [reflexivity|].
  cbn [forallb]. rewrite IH. apply Z.leb_le in Hn. by rewrite Hn.
Qed.

(** With extents that fit a header, both maps are written. *)
Lemma save_maps_writes E p g mask pk tdi w :
  maps_fit g mask ->
  exists img1 img2,
    save_maps E p g mask pk tdi w
    = (Ok tt,
       World (<[Path.join p "dictionary_mask.nii.gz" := FImage img2]>
                (<[Path.join p "dictionary_tdi.nii.gz" := FImage img1]> (files w)))
             (dirs w)
             (log w ++ [EWrite (Path.join p "dictionary_tdi.nii.gz");
                        EWrite (Path.join p "dictionary_mask.nii.gz")])).
Proof.
  intros [Hg Hm]. unfold save_maps. destruct (g_dims g) as [[Nx Ny] Nz].
  cbn [fst snd] in Hg. apply forallb_fits in Hg.
  unfold nib_save, write_file, bind, lift, new_image. rewrite Hg.
  destruct mask as [m|].
  - rewrite (forallb_fits _ (Hm m eq_refl)).
    unfold emit, set_files. cbn [files dirs log]. rewrite <- app_assoc.
    eexists _, _. reflexivity.
  - unfold emit, set_files. cbn [files dirs log]. rewrite <- app_assoc.
    eexists _, _. reflexivity.
Qed.

(** Whatever its outcome, saving the maps touches no other file. *)
Lemma save_maps_keeps E p g mask pk tdi w q :
  q <> Path.join p "dictionary_tdi.nii.gz" -> q <> Path.join p "dictionary_mask.nii.gz" ->
  files (save_maps E p g mask pk tdi w).2 !! q = files w !! q.
Proof.
  intros Ht Hm. unfold save_maps. destruct (g_dims g) as [[Nx Ny] Nz].
  unfold nib_save, write_file, bind, lift, new_image.
  destruct (forallb _ [Nx; Ny; Nz]); [|reflexivity].
  destruct mask as [m|]; [destruct (forallb _ (nii_shape m))|];
    cbn [snd files emit set_files]; rewrite ?lookup_insert_ne by auto; reflexivity.
Qed.

Lemma fibers_name_differs p ext other :
  Path.starts_with_slash other = false ->
  other <> "dictionary_TRK_fibers" +:+ ext ->
  Path.join p other <> Path.join p ("dictionary_TRK_fibers" +:+ ext).
Proof.
  intros Hs Hne Heq. apply Hne. apply (join_inj p); [assumption|reflexivity|assumption].
Qed.

(** C8: when the checks have passed, the native pass has returned a nonzero
    code and has left a kept-file with one flag per streamline of the
    tractogram, and [gen_trk] is set, the streamline file that [run] leaves
    under the output directory holds exactly the streamlines whose flag is
    set, in their original order, with header counts equal to their
    number, the number of set flags; and [run] succeeds whenever the grid
    and the mask have no extent above 32767, the only condition under which
    the maps saved afterwards are given a header. *)
Theorem run_keeps_flagged_streamlines E a w fr wa pk wb args code tdi wn fib kept :
  run_front E a w = (Ok fr, wa) ->
  load_peaks a (fr_geometry fr) wa = (Ok pk, wb) ->
  fr_path fr <> EmptyString ->
  native_arguments_of a fr pk = Ok args ->
  trk2dictionary E args
    (emit (ENative (na_path_out args)) (prepare_output a (fr_path fr) (fr_filename fr) wb).2)
  = (code, tdi, wn) ->
  code <> 0 -> gen_trk a = true ->
  files wn !! fr_tractogram fr = Some (FTract fib) ->
  files wn !! Path.join (fr_path fr) "dictionary_TRK_kept.dict" = Some (FRaw kept) ->
  length kept = length (trk_streamlines fib) ->
  exists r w',
    run E a w = (r, w') /\
    (maps_fit (fr_geometry fr) (fr_mask fr) -> r = Ok tt) /\
    files w' !! Path.join (fr_path fr) ("dictionary_TRK_fibers" +:+ fr_extension fr)
    = Some (filtered_tractogram fib kept) /\
    sublist (flagged (kept_flags kept) (trk_streamlines fib)) (trk_streamlines fib) /\
    (forall i x, kept_flags kept !! i = Some true -> trk_streamlines fib !! i = Some x ->
                 x ∈ flagged (kept_flags kept) (trk_streamlines fib)) /\
    Z.of_nat (length (flagged (kept_flags kept) (trk_streamlines fib)))
    = Py.count_nonzero (kept_flags kept).
Proof.
  intros Hfr Hpk Hp Hargs Hnat Hcode Hgen Hfib Hkept Hlen.
  destruct (prepare_output_writes a (fr_path fr) (fr_filename fr) wb Hp)
    as (w1 & Hprep & _). rewrite Hprep in Hnat. cbn [snd] in Hnat.
  destruct (generate_tractogram_writes (fr_tractogram fr) (fr_path fr) (fr_extension fr)
              wn fib kept Hfib Hkept Hlen)
    as (wg & Hgenerate & Hfiles & _ & Hsub & Hall & Hcount).
  set (ws := emit (EPrint "[ %.1f seconds ]") wg).
  assert (Hrun : run E a w
                 = save_maps E (fr_path fr) (fr_geometry fr) (fr_mask fr) pk tdi ws).
  { unfold run. erewrite bind_ok by exact Hfr. erewrite bind_ok by exact Hpk.
    erewrite run_back_after_pass by eassumption.
    apply Z.eqb_neq in Hcode. rewrite Hcode, Hgen.
    erewrite bind_ok by exact Hgenerate.
    erewrite bind_ok by reflexivity. reflexivity. }
  exists (save_maps E (fr_path fr) (fr_geometry fr) (fr_mask fr) pk tdi ws).1,
         (save_maps E (fr_path fr) (fr_geometry fr) (fr_mask fr) pk tdi ws).2.
  split; [rewrite Hrun; apply surjective_pairing|].
  split; [|split; [|auto]].
  - intros Hfit.
    destruct (save_maps_writes E (fr_path fr) (fr_geometry fr) (fr_mask fr) pk tdi ws Hfit)
      as (img1 & img2 & ->). reflexivity.
  - rewrite save_maps_keeps
      by (intros H; symmetry in H; revert H; apply fibers_name_differs; [reflexivity|];
          cbv [String.append]; discriminate).
    unfold ws. cbn [files emit]. rewrite Hfiles. apply lookup_insert_eq.
Qed.

Lemma run_keeps_flagged_streamlines_witness :
  exists w' hdr,
    run (Demo.environment Demo.native_keeps_two) Demo.trk_args Demo.world0 = (Ok tt, w') /\
    files w' !! "out/dictionary_TRK_fibers.trk"
    = Some (FTract (Tractogram hdr [Demo.s0; Demo.s2])) /\
    hdr !! "count" = Some (HInt 2) /\ hdr !! "nb_streamlines" = Some (HInt 2).
Proof.
  set (E := Demo.environment Demo.native_keeps_two).
  set (a := Demo.trk_args).
  let r := eval vm_compute in (run_front E a Demo.world0) in
  lazymatch r with
  | (Ok ?fr0, ?wa0) => pose (fr := fr0); pose (wa := wa0)
  end.
  assert (Hfr : run_front E a Demo.world0 = (Ok fr, wa)) by (vm_compute; reflexivity).
  let r := eval vm_compute in (load_peaks a (fr_geometry fr) wa) in
  lazymatch r with
  | (Ok ?pk0, ?wb0) => pose (pk := pk0); pose (wb := wb0)
  end.
  assert (Hpk : load_peaks a (fr_geometry fr) wa = (Ok pk, wb)) by (vm_compute; reflexivity).
  let r := eval vm_compute in (native_arguments_of a fr pk) in
  lazymatch r with
  | Ok ?args0 => pose (args := args0)
  end.
  assert (Hargs : native_arguments_of a fr pk = Ok args) by (vm_compute; reflexivity).
  let r := eval vm_compute in
    (trk2dictionary E args
       (emit (ENative (na_path_out args))
          (prepare_output a (fr_path fr) (fr_filename fr) wb).2)) in
  lazymatch r with
  | (_, ?tdi0, ?wn0) => pose (tdi := tdi0); pose (wn := wn0)
  end.
  assert (Hnat : trk2dictionary E args
                   (emit (ENative (na_path_out args))
                      (prepare_output a (fr_path fr) (fr_filename fr) wb).2)
                 = (1, tdi, wn)) by (vm_compute; reflexivity).
  destruct (run_keeps_flagged_streamlines E a Demo.world0 fr wa pk wb args 1 tdi wn
              Demo.fibers [Byte.x01; Byte.x00; Byte.x01]
              Hfr Hpk ltac:(discriminate) Hargs Hnat ltac:(discriminate)
              eq_refl ltac:(vm_compute; reflexivity) ltac:(vm_compute; reflexivity) eq_refl)
    as (r & w' & Hrun & Hok & Hfile & _).
  rewrite Hok in Hrun.
  2:{ split; [repeat constructor; vm_compute; discriminate | discriminate]. }
  exists w'. eexists. split; [exact Hrun|]. split; [exact Hfile|].
  split; vm_compute; reflexivity.
Defined.

(** * Further properties of the migration and of the driver *)

(** ** The migration: what it reads back, where it stops, what it touches *)

Lemma wrap_wrap d n : Np.wrap d (Np.wrap d n) = Np.wrap d n.
Proof. unfold Np.wrap. apply Z.mod_mod. pose proof (modulus_pos d). lia. Qed.

Lemma map_wrap_map3 {A B C} (f : A -> B -> C -> Z) d la lb lc :
  (forall a b c, Np.wrap d (f a b c) = f a b c) ->
  map (Np.wrap d) (map3 f la lb lc) = map3 f la lb lc.
Proof.
  intros Hf. revert lb lc. induction la as [|a la IH]; intros [|b lb] [|c lc];
    simpl; try reflexivity.
  rewrite Hf, IH. reflexivity.
Qed.

Lemma map_wrap_zip_with {A B} (f : A -> B -> Z) d la lb :
  (forall a b, Np.wrap d (f a b) = f a b) ->
  map (Np.wrap d) (zip_with f la lb) = zip_with f la lb.
Proof.
  intros Hf. revert lb. induction la as [|a la IH]; intros [|b lb];
    simpl; try reflexivity.
  rewrite Hf, IH. reflexivity.
Qed.

(** X1: a merged file is read back as written.  [np.fromfile] at [uint32]
    on a merged voxel file yields the merged voxel indices of the legacy
    items, one per item, and at [uint16] on a merged orientation file the
    merged orientation indices. *)
Theorem merged_files_read_back p q d Nx Ny bx by_ bz ox oy w :
  files w !! p = Some (merged_voxels d Nx Ny bx by_ bz) ->
  files w !! q = Some (merged_orientations ox oy) ->
  np_fromfile Np.uint32 p w
  = (Ok (map3 (voxel_index Nx Ny) (Arr.of_bytes d bx) (Arr.of_bytes d by_)
              (Arr.of_bytes d bz)),
     emit (ERead p) w) /\
  np_fromfile Np.uint16 q w
  = (Ok (zip_with orientation_index (Arr.of_bytes Np.uint8 ox) (Arr.of_bytes Np.uint8 oy)),
     emit (ERead q) w).
Proof.
  intros Hp Hq. unfold merged_voxels in Hp. unfold merged_orientations in Hq. split.
  - rewrite (np_fromfile_raw _ _ _ _ Hp), of_bytes_to_bytes.
    rewrite map_wrap_map3; [reflexivity|].
    intros a b c. unfold voxel_index, Np.add. apply wrap_wrap.
  - rewrite (np_fromfile_raw _ _ _ _ Hq), of_bytes_to_bytes.
    rewrite map_wrap_zip_with; [reflexivity|].
    intros a b. unfold orientation_index, Np.add. apply wrap_wrap.
Qed.

Lemma merged_files_read_back_witness :
  np_fromfile Np.uint32 "d/dictionary_IC_v.dict"
    (convert_old_dictionary "d" Demo.legacy_world).2
  = (Ok [5; 6], emit (ERead "d/dictionary_IC_v.dict")
                  (convert_old_dictionary "d" Demo.legacy_world).2) /\
  np_fromfile Np.uint16 "d/dictionary_IC_o.dict"
    (convert_old_dictionary "d" Demo.legacy_world).2
  = (Ok [365; 912], emit (ERead "d/dictionary_IC_o.dict")
                      (convert_old_dictionary "d" Demo.legacy_world).2).
Proof.
  apply (merged_files_read_back "d/dictionary_IC_v.dict" "d/dictionary_IC_o.dict"
           Np.uint16 2 2
           (lf_IC_vx Demo.legacy) (lf_IC_vy Demo.legacy) (lf_IC_vz Demo.legacy)
           (lf_IC_ox Demo.legacy) (lf_IC_oy Demo.legacy)
           (convert_old_dictionary "d" Demo.legacy_world).2);
    vm_compute; reflexivity.
Defined.

Lemma np_fromfile_missing d p w :
  files w !! p = None -> np_fromfile d p w = (Raise (FileNotFoundError p), w).
Proof. unfold np_fromfile. intros ->. reflexivity. Qed.

(** X2: the migration is not atomic.  On a folder whose three intracellular
    voxel files are in place but whose first extracellular voxel file is
    missing, [convert_old_dictionary] raises [FileNotFoundError] for that
    file after the intracellular block is done: the merged file is written
    and the three split files are removed.  A second call then finds no
    old format and refuses the folder, so the call cannot be resumed. *)
Theorem migration_stops_halfway path w img Nx Ny Nz bx by_ bz :
  files w !! Path.join path "dictionary_tdi.nii.gz" = Some (FImage img) ->
  take 3 (nii_shape img) = [Nx; Ny; Nz] ->
  0 <= Nx < 2 ^ 32 -> 0 <= Ny < 2 ^ 32 ->
  files w !! Path.join path "dictionary_IC_vx.dict" = Some (FRaw bx) ->
  files w !! Path.join path "dictionary_IC_vy.dict" = Some (FRaw by_) ->
  files w !! Path.join path "dictionary_IC_vz.dict" = Some (FRaw bz) ->
  same_items Np.uint16 bx by_ -> same_items Np.uint16 by_ bz ->
  files w !! Path.join path "dictionary_EC_vx.dict" = None ->
  Path.join path "dictionary_IC_vx.dict" ∉ dirs w ->
  exists w',
    convert_old_dictionary path w
    = (Raise (FileNotFoundError (Path.join path "dictionary_EC_vx.dict")), w') /\
    files w' !! Path.join path "dictionary_IC_v.dict"
    = Some (merged_voxels Np.uint16 Nx Ny bx by_ bz) /\
    files w' !! Path.join path "dictionary_IC_vx.dict" = None /\
    files w' !! Path.join path "dictionary_IC_vy.dict" = None /\
    files w' !! Path.join path "dictionary_IC_vz.dict" = None /\
    convert_old_dictionary path w' = (Raise old_format_missing, w').
Proof.
  intros Ht Hshape HNx HNy Hx Hy Hz Sxy Syz Hec Hd.
  eexists. split.
  - unfold convert_old_dictionary.
    erewrite bind_ok.
    2:{ unfold path_exists. rewrite Hx. reflexivity. }
    rewrite bool_decide_eq_true_2 by eauto. cbn [negb orb].
    erewrite bind_ok by (apply nib_load_image; exact Ht).
    rewrite Hshape.
    erewrite bind_ok.
    2:{ eapply merge_voxel_files_ok; try names_differ; try find_file.
        apply voxel_array_items; assumption. }
    apply bind_raise. unfold merge_voxel_files. apply bind_raise.
    apply np_fromfile_missing. cbn [files]. clear_lookup. exact Hec.
  - cbn [files dirs].
    split; [unfold merged_voxels; clear_lookup; apply lookup_insert_eq|].
    split; [clear_lookup|]. split; [clear_lookup|]. split; [clear_lookup|].
    apply convert_old_dictionary_missing; cbn [files dirs]; [clear_lookup | exact Hd].
Qed.

Lemma migration_stops_halfway_witness :
  exists w',
    convert_old_dictionary "d"
      (Demo.without_file "d/dictionary_EC_vx.dict" Demo.legacy_world)
    = (Raise (FileNotFoundError "d/dictionary_EC_vx.dict"), w') /\
    files w' !! "d/dictionary_IC_v.dict"
    = Some (FRaw (Arr.to_bytes Np.uint32 [5; 6])) /\
    files w' !! "d/dictionary_IC_vx.dict" = None /\
    convert_old_dictionary "d" w' = (Raise old_format_missing, w').
Proof.
  destruct (migration_stops_halfway "d"
              (Demo.without_file "d/dictionary_EC_vx.dict" Demo.legacy_world)
              (lf_tdi Demo.legacy) 2 2 2
              (lf_IC_vx Demo.legacy) (lf_IC_vy Demo.legacy) (lf_IC_vz Demo.legacy)
              ltac:(vm_compute; reflexivity) eq_refl ltac:(lia) ltac:(lia)
              ltac:(vm_compute; reflexivity) ltac:(vm_compute; reflexivity)
              ltac:(vm_compute; reflexivity) eq_refl eq_refl
              ltac:(vm_compute; reflexivity) ltac:(apply not_elem_of_empty))
    as (w' & Hrun & Hv & Hx & _ & _ & Hagain).
  exists w'. split; [exact Hrun|]. split; [exact Hv|]. split; [exact Hx | exact Hagain].
Defined.

(** X3: the migration needs the track-density image of the folder.  With
    the first split file in place, a missing [dictionary_tdi.nii.gz] makes
    [convert_old_dictionary] raise [FileNotFoundError] on a world left as
    it was, and an image of fewer than three extents makes the unpacking of
    line 425 raise [ValueError] once the image is read; either way no file
    of the folder is written or removed. *)
Theorem migration_needs_tdi path w :
  is_Some (files w !! Path.join path "dictionary_IC_vx.dict") ->
  (files w !! Path.join path "dictionary_tdi.nii.gz" = None ->
   convert_old_dictionary path w
   = (Raise (FileNotFoundError (Path.join path "dictionary_tdi.nii.gz")), w)) /\
  (forall img,
     files w !! Path.join path "dictionary_tdi.nii.gz" = Some (FImage img) ->
     (length (nii_shape img) < 3)%nat ->
     convert_old_dictionary path w
     = (Raise ValueError, emit (ERead (Path.join path "dictionary_tdi.nii.gz")) w)).
Proof.
  intros Hx.
  assert (Hgo : forall k : bool -> M unit,
            bind (path_exists (Path.join path "dictionary_IC_vx.dict")) k w = k true w).
  { intros k. erewrite bind_ok; [reflexivity|].
    unfold path_exists. by rewrite bool_decide_eq_true_2. }
  unfold convert_old_dictionary. rewrite Hgo. cbn [negb]. split.
  - intros Ht. apply bind_raise. unfold nib_load. rewrite Ht. reflexivity.
  - intros img Ht Hlen. erewrite bind_ok by (apply nib_load_image; exact Ht).
    destruct (nii_shape img) as [|s0 [|s1 [|s2 rest]]]; try reflexivity.
    simpl in Hlen. lia.
Qed.

Lemma migration_needs_tdi_witness :
  convert_old_dictionary "d"
    (Demo.without_file "d/dictionary_tdi.nii.gz" Demo.legacy_world)
  = (Raise (FileNotFoundError "d/dictionary_tdi.nii.gz"),
     Demo.without_file "d/dictionary_tdi.nii.gz" Demo.legacy_world).
Proof.
  refine (proj1 (migration_needs_tdi "d"
                   (Demo.without_file "d/dictionary_tdi.nii.gz" Demo.legacy_world) _) _).
  - vm_compute. eauto.
  - vm_compute. reflexivity.
Defined.

Lemma add_mismatch d (a b : list Z) :
  length a <> length b -> length a <> 1%nat -> length b <> 1%nat ->
  Arr.add d a b = Raise ValueError.
Proof.
  intros Hab Ha Hb. unfold Arr.add. rewrite decide_False by assumption.
  destruct a as [|x [|x' a]]; destruct b as [|y [|y' b]]; simpl in *;
    first [reflexivity | contradiction | lia].
Qed.

(** X4: split files of different lengths are refused before anything is
    written.  When the [y] and [z] files of the intracellular block hold
    different numbers of items, neither of them a single item (which numpy
    would broadcast), [convert_old_dictionary] raises [ValueError] having
    only read: every file and directory is as before. *)
Theorem migration_refuses_length_mismatch path w img Nx Ny Nz bx by_ bz :
  files w !! Path.join path "dictionary_tdi.nii.gz" = Some (FImage img) ->
  take 3 (nii_shape img) = [Nx; Ny; Nz] ->
  0 <= Ny < 2 ^ 32 ->
  files w !! Path.join path "dictionary_IC_vx.dict" = Some (FRaw bx) ->
  files w !! Path.join path "dictionary_IC_vy.dict" = Some (FRaw by_) ->
  files w !! Path.join path "dictionary_IC_vz.dict" = Some (FRaw bz) ->
  length (Arr.of_bytes Np.uint16 by_) <> length (Arr.of_bytes Np.uint16 bz) ->
  length (Arr.of_bytes Np.uint16 by_) <> 1%nat ->
  length (Arr.of_bytes Np.uint16 bz) <> 1%nat ->
  exists w',
    convert_old_dictionary path w = (Raise ValueError, w') /\ only_read w w'.
Proof.
  intros Ht Hshape HNy Hx Hy Hz Hyz Hy1 Hz1. eexists. split.
  - unfold convert_old_dictionary.
    erewrite bind_ok.
    2:{ unfold path_exists. rewrite Hx. reflexivity. }
    rewrite bool_decide_eq_true_2 by eauto. cbn [negb orb].
    erewrite bind_ok by (apply nib_load_image; exact Ht).
    rewrite Hshape. apply bind_raise. unfold merge_voxel_files.
    erewrite bind_ok by (apply np_fromfile_raw; exact Hx).
    erewrite bind_ok by (apply np_fromfile_raw; cbn [files emit]; exact Hy).
    erewrite bind_ok by (apply np_fromfile_raw; cbn [files emit]; exact Hz).
    apply bind_raise. unfold lift, voxel_array, Arr.scale.
    change (Np.modulus Np.uint32) with (2 ^ 32).
    rewrite (decide_True (P := 0 <= Ny < 2 ^ 32)) by assumption. cbn [rbind].
    rewrite add_mismatch by (rewrite ?length_map; assumption). reflexivity.
  - eexists. split.
    + unfold emit. cbn [files dirs log]. rewrite <- !app_assoc. reflexivity.
    + reflexivity.
Qed.

Lemma migration_refuses_length_mismatch_witness :
  exists w',
    convert_old_dictionary "d"
      (Demo.with_file "d/dictionary_IC_vz.dict" (FRaw []) Demo.legacy_world)
    = (Raise ValueError, w') /\
    only_read (Demo.with_file "d/dictionary_IC_vz.dict" (FRaw []) Demo.legacy_world) w'.
Proof.
  apply (migration_refuses_length_mismatch "d"
           (Demo.with_file "d/dictionary_IC_vz.dict" (FRaw []) Demo.legacy_world)
           (lf_tdi Demo.legacy) 2 2 2
           (lf_IC_vx Demo.legacy) (lf_IC_vy Demo.legacy) []
           ltac:(vm_compute; reflexivity) eq_refl ltac:(lia)
           ltac:(vm_compute; reflexivity) ltac:(vm_compute; reflexivity)
           ltac:(vm_compute; reflexivity)
           ltac:(vm_compute; discriminate) ltac:(vm_compute; discriminate)
           ltac:(vm_compute; discriminate)).
Defined.

(** X5: the merged orientation index of line 446, [oy + 181*ox], identifies
    the pair of legacy indices as long as both are below 181: it then lies
    below 181*181 = 32761, the default [ndirs], and two pairs with one
    index are the same pair.  A second index of 181 or more, which a legacy
    byte can hold, collides with a pair of the next row. *)
Theorem orientation_index_injective ox oy ox' oy' :
  0 <= ox < 181 -> 0 <= oy < 181 -> 0 <= ox' < 181 -> 0 <= oy' < 181 ->
  0 <= orientation_index ox oy < ndirs default_args /\
  (orientation_index ox oy = orientation_index ox' oy' -> ox = ox' /\ oy = oy') /\
  orientation_index 0 181 = orientation_index 1 0.
Proof.
  intros Hx Hy Hx' Hy'.
  rewrite !orientation_index_exact by lia. cbn [ndirs default_args].
  split; [lia|]. split; [lia | reflexivity].
Qed.

Lemma orientation_index_injective_witness :
  0 <= orientation_index 180 180 < 32761 /\
  (orientation_index 180 180 = orientation_index 3 4 -> 180 = 3 /\ 180 = 4).
Proof.
  destruct (orientation_index_injective 180 180 3 4) as (Hr & Hi & _); try lia.
  split; [exact Hr | exact Hi].
Defined.

(** ** What the migration may touch *)

Lemma touches_only_bind {A B} names (m : M A) (k : A -> M B) :
  touches_only names m -> (forall a, touches_only names (k a)) ->
  touches_only names (bind m k).
Proof.
  intros Hm Hk w. unfold bind. specialize (Hm w).
  destruct (m w) as [[a|e] w1]; cbn [snd] in *; [|exact Hm].
  specialize (Hk a w1). destruct Hm as [Hd Hf], Hk as [Hd' Hf'].
  split; [congruence|]. intros p Hp. rewrite Hf', Hf by assumption. reflexivity.
Qed.

Lemma touches_only_unchanged {A} names (m : M A) :
  (forall w, files (m w).2 = files w /\ dirs (m w).2 = dirs w) -> touches_only names m.
Proof. intros H w. destruct (H w) as [-> ->]. auto. Qed.

Lemma touches_only_np_fromfile names d p : touches_only names (np_fromfile d p).
Proof.
  apply touches_only_unchanged. intros w. unfold np_fromfile.
  destruct (files w !! p) as [[]|]; auto.
Qed.

Lemma touches_only_nib_load names p : touches_only names (nib_load p).
Proof.
  apply touches_only_unchanged. intros w. unfold nib_load.
  destruct (files w !! p) as [[]|]; auto.
Qed.

Lemma touches_only_lift {A} names (r : result A) : touches_only names (lift r).
Proof. by apply touches_only_unchanged. Qed.

Lemma touches_only_raise {A} names e : touches_only names (@raise A e).
Proof. by apply touches_only_unchanged. Qed.

Lemma touches_only_path_exists names p : touches_only names (path_exists p).
Proof. by apply touches_only_unchanged. Qed.

Lemma touches_only_write_file names p f : p ∈ names -> touches_only names (write_file p f).
Proof.
  intros Hp w. split; [reflexivity|]. intros q Hq. cbn [write_file snd files emit set_files].
  apply lookup_insert_ne. intros ->. contradiction.
Qed.

Lemma touches_only_os_remove names p : p ∈ names -> touches_only names (os_remove p).
Proof.
  intros Hp w. unfold os_remove. destruct (files w !! p); [|auto].
  split; [reflexivity|]. intros q Hq. cbn [snd files emit set_files].
  apply lookup_delete_ne. intros ->. contradiction.
Qed.

Lemma touches_only_merge_voxel_files names path d fx fy fz fv Nx Ny :
  Path.join path fx ∈ names -> Path.join path fy ∈ names -> Path.join path fz ∈ names ->
  Path.join path fv ∈ names ->
  touches_only names (merge_voxel_files path d fx fy fz fv Nx Ny).
Proof.
  intros Hx Hy Hz Hv. unfold merge_voxel_files, np_tofile.
  repeat (apply touches_only_bind; [|intros ?]);
    auto using touches_only_np_fromfile, touches_only_lift, touches_only_write_file,
      touches_only_os_remove.
Qed.

Lemma touches_only_merge_orientation_files names path fx fy fo :
  Path.join path fx ∈ names -> Path.join path fy ∈ names -> Path.join path fo ∈ names ->
  touches_only names (merge_orientation_files path fx fy fo).
Proof.
  intros Hx Hy Ho. unfold merge_orientation_files, np_tofile.
  repeat (apply touches_only_bind; [|intros ?]);
    auto using touches_only_np_fromfile, touches_only_lift, touches_only_write_file,
      touches_only_os_remove.
Qed.

(** X6: whatever is in the folder and whatever the outcome, success or
    any of its errors, [convert_old_dictionary] creates no directory and
    leaves every file other than the ten split files and the four merged
    files as it was: the track-density image, the segment lengths and the
    other files of the dictionary are never written or removed. *)
Theorem convert_old_dictionary_touches_only path :
  touches_only (legacy_names path ++ merged_names path) (convert_old_dictionary path).
Proof.
  unfold convert_old_dictionary.
  apply touches_only_bind; [apply touches_only_path_exists|]. intros found.
  destruct (negb found); [apply touches_only_raise|].
  apply touches_only_bind; [apply touches_only_nib_load|]. intros img.
  destruct (take 3 (nii_shape img)) as [|Nx [|Ny [|Nz [|? ?]]]];
    try apply touches_only_raise.
  unfold legacy_names, merged_names.
  apply touches_only_bind; [apply touches_only_merge_voxel_files; set_solver|]. intros _.
  apply touches_only_bind; [apply touches_only_merge_voxel_files; set_solver|]. intros _.
  apply touches_only_bind; [apply touches_only_merge_orientation_files; set_solver|].
  intros _. apply touches_only_merge_orientation_files; set_solver.
Qed.

(** ** The settings of [run]: what is refused, and when *)

Lemma only_printed_refl w : only_printed w w.
Proof. exists []. destruct w; simpl. by rewrite app_nil_r. Qed.

Lemma only_printed_trans w1 w2 w3 :
  only_printed w1 w2 -> only_printed w2 w3 -> only_printed w1 w3.
Proof.
  intros [m1 ->] [m2 ->]. exists (m1 ++ m2). cbn [files dirs log].
  by rewrite map_app, app_assoc.
Qed.

Lemma only_printed_emit msg w : only_printed w (emit (EPrint msg) w).
Proof. by exists [msg]. Qed.

Ltac only_printed_steps :=
  repeat first [ apply only_printed_refl
               | eapply only_printed_trans; [|apply only_printed_emit] ].

Lemma nothing_read_of_printed w w' : only_printed w w' -> nothing_read w w'.
Proof.
  intros [msgs ->]. eexists. split; [reflexivity|].
  induction msgs as [|m msgs IH]; [reflexivity | exact IH].
Qed.

Lemma nothing_read_trans w1 w2 w3 :
  nothing_read w1 w2 -> nothing_read w2 w3 -> nothing_read w1 w3.
Proof.
  intros (e1 & -> & H1) (e2 & -> & H2). exists (e1 ++ e2). cbn [files dirs log].
  rewrite app_assoc, forallb_app, H1, H2. auto.
Qed.

Lemma nothing_read_emit e w : reads_no_file e = true -> nothing_read w (emit e w).
Proof. intros H. exists [e]. simpl. by rewrite H. Qed.

Lemma nothing_read_only_read w w' : nothing_read w w' -> only_read w w'.
Proof.
  intros (evs & -> & H). exists evs. split; [reflexivity|].
  induction evs as [|e evs IH]; [reflexivity|].
  cbn [forallb] in *. apply andb_true_iff in H as [He H]. rewrite (IH H).
  by destruct e.
Qed.

Lemma print_settings_prints w :
  exists w', print_settings w = (Ok tt, w') /\ only_printed w w'.
Proof.
  eexists. split; [unfold print_settings, bind, print, tell; reflexivity|].
  only_printed_steps.
Qed.

Lemma print_blur_prints b w :
  exists w', print_blur b w = (Ok tt, w') /\ only_printed w w'.
Proof.
  unfold print_blur. destruct (nBlurRadii b =? 1).
  - eexists. split; [reflexivity|]. apply only_printed_emit.
  - eexists. split; [unfold bind, print, tell; reflexivity|]. only_printed_steps.
Qed.

Lemma run_front_raises_run E a w e w' :
  run_front E a w = (Raise e, w') -> run E a w = (Raise e, w').
Proof. intros H. unfold run. by apply bind_raise. Qed.

(** X7: a [fiber_shift] sequence that does not have three items is refused
    with a [RuntimeError] right after the [ndirs] check: nothing is printed,
    read or written. *)
Theorem run_rejects_fiber_shift E a p l w :
  path_out a = Some p -> ndirs a ∈ supported_ndirs ->
  fiber_shift a = ShiftSeq l -> length l <> 3%nat ->
  run E a w
  = (Raise (RuntimeError "fiber_shift must be a scalar or a vector with 3 elements"), w).
Proof.
  intros Hp Hn Hs Hl. apply run_front_raises_run. unfold run_front. rewrite Hp.
  erewrite bind_ok by (by apply check_ndirs_accepts).
  unfold settings_and_inputs. apply bind_raise. unfold lift. rewrite Hs.
  destruct l as [|x [|y [|z [|t l]]]]; try reflexivity. contradiction.
Qed.

Lemma run_rejects_fiber_shift_witness :
  run (Demo.environment Demo.native_keeps_two)
      (Demo.custom (Some "in/fibers.trk") None (ShiftSeq [0; 0]%float)
                   [false; false; false] 1e-3%float true [] [])
      Demo.world0
  = (Raise (RuntimeError "fiber_shift must be a scalar or a vector with 3 elements"),
     Demo.world0).
Proof.
  apply run_rejects_fiber_shift with (p := "out") (l := [0; 0]%float).
  - reflexivity.
  - apply (bool_decide_eq_true_1 _). reflexivity.
  - reflexivity.
  - discriminate.
Defined.

(** X8: blur radii and blur samples of different lengths are refused with a
    [RuntimeError] once the settings are printed: no file is read, nothing
    is written, the hash table is not loaded. *)
Theorem run_rejects_blur_mismatch E a p s w :
  path_out a = Some p -> ndirs a ∈ supported_ndirs ->
  resolve_fiber_shift (fiber_shift a) = Ok s ->
  length (blur_radii a) <> length (blur_samples a) ->
  exists w',
    run E a w = (Raise (RuntimeError "number of radii and samples must match"), w') /\
    only_printed w w'.
Proof.
  intros Hp Hn Hs Hl. destruct (print_settings_prints w) as (w1 & H1 & P1).
  exists w1. split; [|exact P1].
  apply run_front_raises_run. unfold run_front. rewrite Hp.
  erewrite bind_ok by (by apply check_ndirs_accepts).
  unfold settings_and_inputs.
  erewrite bind_ok by (unfold lift; rewrite Hs; reflexivity).
  erewrite bind_ok by exact H1.
  apply bind_raise. unfold lift, blur_params. by rewrite decide_False.
Qed.

Lemma run_rejects_blur_mismatch_witness :
  exists w',
    run (Demo.environment Demo.native_keeps_two)
        (Demo.custom (Some "in/fibers.trk") None (ShiftScalar 0%float)
                     [false; false; false] 1e-3%float true [0.5%float] [])
        Demo.world0
    = (Raise (RuntimeError "number of radii and samples must match"), w') /\
    only_printed Demo.world0 w'.
Proof.
  apply run_rejects_blur_mismatch with (p := "out") (s := (0, 0, 0)%float).
  - reflexivity.
  - apply (bool_decide_eq_true_1 _). reflexivity.
  - reflexivity.
  - discriminate.
Defined.

(** X9: a negative [min_seg_len] is refused with a [RuntimeError] once the
    settings and the blur parameters are printed: no file is read, nothing
    is written, the hash table is not loaded. *)
Theorem run_rejects_negative_min_seg_len E a p s b w :
  path_out a = Some p -> ndirs a ∈ supported_ndirs ->
  resolve_fiber_shift (fiber_shift a) = Ok s ->
  blur_params E (blur_radii a) (blur_samples a) (blur_sigma a) = Ok b ->
  (min_seg_len a <? 0)%float = true ->
  exists w',
    run E a w = (Raise (RuntimeError "min_seg_len must be >= 0"), w') /\
    only_printed w w'.
Proof.
  intros Hp Hn Hs Hb Hm. destruct (print_settings_prints w) as (w1 & H1 & P1).
  destruct (print_blur_prints b w1) as (w2 & H2 & P2).
  exists w2. split; [|by eapply only_printed_trans].
  apply run_front_raises_run. unfold run_front. rewrite Hp.
  erewrite bind_ok by (by apply check_ndirs_accepts).
  unfold settings_and_inputs.
  erewrite bind_ok by (unfold lift; rewrite Hs; reflexivity).
  erewrite bind_ok by exact H1.
  erewrite bind_ok by (unfold lift; rewrite Hb; reflexivity).
  erewrite bind_ok by exact H2.
  rewrite Hm. by apply bind_raise.
Qed.

Lemma run_rejects_negative_min_seg_len_witness :
  exists w',
    run (Demo.environment Demo.native_keeps_two)
        (Demo.custom (Some "in/fibers.trk") None (ShiftScalar 0%float)
                     [false; false; false] (-1)%float true [] [])
        Demo.world0
    = (Raise (RuntimeError "min_seg_len must be >= 0"), w') /\
    only_printed Demo.world0 w'.
Proof.
  set (E := Demo.environment Demo.native_keeps_two).
  set (a := Demo.custom (Some "in/fibers.trk") None (ShiftScalar 0%float)
                        [false; false; false] (-1)%float true [] []).
  let r := eval vm_compute in (blur_params E (blur_radii a) (blur_samples a) (blur_sigma a)) in
  lazymatch r with
  | Ok ?b =>
      assert (Hb : blur_params E (blur_radii a) (blur_samples a) (blur_sigma a) = Ok b)
        by (vm_compute; reflexivity);
      apply (run_rejects_negative_min_seg_len E a "out" (0, 0, 0)%float b Demo.world0
               eq_refl ltac:(apply (bool_decide_eq_true_1 _); reflexivity) eq_refl Hb eq_refl)
  end.
Defined.

(** ** The tractogram of [run]: its name, its extension, its header *)

Lemma run_front_reaches_tractogram E a p w :
  path_out a = Some p -> settings_pass E a ->
  exists w1,
    nothing_read w w1 /\
    forall e w',
      bind (choose_tractogram a) (fun f =>
      bind (open_tractogram f) (fun o =>
      bind (read_geometry E a o.1 o.2) (fun _ => ret tt))) w1 = (Raise e, w') ->
      run_front E a w = (Raise e, w').
Proof.
  intros Hp (Hn & [s Hs] & [b Hb] & Hm & [ht Hh]).
  destruct (print_settings_prints w) as (w1 & H1 & P1).
  destruct (print_blur_prints b w1) as (w2 & H2 & P2).
  exists (emit (EPrint "* tractogram")
            (emit (EHashTable (ndirs a)) (emit (EPrint "* Loading data:") w2))).
  split.
  - eapply nothing_read_trans; [|by apply nothing_read_emit].
    eapply nothing_read_trans; [|by apply nothing_read_emit].
    eapply nothing_read_trans; [|by apply nothing_read_emit].
    apply nothing_read_of_printed. by eapply only_printed_trans.
  - intros e w' H. unfold run_front. rewrite Hp.
    erewrite bind_ok by (by apply check_ndirs_accepts).
    unfold settings_and_inputs.
    erewrite bind_ok by (unfold lift; rewrite Hs; reflexivity).
    erewrite bind_ok by exact H1.
    erewrite bind_ok by (unfold lift; rewrite Hb; reflexivity).
    erewrite bind_ok by exact H2.
    rewrite Hm. erewrite bind_ok by reflexivity.
    erewrite bind_ok by reflexivity.
    erewrite bind_ok by (unfold load_hash_table, bind, tell, lift; rewrite Hh; reflexivity).
    erewrite bind_ok by reflexivity.
    revert H. unfold bind.
    destruct (choose_tractogram a _) as [[f|e1] w3]; [|intros [= -> ->]; reflexivity].
    destruct (open_tractogram f w3) as [[o|e2] w4]; [|intros [= -> ->]; reflexivity].
    destruct (read_geometry E a o.1 o.2 w4) as [[g|e3] w5]; [|intros [= -> ->]; reflexivity].
    discriminate.
Qed.

Lemma choose_tractogram_chosen a p f w :
  path_out a = Some p -> chosen_tractogram a = Some f ->
  exists w', choose_tractogram a w = (Ok f, w') /\ only_printed w w'.
Proof.
  unfold chosen_tractogram, choose_tractogram. intros -> H.
  destruct (filename_tractogram a) as [g|], (filename_trk a) as [t|]; simplify_eq;
    eexists; (split; [reflexivity|]);
    first [apply only_printed_refl | apply only_printed_emit].
Qed.

Ltac demo_settings_pass :=
  split; [apply (bool_decide_eq_true_1 _); reflexivity|];
  split; [eexists; reflexivity|];
  split; [eexists; vm_compute; reflexivity|];
  split; [reflexivity|eexists; reflexivity].

(** X10: with an output path and accepted settings but neither
    [filename_tractogram] nor the deprecated [filename_trk], [run] raises
    "Tractogram file not defined" once the hash table is loaded; no file
    has been read and nothing is written. *)
Theorem run_needs_tractogram_name E a p w :
  path_out a = Some p -> settings_pass E a ->
  filename_tractogram a = None -> filename_trk a = None ->
  exists w',
    run E a w = (Raise (RuntimeError "Tractogram file not defined"), w') /\
    nothing_read w w'.
Proof.
  intros Hp Hs Hf Ht.
  destruct (run_front_reaches_tractogram E a p w Hp Hs) as (w1 & Hr & Hgo).
  exists w1. split; [|exact Hr]. apply run_front_raises_run, Hgo.
  apply bind_raise. unfold choose_tractogram. by rewrite Hp, Hf, Ht.
Qed.

Lemma run_needs_tractogram_name_witness :
  exists w',
    run (Demo.environment Demo.native_keeps_two)
        (Demo.custom None None (ShiftScalar 0%float) [false; false; false]
                     1e-3%float true [] [])
        Demo.world0
    = (Raise (RuntimeError "Tractogram file not defined"), w') /\
    nothing_read Demo.world0 w'.
Proof.
  apply run_needs_tractogram_name with (p := "out");
    [reflexivity | demo_settings_pass | reflexivity | reflexivity].
Defined.

(** X11: a tractogram whose name ends in neither [.trk] nor [.tck] is
    refused with an [IOError] on its name alone: whether or not such a file
    exists, no file has been read and nothing is written. *)
Theorem run_rejects_extension E a p f w :
  path_out a = Some p -> settings_pass E a -> chosen_tractogram a = Some f ->
  Path.extension f <> ".trk" -> Path.extension f <> ".tck" ->
  exists w',
    run E a w
    = (Raise (IOError "Invalid input file. Please enter tractogram file .trk or .tck"), w') /\
    nothing_read w w'.
Proof.
  intros Hp Hs Hf Htrk Htck.
  destruct (run_front_reaches_tractogram E a p w Hp Hs) as (w1 & Hr & Hgo).
  destruct (choose_tractogram_chosen a p f w1 Hp Hf) as (w2 & Hc & Pc).
  exists w2. split.
  - apply run_front_raises_run, Hgo. erewrite bind_ok by exact Hc.
    apply bind_raise. unfold open_tractogram.
    apply String.eqb_neq in Htrk, Htck. by rewrite Htrk, Htck.
  - eapply nothing_read_trans; [exact Hr|]. by apply nothing_read_of_printed.
Qed.

Lemma run_rejects_extension_witness :
  exists w',
    run (Demo.environment Demo.native_keeps_two)
        (Demo.custom (Some "in/fibers.TRK") None (ShiftScalar 0%float)
                     [false; false; false] 1e-3%float true [] [])
        Demo.world0
    = (Raise (IOError "Invalid input file. Please enter tractogram file .trk or .tck"), w') /\
    nothing_read Demo.world0 w'.
Proof.
  apply run_rejects_extension with (p := "out") (f := "in/fibers.TRK");
    [reflexivity | demo_settings_pass | reflexivity
    | vm_compute; discriminate | vm_compute; discriminate].
Defined.

(** X12: a tractogram name with an accepted extension that names no file,
    or a file that is not a streamline file, makes [run] raise the
    [IOError] "Tractogram file not found" (the loader's own error is
    replaced).  Nothing is written: [run] has only printed and read, and
    when the name names no file, no file has been read at all (a file that
    is there is opened by the loader before it is refused). *)
Theorem run_tractogram_not_found E a p f w :
  path_out a = Some p -> settings_pass E a -> chosen_tractogram a = Some f ->
  Path.extension f = ".trk" \/ Path.extension f = ".tck" ->
  (forall t, files w !! f <> Some (FTract t)) ->
  exists w',
    run E a w = (Raise (IOError "Tractogram file not found"), w') /\
    only_read w w' /\
    (files w !! f = None -> nothing_read w w').
Proof.
  intros Hp Hs Hf Hext Hno.
  destruct (run_front_reaches_tractogram E a p w Hp Hs) as (w1 & Hr & Hgo).
  destruct (choose_tractogram_chosen a p f w1 Hp Hf) as (w2 & Hc & Pc).
  assert (Hr2 : nothing_read w w2).
  { eapply nothing_read_trans; [exact Hr|]. by apply nothing_read_of_printed. }
  assert (Hfiles : files w2 !! f = files w !! f).
  { destruct Hr2 as (evs & -> & _). reflexivity. }
  assert (Hload : exists w',
            replacing_errors (streamlines_load f) (IOError "Tractogram file not found") w2
            = (Raise (IOError "Tractogram file not found"), w') /\
            only_read w2 w' /\ (files w !! f = None -> w' = w2)).
  { unfold replacing_errors, streamlines_load. rewrite Hfiles.
    destruct (files w !! f) as [[| |t|]|] eqn:Hfile;
      try (eexists; split; [reflexivity|]; split;
           [by apply only_read_emit | discriminate]).
    - by destruct (Hno t).
    - eexists. split; [reflexivity|]. split; [apply only_read_refl | reflexivity]. }
  destruct Hload as (w' & Hload & Hread & Hnone).
  exists w'. split; [|split].
  - apply run_front_raises_run, Hgo. erewrite bind_ok by exact Hc.
    apply bind_raise. unfold open_tractogram.
    assert (Hb : negb (String.eqb (Path.extension f) ".trk")
                 && negb (String.eqb (Path.extension f) ".tck") = false).
    { destruct Hext as [-> | ->]; reflexivity. }
    rewrite Hb. by apply bind_raise.
  - eapply only_read_trans; [by apply nothing_read_only_read | exact Hread].
  - intros Hn. by rewrite (Hnone Hn).
Qed.

Lemma run_tractogram_not_found_witness :
  exists w',
    run (Demo.environment Demo.native_keeps_two)
        (Demo.custom (Some "in/wide.trk") None (ShiftScalar 0%float)
                     [false; false; false] 1e-3%float true [] [])
        Demo.world0
    = (Raise (IOError "Tractogram file not found"), w') /\
    nothing_read Demo.world0 w'.
Proof.
  destruct (run_tractogram_not_found (Demo.environment Demo.native_keeps_two)
              (Demo.custom (Some "in/wide.trk") None (ShiftScalar 0%float)
                           [false; false; false] 1e-3%float true [] [])
              "out" "in/wide.trk" Demo.world0)
    as (w' & Hrun & _ & Hnone);
    [reflexivity | demo_settings_pass | reflexivity | left; vm_compute; reflexivity
    | intros t; vm_compute; discriminate |].
  exists w'. split; [exact Hrun|]. apply Hnone. vm_compute. reflexivity.
Defined.

(** X13: a [.tck] tractogram carries no geometry: with no [TCK_ref_image],
    no peaks and no mask to take it from, [run] raises a [RuntimeError]
    after reading the header of the tractogram; nothing is written. *)
Theorem run_tck_needs_reference E a p f t w :
  path_out a = Some p -> settings_pass E a -> chosen_tractogram a = Some f ->
  Path.extension f = ".tck" -> files w !! f = Some (FTract t) ->
  TCK_ref_image a = None -> filename_peaks a = None -> filename_mask a = None ->
  exists w',
    run E a w
    = (Raise (RuntimeError
         "TCK files do not contain information about the geometry. Use TCK_ref_image for that."),
       w') /\
    only_read w w'.
Proof.
  intros Hp Hs Hf Hext Hfile Href Hpk Hmask.
  destruct (run_front_reaches_tractogram E a p w Hp Hs) as (w1 & Hr & Hgo).
  destruct (choose_tractogram_chosen a p f w1 Hp Hf) as (w2 & Hc & Pc).
  assert (Hr2 : nothing_read w w2).
  { eapply nothing_read_trans; [exact Hr|]. by apply nothing_read_of_printed. }
  exists (emit (ERead f) w2). split.
  - apply run_front_raises_run, Hgo. erewrite bind_ok by exact Hc.
    erewrite bind_ok.
    2:{ unfold open_tractogram. rewrite Hext. cbn [String.eqb Ascii.eqb Bool.eqb negb andb].
        erewrite bind_ok; [reflexivity|].
        unfold replacing_errors, streamlines_load.
        destruct Hr2 as (evs & -> & _). cbn [files]. rewrite Hfile. reflexivity. }
    cbn [fst snd]. apply bind_raise. unfold read_geometry. apply bind_raise.
    change (String.eqb ".tck" ".trk") with false. cbv iota.
    apply bind_raise. unfold tck_geometry. apply bind_raise.
    unfold lift, reference_image. by rewrite Href, Hpk, Hmask.
  - eapply only_read_trans; [by apply nothing_read_only_read|].
    by apply only_read_emit.
Qed.

Lemma run_tck_needs_reference_witness :
  exists w',
    run (Demo.environment Demo.native_keeps_two)
        (Demo.custom (Some "in/fibers.tck") None (ShiftScalar 0%float)
                     [false; false; false] 1e-3%float true [] [])
        Demo.world0
    = (Raise (RuntimeError
         "TCK files do not contain information about the geometry. Use TCK_ref_image for that."),
       w') /\
    only_read Demo.world0 w'.
Proof.
  apply run_tck_needs_reference with (p := "out") (f := "in/fibers.tck")
                                     (t := Demo.tck_fibers);
    [reflexivity | demo_settings_pass | reflexivity | vm_compute; reflexivity
    | vm_compute; reflexivity | reflexivity | reflexivity | reflexivity].
Defined.

(** ** What the checks of [run] establish *)

Lemma lift_ok_inv {A} (r : result A) w x w' : lift r w = (Ok x, w') -> r = Ok x /\ w' = w.
Proof. unfold lift. intros [= -> ->]. auto. Qed.

Lemma choose_tractogram_inv a w f w' :
  choose_tractogram a w = (Ok f, w') -> chosen_tractogram a = Some f.
Proof.
  unfold choose_tractogram, chosen_tractogram.
  destruct (path_out a); [|discriminate].
  destruct (filename_trk a), (filename_tractogram a); unfold bind, print, tell, ret, raise;
    intros [= <- _]; reflexivity.
Qed.

Lemma open_tractogram_inv f w o w' :
  open_tractogram f w = (Ok o, w') ->
  o.1 = Path.extension f /\ (o.1 = ".trk" \/ o.1 = ".tck") /\
  exists t, files w !! f = Some (FTract t) /\ o.2 = trk_header t.
Proof.
  unfold open_tractogram.
  destruct (String.eqb (Path.extension f) ".trk") eqn:Htrk;
    [|destruct (String.eqb (Path.extension f) ".tck") eqn:Htck]; cbn [negb andb];
    try discriminate;
    (intros H; apply bind_ok_inv in H as (t & w1 & Hl & [= <- <-]));
    (split; [reflexivity|]);
    (split; [cbn [fst]; first [left; by apply String.eqb_eq | right; by apply String.eqb_eq]|]);
    exists t; (split; [|reflexivity]);
    revert Hl; unfold replacing_errors, streamlines_load;
    destruct (files w !! f) as [[| |t'|]|]; try discriminate; by intros [= -> _].
Qed.

Lemma trk_geometry_inv hdr g :
  trk_geometry hdr = Ok g -> g_data_offset g = 1000.
Proof.
  unfold trk_geometry, rbind. intros H.
  repeat case_match; try discriminate. by injection H as <-.
Qed.

Lemma tck_geometry_inv E a hdr w p w' :
  tck_geometry E a hdr w = (Ok p, w') ->
  g_n_scalars p.1 = 0 /\ g_n_properties p.1 = 0.
Proof.
  unfold tck_geometry. intros H.
  repeat (apply bind_ok_inv in H as (? & ? & _ & H)).
  injection H as <- _. auto.
Qed.

Lemma read_geometry_inv E a ext hdr w geo w' :
  read_geometry E a ext hdr w = (Ok geo, w') ->
  (ext = ".trk" /\ g_data_offset geo.1 = 1000 /\ geo.2 = None) \/
  (ext <> ".trk" /\ g_n_scalars geo.1 = 0 /\ g_n_properties geo.1 = 0 /\ is_Some geo.2).
Proof.
  unfold read_geometry. intros H.
  apply bind_ok_inv in H as (r & w1 & Hr & H).
  repeat (apply bind_ok_inv in H as (? & ? & _ & H)). injection H as <- _.
  destruct (String.eqb ext ".trk") eqn:He.
  - left. apply String.eqb_eq in He.
    apply bind_ok_inv in Hr as (g & w2 & Hg & [= <- _]).
    apply lift_ok_inv in Hg as [Hg _]. split; [exact He|].
    split; [by eapply trk_geometry_inv | reflexivity].
  - right. apply String.eqb_neq in He.
    apply bind_ok_inv in Hr as (p & w2 & Hp & [= <- _]).
    apply tck_geometry_inv in Hp as [? ?]. cbn [fst snd]. eauto.
Qed.

Lemma check_dims_inv g w w' :
  check_dims g w = (Ok tt, w') ->
  (g_dims g).1.1 < 2 ^ 16 /\ (g_dims g).2 < 2 ^ 16.
Proof.
  unfold check_dims. destruct (g_dims g) as [[Nx Ny] Nz]. cbn [fst snd].
  destruct (dims_overflow Nx Ny Nz) eqn:Hd; [discriminate|]. intros _.
  unfold dims_overflow in Hd. lia.
Qed.

Lemma allocate_tdi_inv g :
  allocate_tdi g = Ok tt -> 0 <= (g_dims g).1.1 /\ 0 <= (g_dims g).1.2 /\ 0 <= (g_dims g).2.
Proof.
  unfold allocate_tdi. destruct (g_dims g) as [[Nx Ny] Nz]. cbn [fst snd].
  destruct ((Nx <? 0) || (Ny <? 0) || (Nz <? 0)) eqn:Hd; [discriminate|]. lia.
Qed.

(** X14: what the checks of lines 101-320 establish.  Whenever they pass,
    the output path and the name of the metadata record come from
    [path_out], [ndirs] is supported, [min_seg_len] is not negative, the
    blur arrays are those of the blur settings, the tractogram is the
    chosen one and its extension is [.trk] or [.tck]; the grid handed to
    the native pass has no negative extent and its first and third extents
    are below 2^16; a [.trk] tractogram has its data at offset 1000 and no
    inverse affine, a [.tck] tractogram has no scalars and no properties
    and comes with an inverse affine. *)
Theorem passed_checks_establish E a w fr wa :
  run_front E a w = (Ok fr, wa) ->
  path_out a = Some (fr_path fr) /\
  fr_filename fr = fr_path fr +:+ "/dictionary_info.pickle" /\
  ndirs a ∈ supported_ndirs /\
  (min_seg_len a <? 0)%float = false /\
  resolve_fiber_shift (fiber_shift a) = Ok (fr_shift fr) /\
  blur_params E (blur_radii a) (blur_samples a) (blur_sigma a) = Ok (fr_blur fr) /\
  chosen_tractogram a = Some (fr_tractogram fr) /\
  fr_extension fr = Path.extension (fr_tractogram fr) /\
  0 <= (g_dims (fr_geometry fr)).1.1 < 2 ^ 16 /\
  0 <= (g_dims (fr_geometry fr)).1.2 /\
  0 <= (g_dims (fr_geometry fr)).2 < 2 ^ 16 /\
  ((fr_extension fr = ".trk" /\ g_data_offset (fr_geometry fr) = 1000 /\ fr_invM fr = None) \/
   (fr_extension fr = ".tck" /\ g_n_scalars (fr_geometry fr) = 0 /\
    g_n_properties (fr_geometry fr) = 0 /\ is_Some (fr_invM fr))).
Proof.
  intros H. unfold run_front in H. destruct (path_out a) as [p|]; [|discriminate].
  apply bind_ok_inv in H as ([] & w0 & Hnd & H).
  assert (Hn : ndirs a ∈ supported_ndirs).
  { revert Hnd. unfold check_ndirs, lut_is_valid. by case_bool_decide. }
  unfold settings_and_inputs in H.
  apply bind_ok_inv in H as (s & w1 & Hs & H). apply lift_ok_inv in Hs as [Hs _].
  apply bind_ok_inv in H as (? & w2 & _ & H).
  apply bind_ok_inv in H as (b & w3 & Hb & H). apply lift_ok_inv in Hb as [Hb _].
  apply bind_ok_inv in H as (? & w4 & _ & H).
  apply bind_ok_inv in H as (? & w5 & Hm & H).
  destruct (min_seg_len a <? 0)%float eqn:Hseg; [discriminate|].
  apply bind_ok_inv in H as (? & w6 & _ & H).
  apply bind_ok_inv in H as (ht & w7 & _ & H).
  apply bind_ok_inv in H as (? & w8 & _ & H).
  apply bind_ok_inv in H as (f & w9 & Hf & H). apply choose_tractogram_inv in Hf.
  apply bind_ok_inv in H as (o & w10 & Ho & H).
  apply open_tractogram_inv in Ho as (Hext & Hkind & _).
  apply bind_ok_inv in H as (geo & w11 & Hg & H). apply read_geometry_inv in Hg.
  apply bind_ok_inv in H as ([] & w12 & Hd & H). apply check_dims_inv in Hd as [Hx Hz].
  apply bind_ok_inv in H as (invM & w13 & Hi & H). apply lift_ok_inv in Hi as [Hi _].
  apply bind_ok_inv in H as (mask & w14 & _ & H).
  apply bind_ok_inv in H as ([] & w15 & Ha & H). apply lift_ok_inv in Ha as [Ha _].
  apply allocate_tdi_inv in Ha as (Hx0 & Hy0 & Hz0).
  injection H as <- _. cbn [fr_path fr_filename fr_shift fr_blur fr_tractogram
                            fr_extension fr_geometry fr_invM].
  repeat (split; [first [reflexivity | assumption | lia]|]).
  destruct Hg as [(He & Ho & Hnone) | (He & Hsc & Hpr & [img Himg])].
  - left. split; [exact He|]. split; [exact Ho|].
    rewrite Hnone in Hi. by injection Hi as <-.
  - right. destruct Hkind as [Hk|Hk]; [contradiction|].
    split; [exact Hk|]. split; [exact Hsc|]. split; [exact Hpr|].
    rewrite Himg in Hi. cbn [tck_inverse_affine] in Hi.
    destruct (inverse_unscaled_affine E img _); [|discriminate].
    injection Hi as <-. eauto.
Qed.

Lemma passed_checks_establish_witness :
  exists fr wa,
    run_front (Demo.environment Demo.native_keeps_two) Demo.wide
      (Demo.with_file "in/wide.nii" (FImage (Demo.peaks_image 3)) Demo.world0)
    = (Ok fr, wa) /\
    fr_extension fr = ".tck" /\ g_n_scalars (fr_geometry fr) = 0 /\
    is_Some (fr_invM fr) /\ (g_dims (fr_geometry fr)).2 < 2 ^ 16.
Proof.
  set (E := Demo.environment Demo.native_keeps_two).
  set (w := Demo.with_file "in/wide.nii" (FImage (Demo.peaks_image 3)) Demo.world0).
  let r := eval vm_compute in (run_front E Demo.wide w) in
  lazymatch r with
  | (Ok ?fr0, ?wa0) => pose (fr := fr0); pose (wa := wa0)
  end.
  assert (Hfr : run_front E Demo.wide w = (Ok fr, wa)) by (vm_compute; reflexivity).
  exists fr, wa. split; [exact Hfr|].
  destruct (passed_checks_establish E Demo.wide w fr wa Hfr)
    as (_ & _ & _ & _ & _ & _ & _ & _ & _ & _ & Hz & [(He & _) | (He & Hs & _ & Hi)]).
  - discriminate He.
  - split; [exact He|]. split; [exact Hs|]. split; [exact Hi|]. apply Hz.
Defined.

(** ** The mask and the peaks *)

(** X15: a mask whose geometry differs from the tractogram's is not
    refused.  For a three-dimensional mask, [load_mask] reads the image,
    prints its extents and voxel sizes, prints the geometry warning exactly
    when an extent differs or a voxel size differs by more than 1e-3, and
    hands the mask on either way. *)
Theorem mask_geometry_mismatch_warns a g fm img s0 s1 s2 p0 p1 p2 p3 prest w :
  filename_mask a = Some fm -> files w !! fm = Some (FImage img) ->
  nii_shape img = [s0; s1; s2] -> nii_pixdim img = p0 :: p1 :: p2 :: p3 :: prest ->
  load_mask a g w
  = (Ok (Some img),
     World (files w) (dirs w)
       (log w ++ [EPrint "* filtering mask"; ERead fm; EPrint "- %d x %d x %d";
                  EPrint "- %.4f x %.4f x %.4f"]
              ++ (if geometry_differs g s0 s1 s2 p1 p2 p3
                  then [EPrint geometry_warning] else []))).
Proof.
  intros Hfm Himg Hshape Hpix. unfold load_mask. rewrite Hfm.
  unfold bind, print, tell, lift, nib_load. cbn [files emit]. rewrite Himg.
  rewrite Hshape, Hpix. cbn [Py.index Py.unchecked lookup list_lookup].
  unfold check_ndim. rewrite Hshape. cbn [length]. rewrite decide_True by reflexivity.
  destruct (geometry_differs g s0 s1 s2 p1 p2 p3); unfold ret, emit; cbn [files dirs log];
    rewrite <- ?app_assoc; reflexivity.
Qed.

Lemma mask_geometry_mismatch_warns_witness :
  exists w',
    load_mask (Demo.custom (Some "in/fibers.trk") (Some "in/mask.nii") (ShiftScalar 0%float)
                           [false; false; false] 1e-3%float true [] [])
              (Geometry (2, 2, 2) (1, 1, 1)%float 1000 3 0 0)
              (Demo.with_file "in/mask.nii" (FImage (Demo.mask_image 3)) Demo.world0)
    = (Ok (Some (Demo.mask_image 3)), w') /\
    last (log w') = Some (EPrint geometry_warning).
Proof.
  eexists. split.
  - apply mask_geometry_mismatch_warns with (fm := "in/mask.nii") (s0 := 3) (s1 := 2) (s2 := 2)
      (p0 := 1%float) (p1 := 1%float) (p2 := 1%float) (p3 := 1%float) (prest := []);
      [reflexivity | vm_compute; reflexivity | reflexivity | reflexivity].
  - vm_compute. reflexivity.
Defined.

(** X16: what a loaded peaks volume has passed.  Whenever [load_peaks]
    hands on a peaks volume, it is the image of [filename_peaks], it has
    four extents and the last is three times the number of peaks per voxel,
    the test of line 338 did not fire, that is, [vf_THR] is neither below
    0 nor above 1 (which a NaN is not either), and the rotation is the
    transposed upper-left block of the image's affine when
    [peaks_use_affine] is set and the identity otherwise. *)
Theorem loaded_peaks_are_checked a g w pk w' :
  load_peaks a g w = (Ok (Some pk), w') ->
  (exists fp, filename_peaks a = Some fp /\ files w !! fp = Some (FImage (pk_image pk))) /\
  length (nii_shape (pk_image pk)) = 4%nat /\
  nii_shape (pk_image pk) !! 3%nat = Some (3 * pk_Np pk) /\
  (vf_THR a <? 0)%float = false /\ (1 <? vf_THR a)%float = false /\
  ((nan <? 0)%float = false /\ (1 <? nan)%float = false) /\
  pk_affine pk = (if peaks_use_affine a
                  then rotation_transposed (nii_affine (pk_image pk)) else eye3).
Proof.
  unfold load_peaks. destruct (filename_peaks a) as [fp|].
  2:{ intros H. apply bind_ok_inv in H as (? & ? & _ & H). discriminate H. }
  intros H.
  apply bind_ok_inv in H as (? & w1 & Hp & H). injection Hp as _ <-.
  apply bind_ok_inv in H as (img & w2 & Himg & H).
  assert (Hfile : files w !! fp = Some (FImage img)).
  { revert Himg. unfold nib_load. cbn [files emit].
    destruct (files w !! fp) as [[]|]; try discriminate. by intros [= -> _]. }
  apply bind_ok_inv in H as (s0 & ? & _ & H).
  apply bind_ok_inv in H as (s1 & ? & _ & H).
  apply bind_ok_inv in H as (s2 & ? & _ & H).
  apply bind_ok_inv in H as (s3 & ? & Hs3 & H). apply lift_ok_inv in Hs3 as [Hs3 _].
  do 12 (apply bind_ok_inv in H as (? & ? & _ & H)).
  destruct (s3 mod 3 =? 0) eqn:Hmod; [|discriminate H]. cbn [negb] in H.
  destruct ((vf_THR a <? 0)%float || (1 <? vf_THR a)%float) eqn:Hvf; [discriminate H|].
  apply orb_false_iff in Hvf as [Hlow Hhigh].
  apply bind_ok_inv in H as (? & ? & Hdim & H). apply lift_ok_inv in Hdim as [Hdim _].
  injection H as <- _. cbn [pk_image pk_Np pk_affine].
  split; [eauto|].
  split; [unfold check_ndim in Hdim; by destruct (decide _)|].
  split.
  { unfold Py.unchecked in Hs3. destruct (nii_shape img !! 3%nat) as [v3|]; [|discriminate].
    injection Hs3 as ->. f_equal. apply Z.eqb_eq in Hmod.
    pose proof (Z.div_mod s3 3). lia. }
  split; [exact Hlow|]. split; [exact Hhigh|]. split; [|reflexivity].
  split; reflexivity.
Qed.

Lemma loaded_peaks_are_checked_witness :
  exists pk w',
    load_peaks (Demo.with_peaks 0.1%float) (Geometry (2, 2, 2) (1, 1, 1)%float 1000 3 0 0)
               (Demo.world_with_peaks 6)
    = (Ok (Some pk), w') /\
    nii_shape (pk_image pk) !! 3%nat = Some (3 * pk_Np pk) /\ pk_affine pk = eye3.
Proof.
  set (a := Demo.with_peaks 0.1%float).
  set (g := Geometry (2, 2, 2) (1, 1, 1)%float 1000 3 0 0).
  let r := eval vm_compute in (load_peaks a g (Demo.world_with_peaks 6)) in
  lazymatch r with
  | (Ok (Some ?pk0), ?w0) => pose (pk := pk0); pose (w' := w0)
  end.
  assert (H : load_peaks a g (Demo.world_with_peaks 6) = (Ok (Some pk), w'))
    by (vm_compute; reflexivity).
  exists pk, w'. split; [exact H|].
  destruct (loaded_peaks_are_checked a g _ pk w' H) as (_ & _ & Hnp & _ & _ & _ & Haff).
  split; [exact Hnp | exact Haff].
Defined.

(** X17: a failed check leaves no trace on disk.  Whatever error the
    checks of lines 101-354 raise, [run] raises that same error, and up to
    it [run] has only printed, read and loaded the hash table: no file is
    written or removed, no directory is made, the native pass is not
    started. *)
Theorem failed_checks_leave_no_trace E a w e w' :
  run_checks E a w = (Raise e, w') ->
  run E a w = (Raise e, w') /\ only_read w w'.
Proof.
  unfold run_checks, run. intros H.
  pose proof (read_only_run_front E a w) as H1.
  unfold bind in *. destruct (run_front E a w) as [[fr|e1] w1].
  - pose proof (read_only_load_peaks a (fr_geometry fr) w1) as H2.
    destruct (load_peaks a (fr_geometry fr) w1) as [[pk|e2] w2]; [discriminate H|].
    injection H as <- <-. split; [reflexivity|]. by eapply only_read_trans.
  - injection H as <- <-. auto.
Qed.

Lemma failed_checks_leave_no_trace_witness :
  exists w',
    run (Demo.environment Demo.native_keeps_two) (Demo.with_peaks 0.1%float)
        (Demo.world_with_peaks 4)
    = (Raise peaks_volumes_error, w') /\
    only_read (Demo.world_with_peaks 4) w'.
Proof.
  set (E := Demo.environment Demo.native_keeps_two).
  set (a := Demo.with_peaks 0.1%float).
  let r := eval vm_compute in (run_checks E a (Demo.world_with_peaks 4)) in
  lazymatch r with
  | (Raise _, ?w0) => pose (w' := w0)
  end.
  assert (H : run_checks E a (Demo.world_with_peaks 4) = (Raise peaks_volumes_error, w'))
    by (vm_compute; reflexivity).
  exists w'. exact (failed_checks_leave_no_trace E a (Demo.world_with_peaks 4) _ w' H).
Defined.

(** ** The blur arrays handed to the native pass *)

Lemma int32_of_long_range n : in_int32 (int32_of_long n).
Proof.
  unfold in_int32, int32_of_long.
  pose proof (Z.mod_pos_bound (n + 2 ^ 31) (2 ^ 32) ltac:(lia)). lia.
Qed.

Lemma int32_of_long_small n : in_int32 n -> int32_of_long n = n.
Proof.
  unfold in_int32, int32_of_long. intros H. rewrite Z.mod_small by lia. lia.
Qed.

Lemma map_int32_of_long_small l : Forall in_int32 l -> map int32_of_long l = l.
Proof.
  induction 1 as [|x l Hx _ IH]; [reflexivity|].
  cbn [map]. by rewrite int32_of_long_small, IH.
Qed.

Lemma rmap_c_int32_inv l l' :
  rmap c_int32 l = Ok l' -> l' = map int32_of_long l.
Proof.
  revert l'. induction l as [|x l IH]; intros l' H.
  - by injection H as <-.
  - cbn [rmap] in H. unfold c_int32 at 1 in H.
    destruct (decide (- 2 ^ 63 <= x < 2 ^ 63)); [|discriminate H]. cbn [rbind] in H.
    destruct (rmap c_int32 l) as [l0|]; [|discriminate H]. injection H as <-.
    by rewrite (IH l0 eq_refl).
Qed.

Lemma fill_weights_length E sigma radii idx weights ws :
  fill_weights E sigma radii idx weights = Ok ws -> length ws = length weights.
Proof.
  revert weights. induction idx as [|i idx IH]; intros weights H.
  - by injection H as <-.
  - cbn [fill_weights] in H. destruct (Py.unchecked radii i); [|discriminate H].
    cbn [rbind] in H. destruct (gaussian_damping E _ sigma); [|discriminate H].
    cbn [rbind] in H. apply IH in H. by rewrite length_insert in H.
Qed.

(** X18: whenever the blur settings are accepted, the three arrays handed
    to the native pass have one length, the [nBlurRadii] passed with them,
    which is one more than the number of radii given; the radii follow an
    implicit radius 0 and the radii and sample counts given had one
    length; every sample count stored fits a C [int], the first being the
    implicit count 1, and sample counts that fit a C [int] are stored
    unchanged. *)
Theorem blur_arrays_have_one_length E radii samples sigma b :
  blur_params E radii samples sigma = Ok b ->
  nBlurRadii b = Z.of_nat (length radii) + 1 /\
  Z.of_nat (length (blurRadii b)) = nBlurRadii b /\
  Z.of_nat (length (blurSamples b)) = nBlurRadii b /\
  Z.of_nat (length (blurWeights b)) = nBlurRadii b /\
  blurRadii b = 0%float :: radii /\
  length radii = length samples /\
  Forall in_int32 (blurSamples b) /\
  blurSamples b !! 0%nat = Some 1 /\
  (Forall in_int32 samples -> blurSamples b = 1 :: samples).
Proof.
  unfold blur_params. destruct (decide (length radii = length samples)) as [Hl|];
    [|discriminate].
  destruct (rmap c_int32 (1 :: samples)) as [samples0|] eqn:Hs; [|discriminate].
  cbn [rbind].
  destruct (fill_weights E sigma (0%float :: radii) _ (0%float :: radii)) as [ws|] eqn:Hw;
    [|discriminate].
  cbn [rbind]. intros [= <-]. cbn [nBlurRadii blurRadii blurSamples blurWeights].
  apply rmap_c_int32_inv in Hs as ->. apply fill_weights_length in Hw.
  rewrite Hw. cbn [length map]. rewrite length_map, <- Hl.
  repeat (split; [first [reflexivity | assumption | lia]|]).
  split; [|split].
  - constructor; [apply int32_of_long_range|].
    apply Forall_forall. intros x Hx. apply list_elem_of_fmap in Hx as (y & -> & _).
    apply int32_of_long_range.
  - reflexivity.
  - intros Hfit. change (int32_of_long 1) with 1. f_equal.
    by apply map_int32_of_long_small.
Qed.

Lemma blur_arrays_have_one_length_witness :
  exists b,
    blur_params (Demo.environment Demo.native_keeps_two) [1%float] [4] 1 = Ok b /\
    nBlurRadii b = 2 /\ Z.of_nat (length (blurWeights b)) = 2.
Proof.
  set (E := Demo.environment Demo.native_keeps_two).
  let r := eval vm_compute in (blur_params E [1%float] [4] 1) in
  lazymatch r with
  | Ok ?b =>
      assert (H : blur_params E [1%float] [4] 1 = Ok b) by (vm_compute; reflexivity);
      exists b; split; [exact H|];
      destruct (blur_arrays_have_one_length E [1%float] [4] 1%float b H)
        as (Hn & _ & _ & Hw & _)
  end.
  split; [exact Hn | exact Hw].
Defined.

(** ** After the native pass *)

Lemma run_front_names E a w fr wa :
  run_front E a w = (Ok fr, wa) ->
  path_out a = Some (fr_path fr) /\
  fr_filename fr = fr_path fr +:+ "/dictionary_info.pickle" /\
  chosen_tractogram a = Some (fr_tractogram fr) /\
  fr_extension fr = Path.extension (fr_tractogram fr).
Proof.
  intros H. unfold run_front in H. destruct (path_out a) as [p|]; [|discriminate].
  apply bind_ok_inv in H as (? & ? & _ & H). unfold settings_and_inputs in H.
  do 8 (apply bind_ok_inv in H as (? & ? & _ & H)).
  apply bind_ok_inv in H as (f & ? & Hf & H). apply choose_tractogram_inv in Hf.
  apply bind_ok_inv in H as (o & ? & Ho & H). apply open_tractogram_inv in Ho as (Ho & _).
  repeat (apply bind_ok_inv in H as (? & ? & _ & H)).
  injection H as <- _. auto.
Qed.

Lemma checks_keep_files E a w fr wa pk wb :
  run_front E a w = (Ok fr, wa) -> load_peaks a (fr_geometry fr) wa = (Ok pk, wb) ->
  only_read w wb.
Proof.
  intros Hfr Hpk.
  pose proof (read_only_run_front E a w) as H1. rewrite Hfr in H1.
  pose proof (read_only_load_peaks a (fr_geometry fr) wa) as H2. rewrite Hpk in H2.
  by eapply only_read_trans.
Qed.

(** X19: with [gen_trk] off, once the checks have passed and the native
    pass has returned a nonzero code, on a grid and a mask with no extent
    above 32767, [run] succeeds and all it does after the pass is print one
    line and write the track-density image and the mask under the output
    directory: the tractogram is not read again and no filtered tractogram
    is written. *)
Theorem run_without_gen_trk E a w fr wa pk wb args code tdi wn :
  run_front E a w = (Ok fr, wa) ->
  load_peaks a (fr_geometry fr) wa = (Ok pk, wb) ->
  fr_path fr <> EmptyString ->
  native_arguments_of a fr pk = Ok args ->
  trk2dictionary E args
    (emit (ENative (na_path_out args)) (prepare_output a (fr_path fr) (fr_filename fr) wb).2)
  = (code, tdi, wn) ->
  code <> 0 -> gen_trk a = false ->
  maps_fit (fr_geometry fr) (fr_mask fr) ->
  exists img1 img2,
    run E a w
    = (Ok tt,
       World (<[Path.join (fr_path fr) "dictionary_mask.nii.gz" := FImage img2]>
                (<[Path.join (fr_path fr) "dictionary_tdi.nii.gz" := FImage img1]> (files wn)))
             (dirs wn)
             (log wn ++ [EPrint "[ %.1f seconds ]";
                         EWrite (Path.join (fr_path fr) "dictionary_tdi.nii.gz");
                         EWrite (Path.join (fr_path fr) "dictionary_mask.nii.gz")])).
Proof.
  intros Hfr Hpk Hp Hargs Hnat Hcode Hgen Hfit.
  destruct (prepare_output_writes a (fr_path fr) (fr_filename fr) wb Hp)
    as (w1 & Hprep & _). rewrite Hprep in Hnat. cbn [snd] in Hnat.
  destruct (save_maps_writes E (fr_path fr) (fr_geometry fr) (fr_mask fr) pk tdi
              (emit (EPrint "[ %.1f seconds ]") wn) Hfit)
    as (img1 & img2 & Hsave).
  exists img1, img2.
  unfold run. erewrite bind_ok by exact Hfr. erewrite bind_ok by exact Hpk.
  erewrite run_back_after_pass by eassumption.
  apply Z.eqb_neq in Hcode. rewrite Hcode, Hgen.
  erewrite bind_ok by reflexivity. erewrite bind_ok by reflexivity.
  rewrite Hsave. cbn [files dirs log emit]. by rewrite <- app_assoc.
Qed.

Lemma run_without_gen_trk_witness :
  exists w',
    run (Demo.environment Demo.native_keeps_two)
        (Demo.custom (Some "in/fibers.trk") None (ShiftScalar 0%float)
                     [false; false; false] 1e-3%float false [] [])
        Demo.world0
    = (Ok tt, w') /\
    files w' !! "out/dictionary_TRK_fibers.trk" = None /\
    is_Some (files w' !! "out/dictionary_tdi.nii.gz").
Proof.
  set (E := Demo.environment Demo.native_keeps_two).
  set (a := Demo.custom (Some "in/fibers.trk") None (ShiftScalar 0%float)
                        [false; false; false] 1e-3%float false [] []).
  let r := eval vm_compute in (run_front E a Demo.world0) in
  lazymatch r with
  | (Ok ?fr0, ?wa0) => pose (fr := fr0); pose (wa := wa0)
  end.
  assert (Hfr : run_front E a Demo.world0 = (Ok fr, wa)) by (vm_compute; reflexivity).
  let r := eval vm_compute in (load_peaks a (fr_geometry fr) wa) in
  lazymatch r with
  | (Ok ?pk0, ?wb0) => pose (pk := pk0); pose (wb := wb0)
  end.
  assert (Hpk : load_peaks a (fr_geometry fr) wa = (Ok pk, wb)) by (vm_compute; reflexivity).
  let r := eval vm_compute in (native_arguments_of a fr pk) in
  lazymatch r with
  | Ok ?args0 => pose (args := args0)
  end.
  assert (Hargs : native_arguments_of a fr pk = Ok args) by (vm_compute; reflexivity).
  let r := eval vm_compute in
    (trk2dictionary E args
       (emit (ENative (na_path_out args))
          (prepare_output a (fr_path fr) (fr_filename fr) wb).2)) in
  lazymatch r with
  | (_, ?tdi0, ?wn0) => pose (tdi := tdi0); pose (wn := wn0)
  end.
  assert (Hnat : trk2dictionary E args
                   (emit (ENative (na_path_out args))
                      (prepare_output a (fr_path fr) (fr_filename fr) wb).2)
                 = (1, tdi, wn)) by (vm_compute; reflexivity).
  destruct (run_without_gen_trk E a Demo.world0 fr wa pk wb args 1 tdi wn
              Hfr Hpk ltac:(discriminate) Hargs Hnat ltac:(discriminate) eq_refl)
    as (img1 & img2 & Hrun).
  { split; [repeat constructor; vm_compute; discriminate | discriminate]. }
  eexists. split; [exact Hrun|]. cbn [files]. split; vm_compute; eauto.
Defined.



(** X21: a kept-file that does not hold one flag per streamline stops
    [run] after the native pass: with [gen_trk] on, the selection raises
    [IndexError], and [run] ends there with the files the pass left: no
    filtered tractogram, no track-density image and no mask are written. *)
Theorem run_rejects_mismatched_kept_file E a w fr wa pk wb args code tdi wn fib kept :
  run_front E a w = (Ok fr, wa) ->
  load_peaks a (fr_geometry fr) wa = (Ok pk, wb) ->
  fr_path fr <> EmptyString ->
  native_arguments_of a fr pk = Ok args ->
  trk2dictionary E args
    (emit (ENative (na_path_out args)) (prepare_output a (fr_path fr) (fr_filename fr) wb).2)
  = (code, tdi, wn) ->
  code <> 0 -> gen_trk a = true ->
  files wn !! fr_tractogram fr = Some (FTract fib) ->
  files wn !! Path.join (fr_path fr) "dictionary_TRK_kept.dict" = Some (FRaw kept) ->
  length kept <> length (trk_streamlines fib) ->
  exists w',
    run E a w = (Raise IndexError, w') /\ only_read wn w'.
Proof.
  intros Hfr Hpk Hp Hargs Hnat Hcode Hgen Hfib Hkept Hlen.
  destruct (prepare_output_writes a (fr_path fr) (fr_filename fr) wb Hp)
    as (w1 & Hprep & _). rewrite Hprep in Hnat. cbn [snd] in Hnat.
  eexists. split.
  - unfold run. erewrite bind_ok by exact Hfr. erewrite bind_ok by exact Hpk.
    erewrite run_back_after_pass by eassumption.
    apply Z.eqb_neq in Hcode. rewrite Hcode, Hgen.
    apply bind_raise. unfold generate_tractogram, np_fromfile_bool.
    erewrite bind_ok by reflexivity.
    erewrite bind_ok.
    2:{ unfold streamlines_load. cbn [files emit]. rewrite Hfib. reflexivity. }
    erewrite bind_ok.
    2:{ erewrite bind_ok by (apply np_fromfile_raw; cbn [files emit]; exact Hkept).
        reflexivity. }
    apply bind_raise. unfold lift, Py.mask_select. rewrite decide_False; [reflexivity|].
    rewrite of_bytes_uint8, !length_map. exact Hlen.
  - eexists. split.
    + unfold emit. cbn [files dirs log]. rewrite <- !app_assoc. reflexivity.
    + reflexivity.
Qed.

Lemma run_rejects_mismatched_kept_file_witness :
  exists w',
    run (Demo.environment Demo.native_keeps_two)
        (Demo.custom (Some "in/short.trk") None (ShiftScalar 0%float)
                     [false; false; false] 1e-3%float true [] [])
        (Demo.with_file "in/short.trk"
           (FTract (Tractogram (trk_header Demo.fibers) [Demo.s0; Demo.s1])) Demo.world0)
    = (Raise IndexError, w') /\
    files w' !! "out/dictionary_tdi.nii.gz" = None.
Proof.
  set (E := Demo.environment Demo.native_keeps_two).
  set (a := Demo.custom (Some "in/short.trk") None (ShiftScalar 0%float)
                        [false; false; false] 1e-3%float true [] []).
  set (W := Demo.with_file "in/short.trk"
              (FTract (Tractogram (trk_header Demo.fibers) [Demo.s0; Demo.s1])) Demo.world0).
  let r := eval vm_compute in (run_front E a W) in
  lazymatch r with
  | (Ok ?fr0, ?wa0) => pose (fr := fr0); pose (wa := wa0)
  end.
  assert (Hfr : run_front E a W = (Ok fr, wa)) by (vm_compute; reflexivity).
  let r := eval vm_compute in (load_peaks a (fr_geometry fr) wa) in
  lazymatch r with
  | (Ok ?pk0, ?wb0) => pose (pk := pk0); pose (wb := wb0)
  end.
  assert (Hpk : load_peaks a (fr_geometry fr) wa = (Ok pk, wb)) by (vm_compute; reflexivity).
  let r := eval vm_compute in (native_arguments_of a fr pk) in
  lazymatch r with
  | Ok ?args0 => pose (args := args0)
  end.
  assert (Hargs : native_arguments_of a fr pk = Ok args) by (vm_compute; reflexivity).
  let r := eval vm_compute in
    (trk2dictionary E args
       (emit (ENative (na_path_out args))
          (prepare_output a (fr_path fr) (fr_filename fr) wb).2)) in
  lazymatch r with
  | (_, ?tdi0, ?wn0) => pose (tdi := tdi0); pose (wn := wn0)
  end.
  assert (Hnat : trk2dictionary E args
                   (emit (ENative (na_path_out args))
                      (prepare_output a (fr_path fr) (fr_filename fr) wb).2)
                 = (1, tdi, wn)) by (vm_compute; reflexivity).
  destruct (run_rejects_mismatched_kept_file E a W fr wa pk wb args 1 tdi wn
              (Tractogram (trk_header Demo.fibers) [Demo.s0; Demo.s1])
              [Byte.x01; Byte.x00; Byte.x01]
              Hfr Hpk ltac:(discriminate) Hargs Hnat ltac:(discriminate) eq_refl
              ltac:(vm_compute; reflexivity) ltac:(vm_compute; reflexivity)
              ltac:(discriminate))
    as (w' & Hrun & evs & -> & _).
  eexists. split; [exact Hrun|]. vm_compute. reflexivity.
Defined.

(** X22: fewer than three [flip_peaks] flags, with no peaks volume to
    print them for, are found out late and not by an exception: the checks
    pass, the output directory is made and the metadata record is written,
    and only then, when the arguments of the native pass are put together
    at line 369, [run] reads past the end of [flip_peaks]; line 2 has
    switched the bounds check off, so no [IndexError] is raised and the
    run leaves defined behaviour there.  Up to that read the native pass
    has not been started. *)
Theorem short_flip_peaks_fail_late E a w fr wa :
  run_front E a w = (Ok fr, wa) ->
  filename_peaks a = None ->
  fr_path fr <> EmptyString ->
  (length (flip_peaks a) < 3)%nat ->
  exists wb w',
    only_read w wb /\
    prepare_output a (fr_path fr) (fr_filename fr) wb = (Ok tt, w') /\
    run E a w = (Raise OutOfBoundsRead, w') /\
    files w' !! fr_filename fr = Some (FPickle (info_of_args a)).
Proof.
  intros Hfr Hpk Hp Hlen.
  assert (Hload : load_peaks a (fr_geometry fr) wa
                  = (Ok None, emit (EPrint "* no dataset specified for EC compartments") wa)).
  { unfold load_peaks. rewrite Hpk. reflexivity. }
  destruct (prepare_output_writes a (fr_path fr) (fr_filename fr)
              (emit (EPrint "* no dataset specified for EC compartments") wa) Hp)
    as (w1 & Hprep & Hfiles & _).
  eexists _, w1. split; [by eapply checks_keep_files|]. split; [exact Hprep|]. split.
  - unfold run. erewrite bind_ok by exact Hfr. erewrite bind_ok by exact Hload.
    unfold run_back. erewrite bind_ok by exact Hprep.
    apply bind_raise. unfold lift, native_arguments, Py.unchecked.
    destruct (flip_peaks a) as [|f0 [|f1 [|f2 l]]]; try reflexivity.
    simpl in Hlen. lia.
  - rewrite Hfiles. apply lookup_insert_eq.
Qed.

Lemma short_flip_peaks_fail_late_witness :
  exists w',
    run (Demo.environment Demo.native_keeps_two)
        (Demo.custom (Some "in/fibers.trk") None (ShiftScalar 0%float)
                     [false; false] 1e-3%float true [] [])
        Demo.world0
    = (Raise OutOfBoundsRead, w') /\
    is_Some (files w' !! "out/dictionary_info.pickle").
Proof.
  set (E := Demo.environment Demo.native_keeps_two).
  set (a := Demo.custom (Some "in/fibers.trk") None (ShiftScalar 0%float)
                        [false; false] 1e-3%float true [] []).
  let r := eval vm_compute in (run_front E a Demo.world0) in
  lazymatch r with
  | (Ok ?fr0, ?wa0) => pose (fr := fr0); pose (wa := wa0)
  end.
  assert (Hfr : run_front E a Demo.world0 = (Ok fr, wa)) by (vm_compute; reflexivity).
  destruct (short_flip_peaks_fail_late E a Demo.world0 fr wa Hfr eq_refl
              ltac:(discriminate) ltac:(vm_compute; lia))
    as (wb & w' & _ & _ & Hrun & Hfile).
  exists w'. split; [exact Hrun|]. cbn [fr_filename] in Hfile. eauto.
Defined.

(** X23: an empty [path_out] passes every check and fails when the output
    directory is made: [makedirs] raises [FileNotFoundError] for the empty
    path, before the metadata record is written and before the native
    pass; up to the error [run] has only printed and read. *)
Theorem run_rejects_empty_path_out E a w fr wa pk wb :
  run_front E a w = (Ok fr, wa) ->
  load_peaks a (fr_geometry fr) wa = (Ok pk, wb) ->
  path_out a = Some EmptyString ->
  files w !! EmptyString = None -> EmptyString ∉ dirs w ->
  exists w',
    run E a w = (Raise (FileNotFoundError EmptyString), w') /\ only_read w w'.
Proof.
  intros Hfr Hpk Hp Hfile Hdir.
  destruct (run_front_names E a w fr wa Hfr) as [Hpath _].
  rewrite Hp in Hpath. injection Hpath as Hpath.
  pose proof (checks_keep_files E a w fr wa pk wb Hfr Hpk) as Hread.
  exists (emit (EPrint "* output written to path_out") wb). split.
  - unfold run. erewrite bind_ok by exact Hfr. erewrite bind_ok by exact Hpk.
    unfold run_back. apply bind_raise. unfold prepare_output. rewrite <- Hpath.
    erewrite bind_ok by reflexivity.
    erewrite bind_ok by reflexivity.
    apply bind_raise. destruct Hread as (evs & -> & _). cbn [files dirs emit].
    rewrite Hfile. rewrite bool_decide_eq_false_2 by (intros [? ?]; discriminate).
    rewrite bool_decide_eq_false_2 by exact Hdir. reflexivity.
  - eapply only_read_trans; [exact Hread|]. by apply only_read_emit.
Qed.

Lemma run_rejects_empty_path_out_witness :
  exists w',
    run (Demo.environment Demo.native_keeps_two)
        (Demo.args (Some "in/fibers.trk") (Some EmptyString) None 0.1%float 1%float
                   None None 32761)
        Demo.world0
    = (Raise (FileNotFoundError EmptyString), w') /\
    only_read Demo.world0 w'.
Proof.
  set (E := Demo.environment Demo.native_keeps_two).
  set (a := Demo.args (Some "in/fibers.trk") (Some EmptyString) None 0.1%float 1%float
                      None None 32761).
  let r := eval vm_compute in (run_front E a Demo.world0) in
  lazymatch r with
  | (Ok ?fr0, ?wa0) => pose (fr := fr0); pose (wa := wa0)
  end.
  assert (Hfr : run_front E a Demo.world0 = (Ok fr, wa)) by (vm_compute; reflexivity).
  let r := eval vm_compute in (load_peaks a (fr_geometry fr) wa) in
  lazymatch r with
  | (Ok ?pk0, ?wb0) => pose (pk := pk0); pose (wb := wb0)
  end.
  assert (Hpk : load_peaks a (fr_geometry fr) wa = (Ok pk, wb)) by (vm_compute; reflexivity).
  exact (run_rejects_empty_path_out E a Demo.world0 fr wa pk wb Hfr Hpk eq_refl
           ltac:(vm_compute; reflexivity) ltac:(apply not_elem_of_empty)).
Defined.

(** ** What [run] may write *)

Lemma writes_only_bind_post {A B} names (m : M A) (k : A -> M B) (Q : A -> Prop) :
  writes_only names m ->
  (forall w a w', m w = (Ok a, w') -> Q a) ->
  (forall a, Q a -> writes_only names (k a)) ->
  writes_only names (bind m k).
Proof.
  intros Hm HQ Hk w p Hp. unfold bind. specialize (Hm w p Hp). specialize (HQ w).
  destruct (m w) as [[a|e] w1]; cbn [snd] in *; [|exact Hm].
  rewrite (Hk a (HQ a w1 eq_refl) w1 p Hp). exact Hm.
Qed.

Lemma writes_only_bind {A B} names (m : M A) (k : A -> M B) :
  writes_only names m -> (forall a, writes_only names (k a)) ->
  writes_only names (bind m k).
Proof.
  intros Hm Hk. apply writes_only_bind_post with (Q := fun _ => True); auto.
Qed.

Lemma writes_only_read_only {A} names (m : M A) : read_only m -> writes_only names m.
Proof. intros H w p _. destruct (H w) as (evs & -> & _). reflexivity. Qed.

Lemma writes_only_write_file names p f : p ∈ names -> writes_only names (write_file p f).
Proof.
  intros Hp w q Hq. cbn [write_file snd files emit set_files].
  apply lookup_insert_ne. intros ->. contradiction.
Qed.

Lemma writes_only_os_makedirs names p : writes_only names (os_makedirs p).
Proof. intros w q _. unfold os_makedirs. by destruct (String.eqb p EmptyString). Qed.

Lemma writes_only_weaken {A} names names' (m : M A) :
  names ⊆ names' -> writes_only names m -> writes_only names' m.
Proof. intros Hs H w p Hp. apply H. intros Hin. apply Hp, Hs, Hin. Qed.

Lemma writes_only_prepare_output names a p filename :
  filename ∈ names -> writes_only names (prepare_output a p filename).
Proof.
  intros Hf. unfold prepare_output.
  apply writes_only_bind; [apply writes_only_read_only, read_only_print|]. intros _.
  apply writes_only_bind; [apply writes_only_read_only, read_only_path_exists|].
  intros found. apply writes_only_bind; [|intros _; by apply writes_only_write_file].
  destruct (negb found);
    [apply writes_only_os_makedirs | apply writes_only_read_only, read_only_ret].
Qed.

Lemma writes_only_generate_tractogram names f p ext :
  Path.join p ("dictionary_TRK_fibers" +:+ ext) ∈ names ->
  writes_only names (generate_tractogram f p ext).
Proof.
  intros Hn. unfold generate_tractogram, np_fromfile_bool.
  apply writes_only_bind; [apply writes_only_read_only, read_only_print|]. intros _.
  apply writes_only_bind; [apply writes_only_read_only, read_only_streamlines_load|].
  intros fib. apply writes_only_bind.
  { intros w q _. unfold bind, np_fromfile.
    destruct (files w !! _) as [[]|]; reflexivity. }
  intros kept. apply writes_only_bind; [apply writes_only_read_only, read_only_lift|].
  intros sel. apply writes_only_bind; [by apply writes_only_write_file|].
  intros _. apply writes_only_read_only, read_only_print.
Qed.

Lemma writes_only_save_maps names E p g mask pk tdi :
  Path.join p "dictionary_tdi.nii.gz" ∈ names ->
  Path.join p "dictionary_mask.nii.gz" ∈ names ->
  writes_only names (save_maps E p g mask pk tdi).
Proof.
  intros Ht Hm w q Hq. apply save_maps_keeps; intros ->; contradiction.
Qed.

Lemma native_arguments_path a f p g shift b ht invM mask pk args :
  native_arguments a f p g shift b ht invM mask pk = Ok args -> na_path_out args = p.
Proof.
  unfold native_arguments.
  destruct (Py.unchecked (flip_peaks a) 0) as [f0|]; [|discriminate].
  destruct (Py.unchecked (flip_peaks a) 1) as [f1|]; [|discriminate].
  destruct (Py.unchecked (flip_peaks a) 2) as [f2|]; [|discriminate].
  cbn [rbind]. by intros [= <-].
Qed.

(** X24: [run] writes nothing but its own outputs.  With an output path
    [p], and a native pass that changes no file outside a set [S] when it
    is given [p], whatever [run] does and however it ends, every file whose
    name is neither in [S] nor one of the four output names under [p] (the
    metadata record, the two maps, the filtered tractogram) is afterwards
    as it was before.  An input stored under one of these names is not
    covered: a mask passed as [p/dictionary_mask.nii.gz] is overwritten. *)
Theorem run_writes_only E a p S :
  path_out a = Some p ->
  (forall args, na_path_out args = p -> writes_only S (call_native E args)) ->
  writes_only (S ++ run_outputs a p) (run E a).
Proof.
  intros Hp Hnat. unfold run.
  apply writes_only_bind_post
    with (Q := fun fr => fr_path fr = p /\
                         fr_filename fr = p +:+ "/dictionary_info.pickle" /\
                         chosen_tractogram a = Some (fr_tractogram fr) /\
                         fr_extension fr = Path.extension (fr_tractogram fr)).
  { apply writes_only_read_only, read_only_run_front. }
  { intros w fr wa Hfr. destruct (run_front_names E a w fr wa Hfr) as (H1 & H2 & H3 & H4).
    rewrite Hp in H1. injection H1 as ->. auto. }
  intros fr (Hpath & Hname & Hf & Hext).
  apply writes_only_bind; [apply writes_only_read_only, read_only_load_peaks|]. intros pk.
  unfold run_back, run_outputs. rewrite Hpath, Hname, Hf, Hext.
  apply writes_only_bind; [apply writes_only_prepare_output; set_solver|]. intros _.
  apply writes_only_bind_post with (Q := fun args => na_path_out args = p).
  { apply writes_only_read_only, read_only_lift. }
  { intros w args w' H. unfold lift in H. injection H as H _.
    by apply native_arguments_path in H. }
  intros args Hargs.
  apply writes_only_bind.
  { eapply writes_only_weaken; [|by apply Hnat]. set_solver. }
  intros r. destruct (r.1 =? 0); [apply writes_only_read_only, read_only_print|].
  apply writes_only_bind.
  { destruct (gen_trk a); [|apply writes_only_read_only, read_only_ret].
    apply writes_only_generate_tractogram. set_solver. }
  intros _. apply writes_only_bind; [apply writes_only_read_only, read_only_print|].
  intros _. apply writes_only_save_maps; set_solver.
Qed.

Lemma run_writes_only_witness :
  files (run (Demo.environment Demo.native_keeps_two) Demo.trk_args Demo.world0).2
    !! "in/fibers.trk"
  = files Demo.world0 !! "in/fibers.trk".
Proof.
  apply (run_writes_only (Demo.environment Demo.native_keeps_two) Demo.trk_args "out"
           ["out/dictionary_TRK_kept.dict"] eq_refl).
  - intros args Hout w q Hq. unfold call_native. cbn [trk2dictionary Demo.environment].
    unfold Demo.native_keeps_two. rewrite Hout. cbn [snd files emit set_files].
    apply lookup_insert_ne. intros <-. apply Hq. vm_compute. set_solver.
  - vm_compute. intros H. repeat (apply elem_of_cons in H as [H|H]; [discriminate H|]).
    by apply elem_of_nil in H.
Defined.

(** ** The deprecated name of the tractogram *)

Lemma chosen_tractogram_deprecated a t :
  filename_trk a = Some t ->
  chosen_tractogram a = Some (default t (filename_tractogram a)).
Proof. unfold chosen_tractogram. intros ->. by destruct (filename_tractogram a). Qed.

(** The checks of lines 101-320 pass on a [.trk] tractogram with a usable
    grid when no mask is given. *)
Lemma run_front_trk E a p f w fib g :
  path_out a = Some p -> settings_pass E a -> chosen_tractogram a = Some f ->
  Path.extension f = ".trk" -> files w !! f = Some (FTract fib) ->
  trk_geometry (trk_header fib) = Ok g -> usable_grid g ->
  filename_mask a = None ->
  exists s b ht wa,
    run_front E a w
    = (Ok (Front p (p +:+ "/dictionary_info.pickle") s b ht f ".trk" g None None), wa) /\
    only_read w wa.
Proof.
  intros Hp (Hn & [s Hs] & [b Hb] & Hm & [ht Hh]) Hf Hext Hfile Hg (Hx & Hy & Hz) Hmask.
  destruct (print_settings_prints w) as (w1 & H1 & P1).
  destruct (print_blur_prints b w1) as (w2 & H2 & P2).
  set (w3 := emit (EPrint "* tractogram")
               (emit (EHashTable (ndirs a)) (emit (EPrint "* Loading data:") w2))).
  destruct (choose_tractogram_chosen a p f w3 Hp Hf) as (w4 & Hc & Pc).
  assert (Hr : nothing_read w w4).
  { eapply nothing_read_trans; [|by apply nothing_read_of_printed].
    eapply nothing_read_trans; [|by apply nothing_read_emit].
    eapply nothing_read_trans; [|by apply nothing_read_emit].
    eapply nothing_read_trans; [|by apply nothing_read_emit].
    apply nothing_read_of_printed. by eapply only_printed_trans. }
  assert (Hfile4 : files w4 !! f = Some (FTract fib)).
  { destruct Hr as (evs & -> & _). exact Hfile. }
  exists s, b, ht. eexists. split.
  - unfold run_front. rewrite Hp.
    erewrite bind_ok by (by apply check_ndirs_accepts).
    unfold settings_and_inputs.
    erewrite bind_ok by (unfold lift; rewrite Hs; reflexivity).
    erewrite bind_ok by exact H1.
    erewrite bind_ok by (unfold lift; rewrite Hb; reflexivity).
    erewrite bind_ok by exact H2.
    rewrite Hm. erewrite bind_ok by reflexivity.
    erewrite bind_ok by reflexivity.
    erewrite bind_ok by (unfold load_hash_table, bind, tell, lift; rewrite Hh; reflexivity).
    erewrite bind_ok by reflexivity.
    erewrite bind_ok by exact Hc.
    erewrite bind_ok.
    2:{ unfold open_tractogram. rewrite Hext.
        change (negb (String.eqb ".trk" ".trk") && negb (String.eqb ".trk" ".tck"))
          with false. cbv iota.
        erewrite bind_ok; [reflexivity|].
        unfold replacing_errors, streamlines_load. rewrite Hfile4. reflexivity. }
    cbn [fst snd].
    erewrite bind_ok.
    2:{ unfold read_geometry. change (String.eqb ".trk" ".trk") with true. cbv iota.
        erewrite bind_ok.
        2:{ erewrite bind_ok by (unfold lift; rewrite Hg; reflexivity). reflexivity. }
        erewrite bind_ok by reflexivity. erewrite bind_ok by reflexivity.
        erewrite bind_ok by reflexivity. reflexivity. }
    cbn [fst snd].
    erewrite bind_ok.
    2:{ unfold check_dims, dims_overflow. destruct (g_dims g) as [[Nx Ny] Nz].
        cbn [fst snd] in *.
        rewrite (proj2 (Z.leb_gt (2 ^ 16) Nx)), (proj2 (Z.leb_gt (2 ^ 16) Nz)) by lia.
        reflexivity. }
    erewrite bind_ok by reflexivity.
    erewrite bind_ok.
    2:{ unfold load_mask. rewrite Hmask. erewrite bind_ok by reflexivity. reflexivity. }
    erewrite bind_ok.
    2:{ unfold lift, allocate_tdi. destruct (g_dims g) as [[Nx Ny] Nz].
        cbn [fst snd] in *.
        rewrite (proj2 (Z.ltb_ge Nx 0)), (proj2 (Z.ltb_ge Ny 0)),
          (proj2 (Z.ltb_ge Nz 0)) by lia.
        reflexivity. }
    reflexivity.
  - eapply only_read_trans; [by apply nothing_read_only_read|].
    repeat first [ apply only_read_refl
                 | eapply only_read_trans; [|by apply only_read_emit] ].
Qed.

(** C10: with the deprecated [filename_trk] given, the tractogram is
    [filename_tractogram] when that is given too and [filename_trk] itself
    otherwise, a warning being printed either way, and nothing more is
    needed from the two names for [run] to succeed.  On a [.trk] file of
    that name with a usable grid, accepted settings and neither peaks nor
    mask, [run] writes the metadata record, hands that file to the native
    pass and, whenever the outcome of the pass lets lines 378-391 go
    through, returns normally: right after the pass when it gives up, and
    otherwise with the two maps saved, and the filtered tractogram if
    [gen_trk] is set. *)
Theorem deprecated_filename_trk_accepted E a p t w fib g :
  path_out a = Some p -> p <> EmptyString ->
  filename_trk a = Some t ->
  settings_pass E a ->
  Path.extension (default t (filename_tractogram a)) = ".trk" ->
  files w !! default t (filename_tractogram a) = Some (FTract fib) ->
  trk_geometry (trk_header fib) = Ok g -> usable_grid g ->
  filename_peaks a = None -> filename_mask a = None ->
  (2 < length (flip_peaks a))%nat ->
  (exists msg,
     choose_tractogram a w
     = (Ok (default t (filename_tractogram a)), emit (EPrint msg) w)) /\
  exists args wp,
    na_filename_tractogram args = default t (filename_tractogram a) /\
    na_path_out args = p /\
    files wp = <[p +:+ "/dictionary_info.pickle" := FPickle (info_of_args a)]> (files w) /\
    forall code tdi wn,
      trk2dictionary E args (emit (ENative p) wp) = (code, tdi, wn) ->
      pass_lets_finish a (default t (filename_tractogram a)) p code wn ->
      exists w',
        run E a w = (Ok tt, w') /\
        (code = 0 -> w' = emit (EPrint "[ DICTIONARY not generated ]") wn) /\
        (code <> 0 ->
         is_Some (files w' !! Path.join p "dictionary_tdi.nii.gz") /\
         is_Some (files w' !! Path.join p "dictionary_mask.nii.gz") /\
         (gen_trk a = true ->
          is_Some (files w' !! Path.join p ("dictionary_TRK_fibers" +:+ ".trk")))).
Proof.
  intros Hp Hne Ht Hs Hext Hfile Hg Hgrid Hpk Hmask Hflip.
  split; [by eapply choose_tractogram_deprecated|].
  set (f := default t (filename_tractogram a)) in *.
  destruct (run_front_trk E a p f w fib g Hp Hs (chosen_tractogram_deprecated a t Ht)
              Hext Hfile Hg Hgrid Hmask)
    as (s & b & ht & wa & Hfr & Hread).
  set (fr := Front p (p +:+ "/dictionary_info.pickle") s b ht f ".trk" g None None) in *.
  set (wb := emit (EPrint "* no dataset specified for EC compartments") wa).
  assert (Hload : load_peaks a (fr_geometry fr) wa = (Ok None, wb)).
  { unfold load_peaks. rewrite Hpk. reflexivity. }
  destruct (prepare_output_writes a p (p +:+ "/dictionary_info.pickle") wb Hne)
    as (w1 & Hprep & Hfiles & _).
  destruct (flip_peaks a) as [|f0 [|f1 [|f2 flips]]] eqn:Hflips;
    try (simpl in Hflip; lia).
  destruct (native_arguments a f p g s b ht None None None) as [args|] eqn:Hargs.
  2:{ exfalso. revert Hargs. unfold native_arguments. rewrite Hflips. discriminate. }
  assert (Hargs' : native_arguments_of a fr None = Ok args) by exact Hargs.
  assert (Hname : na_filename_tractogram args = f /\ na_path_out args = p).
  { revert Hargs. unfold native_arguments. rewrite Hflips.
    cbn [Py.unchecked lookup list_lookup rbind]. by intros [= <-]. }
  destruct Hname as [Hname Hout].
  exists args, w1. split; [exact Hname|]. split; [exact Hout|]. split.
  { rewrite Hfiles. unfold wb. cbn [files emit].
    destruct Hread as (evs & -> & _). reflexivity. }
  intros code tdi wn Hnat Hfin.
  assert (Hback : run E a w
            = if (code =? 0)%Z then (Ok tt, emit (EPrint "[ DICTIONARY not generated ]") wn)
              else bind (if gen_trk a then generate_tractogram f p ".trk" else ret tt)
                     (fun _ => bind (print "[ %.1f seconds ]")
                        (fun _ => save_maps E p g None None tdi)) wn).
  { unfold run. erewrite bind_ok by exact Hfr. erewrite bind_ok by exact Hload.
    erewrite (run_back_after_pass E a fr None wb w1 args code tdi wn);
      [reflexivity | exact Hprep | exact Hargs' | by rewrite Hout]. }
  rewrite Hback. destruct (code =? 0)%Z eqn:Hcode.
  { apply Z.eqb_eq in Hcode. eexists. split; [reflexivity|].
    split; [reflexivity | contradiction]. }
  apply Z.eqb_neq in Hcode.
  assert (Hfit : maps_fit g None).
  { destruct Hgrid as (Hx & Hy & Hz).
    split; [repeat constructor; lia | discriminate]. }
  assert (Hgen : exists wg,
            (if gen_trk a then generate_tractogram f p ".trk" else ret tt) wn = (Ok tt, wg) /\
            (gen_trk a = true ->
             is_Some (files wg !! Path.join p ("dictionary_TRK_fibers" +:+ ".trk")))).
  { destruct (gen_trk a) eqn:Hgen.
    - destruct Hfin as [H0 | [Hoff | (fib' & kept & Hf' & Hk & Hl)]];
        [contradiction | congruence |].
      destruct (generate_tractogram_writes f p ".trk" wn fib' kept Hf' Hk Hl)
        as (wg & Hrun & Hwritten & _).
      exists wg. split; [exact Hrun|]. intros _. rewrite Hwritten, lookup_insert_eq. eauto.
    - exists wn. split; [reflexivity | discriminate]. }
  destruct Hgen as (wg & Hgen & Hfibers).
  destruct (save_maps_writes E p g None None tdi (emit (EPrint "[ %.1f seconds ]") wg) Hfit)
    as (img1 & img2 & Hsave).
  eexists. split.
  { erewrite bind_ok by exact Hgen. erewrite bind_ok by reflexivity. exact Hsave. }
  split; [contradiction|]. intros _. cbn [files emit].
  split; [rewrite lookup_insert_ne by names_differ; rewrite lookup_insert_eq; eauto|].
  split; [rewrite lookup_insert_eq; eauto|].
  intros Hon.
  rewrite !lookup_insert_ne
    by (apply fibers_name_differs; [reflexivity|]; cbv [String.append]; discriminate).
  by apply Hfibers.
Qed.

Lemma deprecated_filename_trk_accepted_witness :
  exists w',
    run (Demo.environment Demo.native_keeps_two) Demo.deprecated_only Demo.world0
    = (Ok tt, w') /\
    is_Some (files w' !! "out/dictionary_tdi.nii.gz") /\
    is_Some (files w' !! "out/dictionary_TRK_fibers.trk").
Proof.
  set (E := Demo.environment Demo.native_keeps_two).
  set (a := Demo.deprecated_only).
  destruct (deprecated_filename_trk_accepted E a "out" "in/fibers.trk" Demo.world0
              Demo.fibers (Geometry (2, 2, 2) (1, 1, 1)%float 1000 3 0 0))
    as (_ & args & wp & Hname & Hout & Hfiles & Hrun);
    [ reflexivity | discriminate | reflexivity | demo_settings_pass
    | vm_compute; reflexivity | vm_compute; reflexivity | vm_compute; reflexivity
    | unfold usable_grid; cbn; lia | reflexivity | reflexivity | vm_compute; lia | ].
  destruct (Hrun 1 [1; 0; 0; 0; 0; 0; 0; 2]%float
              (set_files (insert (Path.join (na_path_out args) "dictionary_TRK_kept.dict")
                                 (FRaw [Byte.x01; Byte.x00; Byte.x01]))
                         (emit (ENative "out") wp)))
    as (w' & Hok & _ & Hmaps).
  - reflexivity.
  - right. right. exists Demo.fibers, [Byte.x01; Byte.x00; Byte.x01].
    cbn [files set_files emit]. rewrite Hout, Hfiles. split; [|split].
    + rewrite !lookup_insert_ne by (vm_compute; discriminate). vm_compute. reflexivity.
    + apply lookup_insert_eq.
    + reflexivity.
  - destruct (Hmaps ltac:(discriminate)) as (Htdi & _ & Hfib).
    exists w'. split; [exact Hok|]. split; [exact Htdi | exact (Hfib eq_refl)].
Defined.
